(** * Cardinal ticker plugin (plugins/ticker/plugin.py)

    A shallow embedding of the ticker plugin of the Cardinal IRC bot and
    the properties of it that its specification states.

    Python floats are IEEE binary64 numbers and are modelled by Rocq's
    primitive floats.  Python dicts keep insertion order and are modelled by
    association lists.  Methods that touch the plugin object, the clock, the
    network or the chat connection live in a state-and-exception monad over
    a [world]; exceptions leave the mutations made so far in place, as in
    Python. *)

From Stdlib Require Import ZArith List String Ascii Bool Lia.
From Stdlib Require Import DecimalString.
From Stdlib Require Import Floats.
Import ListNotations.

Set Warnings "-inexact-float".

Local Open Scope string_scope.
Local Open Scope Z_scope.

(** ** Python values the plugin handles *)

(** A [datetime] in the America/New_York zone: the proleptic Gregorian
    ordinal of its date ([date.toordinal()]) and its wall-clock time. *)
Record datetime : Type := mk_datetime {
  ordinal : Z;
  hour : Z;
  minute : Z;
  second : Z
}.

(** [dt - datetime.timedelta(days=n)]: the date moves, the wall-clock time
    stays.  (Clock readings are current dates, far from [datetime.min].) *)
Definition minus_days (dt : datetime) (n : Z) : datetime :=
  mk_datetime (ordinal dt - n) (hour dt) (minute dt) (second dt).

(** [dt.weekday()]: Monday is 0; ordinal 1 (0001-01-01) is a Monday. *)
Definition weekday (dt : datetime) : Z := (ordinal dt + 6) mod 7.

(** What [r.json()] returns. *)
#[warnings="-register-all"]
Inductive json : Type :=
| JNull
| JBool (b : bool)
| JNum (f : float)
| JStr (s : string)
| JArr (l : list json)
| JObj (kv : list (string * json)).

(** The exceptions the plugin can see. *)
Inductive exn : Type :=
| KeyError (key : string)
| ValueError (msg : string)
| IndexError (msg : string)
| NameError (name : string)
| TypeError (msg : string)
| AttributeError (msg : string)
| ZeroDivisionError
| ThrottledException (note : json)
| RequestError (msg : string)
| NoDataAsFarBack (day : datetime).

(** ** Dicts: association lists in insertion order *)

Definition dict (V : Type) : Type := list (string * V).

Fixpoint dict_get {V} (k : string) (d : dict V) : option V :=
  match d with
  | [] => None
  | (k', v) :: d' => if String.eqb k k' then Some v else dict_get k d'
  end.

(** [d[k] = v]: an existing key keeps its position, a new key goes last. *)
Fixpoint dict_set {V} (k : string) (v : V) (d : dict V) : dict V :=
  match d with
  | [] => [(k, v)]
  | (k', v') :: d' =>
      if String.eqb k k' then (k', v) :: d' else (k', v') :: dict_set k v d'
  end.

Fixpoint dict_del {V} (k : string) (d : dict V) : dict V :=
  match d with
  | [] => []
  | (k', v') :: d' =>
      if String.eqb k k' then d' else (k', v') :: dict_del k d'
  end.

Definition dict_keys {V} (d : dict V) : list string := map fst d.

Definition dict_mem {V} (k : string) (d : dict V) : bool :=
  match dict_get k d with Some _ => true | None => false end.

(** [d[k]] on a plain dict. *)
Definition dict_index {V} (k : string) (d : dict V) : exn + V :=
  match dict_get k d with
  | Some v => inr v
  | None => inl (KeyError k)
  end.

(** ** Strings *)

(** [needle in s] for two strings. *)
Fixpoint contains (needle s : string) : bool :=
  if String.prefix needle s then true
  else match s with
       | EmptyString => false
       | String _ s' => contains needle s'
       end.

(** [s[n:]] *)
Fixpoint drop_chars (n : nat) (s : string) : string :=
  match n, s with
  | O, _ => s
  | S n', String _ s' => drop_chars n' s'
  | S _, EmptyString => EmptyString
  end.

Definition upper_char (c : ascii) : ascii :=
  let n := nat_of_ascii c in
  if andb (Nat.leb 97 n) (Nat.leb n 122) then ascii_of_nat (n - 32) else c.

(** [s.upper()] on ASCII text. *)
Fixpoint upper (s : string) : string :=
  match s with
  | EmptyString => EmptyString
  | String c s' => String (upper_char c) (upper s')
  end.

(** [sep.join(parts)] *)
Fixpoint join (sep : string) (parts : list string) : string :=
  match parts with
  | [] => EmptyString
  | [p] => p
  | p :: rest => p ++ sep ++ join sep rest
  end.

(** The control characters of the IRC messages: bold and colour. *)
Definition x02 : string := String "002"%char EmptyString.
Definition x03 : string := String "003"%char EmptyString.

Definition string_of_Z (z : Z) : string := NilZero.string_of_int (Z.to_int z).

(** ** The interpreter's builtins

    Conversions between floats, dates and text are CPython's and are taken
    as an interface. *)
Class PyRuntime : Type := {
  (** [float(s)] for a string; [None] stands for [ValueError]. *)
  float_of_str : string -> option float;
  (** [str(f)] *)
  float_repr : float -> string;
  (** ['{:.2f}'.format(f)] *)
  float_fixed2 : float -> string;
  (** [dt.strftime(fmt)] *)
  strftime : string -> datetime -> string
}.

(** ** [str.format] *)

Inductive fmt_arg : Type :=
| ANone
| AStr (s : string)
| AInt (z : Z)
| AFloat (f : float).

Section Format.
Context {rt : PyRuntime}.

Definition py_str (a : fmt_arg) : string :=
  match a with
  | ANone => "None"
  | AStr s => s
  | AInt z => string_of_Z z
  | AFloat f => float_repr f
  end.

(** One replacement field rendered under its format spec; the plugin's
    templates use the empty spec and [.2f]. *)
Definition format_value (spec : string) (a : fmt_arg) : exn + string :=
  if String.eqb spec EmptyString then inr (py_str a)
  else if String.eqb spec ".2f" then
    match a with
    | AFloat f => inr (float_fixed2 f)
    | AInt z => inr (string_of_Z z ++ ".00")
    | AStr _ => inl (ValueError "Unknown format code 'f' for object of type 'str'")
    | ANone => inl (TypeError "unsupported format string passed to NoneType.__format__")
    end
  else inl (ValueError "Invalid format specifier").

(** A field's text split at its first colon into name and spec. *)
Fixpoint split_field (f : string) : string * string :=
  match f with
  | EmptyString => (EmptyString, EmptyString)
  | String c f' =>
      if Ascii.eqb c ":"%char then (EmptyString, f')
      else let (n, s) := split_field f' in (String c n, s)
  end.

(** [template.format(...)] with positional [args] and keyword [kwargs].
    [field] is the text of the replacement field being read, if any.  A
    field with an empty name takes the next positional argument, a named
    field a keyword argument.  (The plugin's templates have no doubled
    braces, no numbered fields and no conversions.) *)
Fixpoint format_go (template : string) (field : option string)
         (args : list fmt_arg) (kwargs : dict fmt_arg) : exn + string :=
  match template with
  | EmptyString =>
      match field with
      | None => inr EmptyString
      | Some _ => inl (ValueError "expected '}' before end of string")
      end
  | String c rest =>
      match field with
      | None =>
          if Ascii.eqb c "{"%char then format_go rest (Some EmptyString) args kwargs
          else if Ascii.eqb c "}"%char then
            inl (ValueError "Single '}' encountered in format string")
          else
            match format_go rest None args kwargs with
            | inr out => inr (String c out)
            | inl e => inl e
            end
      | Some f =>
          if Ascii.eqb c "}"%char then
            let (name, spec) := split_field f in
            let arg_rest :=
              if String.eqb name EmptyString then
                match args with
                | a :: args' => inr (a, args')
                | [] => inl (IndexError
                          "Replacement index out of range for positional args tuple")
                end
              else
                match dict_get name kwargs with
                | Some a => inr (a, args)
                | None => inl (KeyError name)
                end in
            match arg_rest with
            | inl e => inl e
            | inr (a, args') =>
                match format_value spec a with
                | inl e => inl e
                | inr piece =>
                    match format_go rest None args' kwargs with
                    | inr out => inr (piece ++ out)
                    | inl e => inl e
                    end
                end
            end
          else format_go rest (Some (f ++ String c EmptyString)) args kwargs
      end
  end.

Definition py_format (template : string) (args : list fmt_arg)
           (kwargs : dict fmt_arg) : exn + string :=
  format_go template None args kwargs.

End Format.

(** ** Module-level functions *)

(** This is actually max tries, not max retries (for API requests) *)
Definition MAX_RETRIES : nat := 3.
Definition RETRY_WAIT : Z := 15.

Section Pure.
Context {rt : PyRuntime}.

(** [get_delta(new_value, old_value)] (lines 61-62): float division by
    zero raises. *)
Definition get_delta (new_value old_value : float) : exn + float :=
  if PrimFloat.eqb old_value 0%float then inl ZeroDivisionError
  else inr (new_value / old_value * 100 - 100)%float.

(** [colorize(percentage)] (lines 65-69) *)
Definition colorize (percentage : float) : exn + string :=
  if PrimFloat.ltb 0%float percentage then
    py_format (x03 ++ "09{:.2f}%" ++ x03) [AFloat percentage] []
  else
    py_format (x03 ++ "04{:.2f}%" ++ x03) [AFloat percentage] [].

End Pure.

(** ** The plugin object and its surroundings *)

Inductive log_level : Type := LDebug | LWarning | LError | LException.

(** What the plugin does to the outside, in order. *)
Inductive event : Type :=
| HttpGet (url : string) (params : dict (option string))
| Sleep (secs : Z)
| Log (level : log_level) (msg : string)
| SendMsg (channel msg : string)
| CallLater (secs : Z).

(** [cardinal.bot.user_info] is imported, not defined in the plugin; by its
    uses there it is a record of [nick], [user] and [vhost].  A relay bot
    pattern leaves a field [None] to match anything. *)
Record user_info : Type := mk_user_info {
  ui_nick : option string;
  ui_user : option string;
  ui_vhost : option string
}.

(** The sender of a message, as the bot passes it to a command. *)
Record sender : Type := mk_sender {
  nick : string;
  user : string;
  vhost : string
}.

(** The configuration as handed to the constructor: any key may be absent. *)
Record raw_config : Type := mk_raw_config {
  raw_api_key : option string;
  raw_channels : option (list string);
  raw_stocks : option (dict string);
  raw_relay_bots : option (list (dict (option string)))
}.

(** [self.config] once the defaults are set. *)
Record config_t : Type := mk_config {
  api_key : option string;
  channels : list string;
  stocks : dict string;
  cfg_relay_bots : list (dict (option string))
}.

(** A stored prediction: (timestamp, base price, predicted price). *)
Definition prediction_t : Type := datetime * float * float.

(** What [get_daily] returns: a dict with exactly these four keys. *)
Record daily : Type := mk_daily {
  d_current : float;
  d_close : float;
  d_open : float;
  d_percentage : float
}.

(** The outside world the plugin reads: the [n]-th reading of the clock by
    [est_now], and the outcome of the [n]-th [requests.get(...).json()],
    an exception of [requests] or of the JSON decoder, or the decoded
    body. *)
Class Env : Type := {
  clock : nat -> datetime;
  http : nat -> dict (option string) -> exn + json
}.

Record world : Type := mk_world {
  config : config_t;
  relay_bots : list user_info;
  predictions : dict (dict prediction_t);
  call_id : option Z;
  events : list event;
  clock_reads : nat;
  requests_made : nat
}.

Definition set_config (c : config_t) (w : world) : world :=
  mk_world c (relay_bots w) (predictions w) (call_id w) (events w)
           (clock_reads w) (requests_made w).
Definition set_relay_bots (r : list user_info) (w : world) : world :=
  mk_world (config w) r (predictions w) (call_id w) (events w)
           (clock_reads w) (requests_made w).
Definition set_predictions (p : dict (dict prediction_t)) (w : world) : world :=
  mk_world (config w) (relay_bots w) p (call_id w) (events w)
           (clock_reads w) (requests_made w).
Definition set_call_id (c : option Z) (w : world) : world :=
  mk_world (config w) (relay_bots w) (predictions w) c (events w)
           (clock_reads w) (requests_made w).
Definition add_event (e : event) (w : world) : world :=
  mk_world (config w) (relay_bots w) (predictions w) (call_id w)
           (events w ++ [e]) (clock_reads w) (requests_made w).
Definition tick_clock (w : world) : world :=
  mk_world (config w) (relay_bots w) (predictions w) (call_id w) (events w)
           (S (clock_reads w)) (requests_made w).
Definition count_request (w : world) : world :=
  mk_world (config w) (relay_bots w) (predictions w) (call_id w) (events w)
           (clock_reads w) (S (requests_made w)).

(** ** The monad of plugin methods *)

Definition M (A : Type) : Type := world -> (exn + A) * world.

Definition ret {A} (a : A) : M A := fun w => (inr a, w).

Definition raise {A} (e : exn) : M A := fun w => (inl e, w).

Definition bind {A B} (m : M A) (k : A -> M B) : M B :=
  fun w =>
    match m w with
    | (inr a, w') => k a w'
    | (inl e, w') => (inl e, w')
    end.

Declare Scope py_scope.
Delimit Scope py_scope with py.
Notation "x <- m ;; k" := (bind m (fun x => k))
  (at level 100, m at next level, right associativity) : py_scope.
Notation "' pat <- m ;; k" := (bind m (fun x => match x with pat => k end))
  (at level 100, pat pattern, m at next level, right associativity) : py_scope.
Notation "m ;; k" := (bind m (fun _ => k))
  (at level 100, right associativity) : py_scope.
Local Open Scope py_scope.

(** A pure computation that may raise. *)
Definition lift {A} (r : exn + A) : M A :=
  match r with
  | inr a => ret a
  | inl e => raise e
  end.

(** [try: m] with the outcome handed to the [except]/[else] clauses. *)
Definition try_ {A} (m : M A) : M (exn + A) :=
  fun w => let (r, w') := m w in (inr r, w').

Definition gets {A} (f : world -> A) : M A := fun w => (inr (f w), w).

Definition modify (f : world -> world) : M unit := fun w => (inr tt, f w).

(** [for x in l: body x] *)
Fixpoint for_each {A} (l : list A) (body : A -> M unit) : M unit :=
  match l with
  | [] => ret tt
  | x :: l' => body x ;; for_each l' body
  end.

(** A [for] loop that updates local variables [s]. *)
Fixpoint for_fold {A S} (l : list A) (s : S) (body : A -> S -> M S) : M S :=
  match l with
  | [] => ret s
  | x :: l' => s' <- body x s ;; for_fold l' s' body
  end.

(** [defer.DeferredList(ds)]: every call runs to its own outcome, and the
    outcomes come back in the order of the calls.  The calls are run one
    after the other. *)
Fixpoint gather {A} (ds : list (M A)) : M (list (exn + A)) :=
  match ds with
  | [] => ret []
  | d :: ds' => r <- try_ d ;; rs <- gather ds' ;; ret (r :: rs)
  end.

(** A local variable that may not be bound yet. *)
Definition read_local {A} (name : string) (v : option A) : M A :=
  match v with
  | Some a => ret a
  | None => raise (NameError name)
  end.

(** Computations that may raise but touch nothing. *)
Definition ebind {A B} (r : exn + A) (k : A -> exn + B) : exn + B :=
  match r with
  | inr a => k a
  | inl e => inl e
  end.

Notation "x <~ r ;; k" := (ebind r (fun x => k))
  (at level 100, r at next level, right associativity) : py_scope.

(** ** JSON values seen through Python's operators *)

(** [needle in c] *)
Definition py_in (needle : string) (c : json) : exn + bool :=
  match c with
  | JObj kv => inr (dict_mem needle kv)
  | JStr s => inr (contains needle s)
  | JArr l =>
      inr (existsb (fun x => match x with
                             | JStr s => String.eqb s needle
                             | _ => false
                             end) l)
  | _ => inl (TypeError "argument is not iterable")
  end.

(** [c[key]] for a string key *)
Definition py_getitem (c : json) (key : string) : exn + json :=
  match c with
  | JObj kv => dict_index key kv
  | JArr _ | JStr _ => inl (TypeError "indices must be integers")
  | _ => inl (TypeError "object is not subscriptable")
  end.

Section Plugin.
Context {rt : PyRuntime} {env : Env}.

(** [float(v)] *)
Definition py_float (v : json) : exn + float :=
  match v with
  | JStr s =>
      match float_of_str s with
      | Some f => inr f
      | None => inl (ValueError "could not convert string to float")
      end
  | JNum f => inr f
  | JBool b => inr (if b then 1%float else 0%float)
  | _ => inl (TypeError "float() argument must be a string or a number")
  end.

(** [str(e)], as far as the plugin's messages need it. *)
Definition exn_message (e : exn) : string :=
  match e with
  | KeyError k => "'" ++ k ++ "'"
  | ValueError m | IndexError m | TypeError m | AttributeError m
  | RequestError m => m
  | NameError n => "name '" ++ n ++ "' is not defined"
  | ZeroDivisionError => "float division by zero"
  | ThrottledException (JStr s) => s
  | ThrottledException _ => "throttled"
  | NoDataAsFarBack d =>
      "Can't find data as far back as " ++ strftime "%Y-%m-%d %H:%M:%S%z" d
  end.

Definition AV_API_URL : string := "https://www.alphavantage.co/query".

Definition est_now : M datetime :=
  fun w => (inr (clock (clock_reads w)), tick_clock w).

(** Not aware of holidays or anything like that... (lines 44-54) *)
Definition market_is_open : M bool :=
  now <- est_now ;;
  let is_market_closed :=
    (weekday now >=? 5)
    || ((hour now <? 9) || (hour now >=? 17))
    || ((hour now =? 9) && (minute now <? 30))
    || ((hour now =? 16) && (minute now >? 0)) in
  ret (negb is_market_closed).

Definition sleep (secs : Z) : M unit := modify (add_event (Sleep secs)).

Definition log (level : log_level) (msg : string) : M unit :=
  modify (add_event (Log level msg)).

(** [self.cardinal.sendMsg(channel, message)] *)
Definition sendMsg (channel message : string) : M unit :=
  modify (add_event (SendMsg channel message)).

(** Python truthiness of an optional string. *)
Definition truthy_str (s : option string) : bool :=
  match s with
  | None => false
  | Some s => negb (String.eqb s EmptyString)
  end.

(** Tell the reactor to call tick() at the next 15 minute interval
    (lines 119-126) *)
Definition wait : M unit :=
  now <- est_now ;;
  let minutes_to_sleep := 15 - minute now mod 15 in
  modify (add_event (CallLater (minutes_to_sleep * 60))) ;;
  modify (set_call_id (Some (minutes_to_sleep * 60))).

Definition empty_raw_config : raw_config := mk_raw_config None None None None.

Definition or_default {A} (o : option A) (d : A) : A :=
  match o with Some a => a | None => d end.

(** The body of [for relay_bot in self.config['relay_bots']]. *)
Definition add_relay_bot (relay_bot : dict (option string)) : M unit :=
  n <- lift (dict_index "nick" relay_bot) ;;
  u <- lift (dict_index "user" relay_bot) ;;
  v <- lift (dict_index "vhost" relay_bot) ;;
  modify (fun w => set_relay_bots (relay_bots w ++ [mk_user_info n u v]) w).

(** [TickerPlugin.__init__(self, cardinal, config)] (lines 73-107) *)
Definition init (cfg : option raw_config) : M unit :=
  let raw := or_default cfg empty_raw_config in
  let c := mk_config (raw_api_key raw)
                     (or_default (raw_channels raw) [])
                     (or_default (raw_stocks raw) [])
                     (or_default (raw_relay_bots raw) []) in
  modify (set_config c) ;;
  (if Nat.eqb (List.length (channels c)) 0 then
     log LWarning
         "No channels for ticker defined in config --ticker will be disabled"
   else ret tt) ;;
  (if Nat.eqb (List.length (stocks c)) 0 then
     log LWarning
         "No stocks for ticker defined in config -- ticker will be disabled"
   else ret tt) ;;
  if negb (truthy_str (api_key c)) then
    raise (KeyError "Missing required api_key in ticker config")
  else if Nat.ltb 5 (List.length (stocks c)) then
    raise (ValueError "No more than 5 stocks may be present in ticker config")
  else
    modify (set_relay_bots []) ;;
    for_each (cfg_relay_bots c) add_relay_bot ;;
    modify (set_predictions []) ;;
    modify (set_call_id None) ;;
    wait.

Definition field_matches (pattern : option string) (value : string) : bool :=
  match pattern with
  | None => true
  | Some p => String.eqb p value
  end.

(** Compares a user against the registered relay bots. (lines 109-117) *)
Definition is_relay_bot (u : sender) : M bool :=
  bots <- gets relay_bots ;;
  ret (existsb (fun bot =>
                  field_matches (ui_nick bot) (nick u)
                  && field_matches (ui_user bot) (user u)
                  && field_matches (ui_vhost bot) (vhost u)) bots).

(** *** Requests to the API *)

(** [if 'Note' in result and 'call frequency' in result['Note']:
       raise ThrottledException(result['Note'])] *)
Definition detect_throttle (result : json) : exn + json :=
  has_note <~ py_in "Note" result ;;
  if (has_note : bool) then
    note <~ py_getitem result "Note" ;;
    throttled <~ py_in "call frequency" note ;;
    if (throttled : bool) then inl (ThrottledException note) else inr result
  else inr result.

(** What the [try] block of the [n]-th request comes to: an exception of
    the request, of the decoder or of the throttle check, or the result. *)
Definition attempt (n : nat) (params : dict (option string)) : exn + json :=
  result <~ http n params ;;
  detect_throttle result.

(** The body of the [try] in [make_av_request]. *)
Definition request (params : dict (option string)) : M json :=
  n <- gets requests_made ;;
  modify (add_event (HttpGet AV_API_URL params)) ;;
  modify count_request ;;
  lift (attempt n params).

(** The [while retries_remaining > 0] loop (lines 481-507).  It is entered with
    [result] unbound, so falling out of it without a request is an
    unbound local. *)
Fixpoint av_loop (retries_remaining : nat) (params : dict (option string))
  : M json :=
  match retries_remaining with
  | O => raise (NameError "result")
  | S remaining =>
      r <- try_ (request params) ;;
      match r with
      | inr result => ret result
      | inl e =>
          msg <- lift (py_format
                         "Failed to make request to AV API - retries remaining: {}"
                         [AInt (Z.of_nat remaining)] []) ;;
          log LException msg ;;
          if Nat.eqb remaining 0 then raise e
          else sleep RETRY_WAIT ;; av_loop remaining params
      end
  end.

(** [make_av_request(self, function, params)] (lines 473-509) *)
Definition make_av_request (function : string) (params : dict (option string))
  : M json :=
  key <- gets (fun w => api_key (config w)) ;;
  let params := dict_set "function" (Some function) params in
  let params := dict_set "apikey" key params in
  let params := dict_set "datatype" (Some "json") params in
  av_loop MAX_RETRIES params.

(** [{k[3:]: float(v) for k, v in values.items()}] *)
Fixpoint strip_items (kv : list (string * json)) (acc : dict float)
  : exn + dict float :=
  match kv with
  | [] => inr acc
  | (k, v) :: kv' =>
      f <~ py_float v ;;
      strip_items kv' (dict_set (drop_chars 3 k) f acc)
  end.

Definition strip_values (values : json) : exn + dict float :=
  match values with
  | JObj kv => strip_items kv []
  | _ => inl (AttributeError "object has no attribute 'items'")
  end.

(** The loop that replaces every day's values in place.  The pairs of a
    [JObj] have distinct keys, as the JSON decoder builds a dict. *)
Fixpoint convert_days (days : list (string * json))
  : exn + dict (dict float) :=
  match days with
  | [] => inr []
  | (date, values) :: days' =>
      values' <~ strip_values values ;;
      rest <~ convert_days days' ;;
      inr ((date, values') :: rest)
  end.

(** [get_time_series_daily(self, symbol, outputsize)] (lines 452-470) *)
Definition get_time_series_daily (symbol outputsize : string)
  : M (dict (dict float)) :=
  data <- make_av_request "TIME_SERIES_DAILY"
                          [("symbol", Some symbol);
                           ("outputsize", Some outputsize)] ;;
  series <- lift (match data with
                  | JObj kv =>
                      match dict_get "Time Series (Daily)" kv with
                      | Some s => inr s
                      | None =>
                          inl (KeyError
                                 "Response missing expected 'Time Series (Daily)' key")
                      end
                  | other => py_getitem other "Time Series (Daily)"
                  end) ;;
  match series with
  | JObj days => lift (convert_days days)
  | _ => raise (AttributeError "object has no attribute 'items'")
  end.

(** *** Daily values *)

(** [day.strftime('%Y-%m-%d')], the key of a day in the API's data. *)
Definition day_key (day : datetime) : string := strftime "%Y-%m-%d" day.

(** [while data.get(key(day), None) is None and count < 5:
       count += 1; day = day - timedelta(days=1)]
    with [tries] the steps left, [5 - count]; the day the loop ends on. *)
Fixpoint search_back (data : dict (dict float)) (day : datetime) (tries : nat)
  : datetime :=
  match tries with
  | O => day
  | S tries' =>
      match dict_get (day_key day) data with
      | None => search_back data (minus_days day 1) tries'
      | Some _ => day
      end
  end.

(** The end of [get_daily]: the result built from the values of the two
    days found. *)
Definition daily_of_values (current_value last_day_value : dict float)
  : exn + daily :=
  last_close <~ dict_index "close" last_day_value ;;
  current_close <~ dict_index "close" current_value ;;
  percentage <~ get_delta last_close current_close ;;
  current <~ dict_index "close" current_value ;;
  close <~ dict_index "close" current_value ;;
  open <~ dict_index "open" current_value ;;
  inr (mk_daily current close open percentage).

(** [get_daily] from the time series on: [now] is the reading of the
    clock. *)
Definition get_daily_at (data : dict (dict float)) (now : datetime)
  : exn + daily :=
  let today := search_back data now 5 in
  match dict_get (day_key today) data with
  | None => inl (NoDataAsFarBack today)
  | Some current_value =>
      let last_day := search_back data (minus_days today 1) 5 in
      match dict_get (day_key last_day) data with
      | None => inl (NoDataAsFarBack last_day)
      | Some last_day_value => daily_of_values current_value last_day_value
      end
  end.

(** [get_daily(self, symbol)] (lines 418-450) *)
Definition get_daily (symbol : string) : M daily :=
  data <- get_time_series_daily symbol "compact" ;;
  today <- est_now ;;
  lift (get_daily_at data today).

(** [get_daily_change(self, symbol)] (lines 413-416) *)
Definition get_daily_change (symbol : string) : M (string * float) :=
  res <- get_daily symbol ;;
  ret (symbol, d_percentage res).

(** *** Predictions *)

(** [self.predictions[symbol]]: a [defaultdict(dict)] makes the entry of a
    missing symbol. *)
Definition predictions_at (symbol : string) : M (dict prediction_t) :=
  fun w =>
    match dict_get symbol (predictions w) with
    | Some inner => (inr inner, w)
    | None => (inr [], set_predictions (dict_set symbol [] (predictions w)) w)
    end.

(** [save_prediction(self, symbol, nick, base, prediction)] (lines 410-411) *)
Definition save_prediction (symbol nick : string) (base prediction : float)
  : M unit :=
  now <- est_now ;;
  inner <- predictions_at symbol ;;
  modify (fun w =>
            set_predictions
              (dict_set symbol (dict_set nick (now, base, prediction) inner)
                        (predictions w)) w).

(** *** The ticker *)

(** [format_symbol(self, symbol, change)] (lines 208-213) *)
Definition format_symbol (symbol : string) (change : float) : M string :=
  names <- gets (fun w => stocks (config w)) ;;
  name <- lift (dict_index symbol names) ;;
  colored <- lift (colorize change) ;;
  lift (py_format ("{name} (" ++ x02 ++ "{symbol}" ++ x02 ++ "): {change}") []
                  [("symbol", AStr symbol); ("name", AStr name);
                   ("change", AStr colored)]).

(** The locals of [send_ticker] that its loops share: [results], and
    [symbol] and [change], which are unbound until a loop binds them. *)
Record ticker_locals : Type := mk_ticker_locals {
  results : dict (option float);
  symbol_var : option string;
  change_var : option float
}.

(** [del d[k]] *)
Definition py_del {V} (k : string) (d : dict V) : exn + dict V :=
  if dict_mem k d then inr (dict_del k d) else inl (KeyError k).

(** The body of [for success, result in dl_results] (lines 189-197). *)
Definition ticker_result (r : exn + string * float) (l : ticker_locals)
  : M ticker_locals :=
  match r with
  | inl failure =>
      msg <- lift (py_format
                     "Error fetching symbol {} for ticker -- skipping: {}"
                     [AStr (exn_message failure)] []) ;;
      log LError msg ;;
      symbol <- read_local "symbol" (symbol_var l) ;;
      results' <- lift (py_del symbol (results l)) ;;
      ret (mk_ticker_locals results' (symbol_var l) (change_var l))
  | inr (symbol, change) =>
      ret (mk_ticker_locals (dict_set symbol (Some change) (results l))
                            (Some symbol) (Some change))
  end.

(** The body of [for symbol, result in results.items()] (lines 201-202). *)
Definition ticker_part (change : option float) (item : string * option float)
           (message_parts : list string) : M (list string) :=
  let (symbol, result) := item in
  change <- read_local "change" change ;;
  part <- format_symbol symbol change ;;
  ret (message_parts ++ [part])%list.

(** [send_ticker] from the results of the [DeferredList] on
    (lines 177-178 and 187-206). *)
Definition send_ticker_results (dl_results : list (exn + string * float))
  : M unit :=
  names <- gets (fun w => stocks (config w)) ;;
  let results0 : dict (option float) :=
    fold_left (fun acc symbol => dict_set symbol None acc) (dict_keys names) [] in
  let l0 := mk_ticker_locals results0 (last (map Some (dict_keys names)) None)
                             None in
  l <- for_fold dl_results l0 ticker_result ;;
  message_parts <- for_fold (results l) [] (ticker_part (change_var l)) ;;
  let message := join " | " message_parts in
  chans <- gets (fun w => channels (config w)) ;;
  for_each chans (fun channel => sendMsg channel message).

(** [send_ticker(self)] (lines 172-206) *)
Definition send_ticker : M unit :=
  names <- gets (fun w => stocks (config w)) ;;
  dl_results <- gather (map get_daily_change (dict_keys names)) ;;
  send_ticker_results dl_results.

(** Python truthiness of [closest_delta]: [None] and zero are false. *)
Definition truthy_float (f : option float) : bool :=
  match f with
  | None => false
  | Some x => negb (PrimFloat.eqb x 0%float)
  end.

(** [send_prediction(self, nick, symbol, actual)] (lines 278-301) *)
Definition send_prediction (nick symbol : string) (actual : float) : M unit :=
  is_open <- market_is_open ;;
  let market_open_close := if (is_open : bool) then "open" else "close" in
  inner <- predictions_at symbol ;;
  '(dt, base, prediction) <- lift (dict_index nick inner) ;;
  chans <- gets (fun w => channels (config w)) ;;
  for_each chans (fun channel =>
    predicted_delta <- lift (get_delta prediction base) ;;
    predicted_text <- lift (colorize predicted_delta) ;;
    actual_delta <- lift (get_delta actual base) ;;
    actual_text <- lift (colorize actual_delta) ;;
    msg <- lift (py_format
                   ("Prediction by {} for " ++ x02 ++ "{}" ++ x02 ++ ": {} ({}). "
                    ++ "Actual value at {}: {} ({}). "
                    ++ "Prediction set at {}.")
                   [AStr nick; AStr symbol; AFloat prediction;
                    AStr predicted_text; AStr market_open_close; AFloat actual;
                    AStr actual_text;
                    AStr (strftime "%Y-%m-%d %H:%M:%S %Z" dt)] []) ;;
    sendMsg channel msg).

(** The locals of the loop over one symbol's predictions. *)
Record closest : Type := mk_closest {
  closest_prediction : option float;
  closest_delta : option float;
  closest_nick : option string
}.

Definition opt_arg {A} (f : A -> fmt_arg) (o : option A) : fmt_arg :=
  match o with
  | Some a => f a
  | None => ANone
  end.

(** The body of [for symbol in self.predictions] (lines 219-273). *)
Definition do_symbol (symbol : string) : M unit :=
  fetched <- try_ (data <- get_daily symbol ;;
                   is_open <- market_is_open ;;
                   ret (if (is_open : bool) then d_open data else d_close data)) ;;
  chans <- gets (fun w => channels (config w)) ;;
  match fetched with
  | inl e =>
      msg <- lift (py_format
                     "Failed to fetch information for symbol {} -- skipping"
                     [AStr symbol] []) ;;
      log LException msg ;;
      for_each chans (fun channel =>
        msg <- lift (py_format "Error with predictions for symbol {}."
                               [AStr symbol] []) ;;
        sendMsg channel msg)
  | inr actual =>
      inner <- predictions_at symbol ;;
      c <- for_fold inner (mk_closest None None None)
             (fun item c =>
                let '(nick, (dt, base, prediction)) := item in
                let delta := PrimFloat.abs (actual - prediction)%float in
                let c' :=
                  if negb (truthy_float (closest_delta c))
                     || match closest_delta c with
                        | Some cd => PrimFloat.ltb delta cd
                        | None => false
                        end
                  then mk_closest (Some prediction) (Some delta) (Some nick)
                  else c in
                send_prediction nick symbol actual ;;
                ret c') ;;
      for_each chans (fun channel =>
        inner <- predictions_at symbol ;;
        closest_change <-
          match closest_prediction c with
          | Some p => lift (get_delta p actual)
          | None => raise (TypeError "float() argument must be a string or a number")
          end ;;
        closest_text <- lift (colorize closest_change) ;;
        msg <- lift (py_format
                       ("{} had the closest guess for " ++ x02 ++ "{}" ++ x02
                        ++ " out of {} predictions with a prediction of {} ({}).")
                       [opt_arg AStr (closest_nick c); AStr symbol;
                        AInt (Z.of_nat (List.length inner));
                        opt_arg AFloat (closest_prediction c);
                        AStr closest_text] []) ;;
        sendMsg channel msg) ;;
      sleep 15
  end.

(** [do_predictions(self)] (lines 215-276) *)
Definition do_predictions : M unit :=
  symbols <- gets (fun w => dict_keys (predictions w)) ;;
  for_each symbols do_symbol ;;
  modify (set_predictions []).

(** Send a message with daily stock movements (lines 135-170) *)
Definition tick : M unit :=
  now <- est_now ;;
  let is_market_open :=
    negb ((weekday now >=? 5)
          || ((hour now <? 9) || (hour now >=? 17))
          || ((hour now =? 9) && (minute now <? 30))
          || ((hour now =? 16) && (minute now >? 0))) in
  let is_open := (hour now =? 9) && (minute now =? 30) in
  let is_close := (hour now =? 16) && (minute now =? 0) in
  let do_predictions_after := is_open || is_close in
  cfg <- gets config ;;
  let should_send_ticker :=
    is_market_open
    && negb (Nat.eqb (List.length (channels cfg)) 0)
    && negb (Nat.eqb (List.length (stocks cfg)) 0) in
  (if should_send_ticker then send_ticker else ret tt) ;;
  wait ;;
  if do_predictions_after then sleep 60 ;; do_predictions else ret tt.

(** *** Commands *)

(** The groups of a match of [PREDICT_REGEX]: the relayed nick, the
    symbol, the sign and the number. *)
Record predict_match : Type := mk_predict_match {
  pm_relayed : option string;
  pm_symbol : string;
  pm_sign : option string;
  pm_number : string
}.

(** The groups of a match of [CHECK_REGEX]. *)
Record check_match : Type := mk_check_match {
  cm_relayed : option string;
  cm_symbol : string
}.

(** [parse_prediction(self, user, message)] (lines 371-408) *)
Definition parse_prediction (u : sender) (m : predict_match)
  : M (option (string * string * float * float)) :=
  relay <- (if truthy_str (pm_relayed m) then is_relay_bot u else ret true) ;;
  if negb relay then ret None
  else
    let nick := if truthy_str (pm_relayed m)
                then or_default (pm_relayed m) (nick u) else nick u in
    let symbol := upper (pm_symbol m) in
    data <- get_daily symbol ;;
    is_open <- market_is_open ;;
    let base := if (is_open : bool) then d_open data else d_close data in
    prediction <- lift (py_float (JStr (pm_number m))) ;;
    let negative := match pm_sign m with
                    | Some s => String.eqb s "-"
                    | None => false
                    end in
    let prediction := (prediction * 0.01 * base)%float in
    let prediction := if negative then (base - prediction)%float
                      else (base + prediction)%float in
    ret (Some (nick, symbol, prediction, base)).

(** [predict(self, cardinal, user, channel, msg)] (lines 335-369) *)
Definition predict (u : sender) (channel : string) (m : predict_match)
  : M unit :=
  parsed <- parse_prediction u m ;;
  match parsed with
  | None => ret tt
  | Some (nick, symbol, prediction, base) =>
      inner <- predictions_at symbol ;;
      old_str <-
        match dict_get nick inner with
        | None => ret EmptyString
        | Some (dt, old_base, old_prediction) =>
            old_delta <- lift (get_delta old_prediction old_base) ;;
            old_text <- lift (colorize old_delta) ;;
            old_datetime <- read_local "old_datetime" (@None datetime) ;;
            lift (py_format
                    "(replaces old prediction of {:.2f} ({}) set at {})"
                    [AFloat old_prediction; AStr old_text;
                     AStr (strftime "%x %X %Z" old_datetime)] [])
        end ;;
      save_prediction symbol nick base prediction ;;
      is_open <- market_is_open ;;
      delta <- lift (get_delta prediction base) ;;
      text <- lift (colorize delta) ;;
      msg <- lift (py_format
                     ("Prediction by {} for " ++ x02 ++ "{}" ++ x02
                      ++ " at market {}: {:.2f} ({}) {}")
                     [AStr nick; AStr symbol;
                      AStr (if (is_open : bool) then "close" else "open");
                      AFloat prediction; AStr text; AStr old_str] []) ;;
      sendMsg channel msg
  end.

(** Check a specific stock for current value and daily change
    (lines 303-333) *)
Definition check (u : sender) (channel : string) (m : check_match) : M unit :=
  relay <- (if truthy_str (cm_relayed m) then is_relay_bot u else ret true) ;;
  if negb relay then ret tt
  else
    let nick := if truthy_str (cm_relayed m)
                then or_default (cm_relayed m) (nick u) else nick u in
    let symbol := upper (cm_symbol m) in
    fetched <- try_ (get_daily symbol) ;;
    match fetched with
    | inl exc =>
        msg <- lift (py_format "Error trying to look up symbol {}: {}"
                               [AStr symbol; AStr (exn_message exc)] []) ;;
        log LWarning msg ;;
        reply <- lift (py_format "{}: Is your symbol correct?" [AStr nick] []) ;;
        sendMsg channel reply
    | inr data =>
        text <- lift (colorize (d_percentage data)) ;;
        reply <- lift (py_format
                         ("Symbol: " ++ x02 ++ "{}" ++ x02
                          ++ " | Current: {} | Daily Change: {}")
                         [AStr symbol; AFloat (d_current data); AStr text] []) ;;
        sendMsg channel reply
    end.

(** [setup(cardinal, config)] (lines 512-513) *)
Definition setup (cfg : option raw_config) : M unit := init cfg.

End Plugin.

(** ** A runtime to run the model on

    Dates (from the year 1000 on) and two-decimal rendering are CPython's.
    [float(s)] reads plain decimal numerals ([digits] or [digits.digits]),
    and [str(f)] prints the fewest decimals that read back as [f], which is
    what CPython prints for values of up to fifteen digits.  Formats other
    than [%Y-%m-%d] print the date and the time. *)

(** Year, month and day of a proleptic Gregorian ordinal. *)
Definition civil_of_ordinal (n : Z) : Z * Z * Z :=
  let z := n + 305 in
  let era := z / 146097 in
  let doe := z - era * 146097 in
  let yoe := (doe - doe / 1460 + doe / 36524 - doe / 146096) / 365 in
  let doy := doe - (365 * yoe + yoe / 4 - yoe / 100) in
  let mp := (5 * doy + 2) / 153 in
  let d := doy - (153 * mp + 2) / 5 + 1 in
  let m := if mp <? 10 then mp + 3 else mp - 9 in
  let y := yoe + era * 400 in
  (if m <=? 2 then y + 1 else y, m, d).

(** [z] in decimal, padded with zeros to [width] digits. *)
Definition pad_Z (width : nat) (z : Z) : string :=
  let s := string_of_Z z in
  string_of_list_ascii (repeat "0"%char (width - String.length s)) ++ s.

Definition date_text (dt : datetime) : string :=
  let '(y, m, d) := civil_of_ordinal (ordinal dt) in
  pad_Z 4 y ++ "-" ++ pad_Z 2 m ++ "-" ++ pad_Z 2 d.

Definition time_text (dt : datetime) : string :=
  pad_Z 2 (hour dt) ++ ":" ++ pad_Z 2 (minute dt) ++ ":" ++ pad_Z 2 (second dt).

Definition demo_strftime (fmt : string) (dt : datetime) : string :=
  if String.eqb fmt "%Y-%m-%d" then date_text dt
  else date_text dt ++ " " ++ time_text dt.

(** [|f| * 10^decimals] rounded to the nearest integer, ties to even. *)
Definition scaled_round (decimals : nat) (m : positive) (e : Z) : Z :=
  let num := Zpos m * 10 ^ Z.of_nat decimals in
  if e >=? 0 then num * 2 ^ e
  else
    let den := 2 ^ (- e) in
    let q := num / den in
    let r := num mod den in
    if 2 * r <? den then q
    else if 2 * r >? den then q + 1
    else if Z.even q then q else q + 1.

(** ['{:.<decimals>f}'.format(f)] *)
Definition fixed (decimals : nat) (f : float) : string :=
  match Prim2SF f with
  | S754_nan => "nan"
  | S754_infinity s => if s then "-inf" else "inf"
  | S754_zero s => (if s then "-0." else "0.") ++ pad_Z decimals 0
  | S754_finite s m e =>
      let h := scaled_round decimals m e in
      let unit := 10 ^ Z.of_nat decimals in
      (if s then "-" else EmptyString)
      ++ string_of_Z (h / unit) ++ "." ++ pad_Z decimals (h mod unit)
  end.

Definition float_of_Z (z : Z) : float :=
  if z <? 0 then (- of_uint63 (Uint63.of_Z (- z)))%float
  else of_uint63 (Uint63.of_Z z).

Definition digit_of (c : ascii) : option Z :=
  let n := nat_of_ascii c in
  if andb (Nat.leb 48 n) (Nat.leb n 57) then Some (Z.of_nat (n - 48)) else None.

(** Digits read into [acc]; [scale] counts the digits after the point once
    the point has been passed. *)
Fixpoint read_decimal (s : string) (acc : Z) (scale : option nat)
  : option (Z * nat) :=
  match s with
  | EmptyString => Some (acc, or_default scale O)
  | String c s' =>
      if Ascii.eqb c "."%char then
        match scale, s' with
        | None, String _ _ => read_decimal s' acc (Some O)
        | _, _ => None
        end
      else
        match digit_of c with
        | Some d => read_decimal s' (acc * 10 + d) (option_map S scale)
        | None => None
        end
  end.

Definition demo_float_of_str (s : string) : option float :=
  match s with
  | EmptyString => None
  | String "."%char _ => None
  | _ =>
      match read_decimal s 0 None with
      | Some (m, k) => Some (float_of_Z m / float_of_Z (10 ^ Z.of_nat k))%float
      | None => None
      end
  end.

Fixpoint shortest_fixed (tries decimals : nat) (f : float) : string :=
  let s := fixed decimals f in
  match tries with
  | O => s
  | S tries' =>
      match Prim2SF f with
      | S754_finite sign m e =>
          let back := (float_of_Z (scaled_round decimals m e)
                       / float_of_Z (10 ^ Z.of_nat decimals))%float in
          if PrimFloat.eqb back (PrimFloat.abs f) then s
          else shortest_fixed tries' (S decimals) f
      | _ => s
      end
  end.

Definition demo_float_repr (f : float) : string := shortest_fixed 16 1 f.

Definition demo_runtime : PyRuntime :=
  Build_PyRuntime demo_float_of_str demo_float_repr (fixed 2) demo_strftime.

(** ** Scenarios

    A small market to run the plugin on: the API's daily series of two
    symbols, a clock that stands at Tuesday 2019-03-05 11:00 New York time,
    and a plugin built by its own constructor. *)

Definition day_values (open high low close volume : string) : json :=
  JObj [("1. open", JStr open); ("2. high", JStr high); ("3. low", JStr low);
        ("4. close", JStr close); ("5. volume", JStr volume)].

Definition series_body (symbol : string) (days : list (string * json)) : json :=
  JObj [("Meta Data", JObj [("2. Symbol", JStr symbol)]);
        ("Time Series (Daily)", JObj days)].

(** AAPL closed at 100 on Monday and at 110 on Tuesday. *)
Definition aapl_body : json :=
  series_body "AAPL"
    [("2019-03-05", day_values "108.0000" "111.0000" "107.0000" "110.0000" "1000");
     ("2019-03-04", day_values "99.0000" "101.0000" "98.0000" "100.0000" "1200");
     ("2019-03-01", day_values "97.0000" "99.5000" "96.0000" "99.0000" "900")].

(** MSFT closed at 200 on Monday and at 210 on Tuesday. *)
Definition msft_body : json :=
  series_body "MSFT"
    [("2019-03-05", day_values "205.0000" "211.0000" "204.0000" "210.0000" "500");
     ("2019-03-04", day_values "198.0000" "201.0000" "197.0000" "200.0000" "700")].

(** The days of the AAPL answer. *)
Definition aapl_series : list (string * json) :=
  match py_getitem aapl_body "Time Series (Daily)" with
  | inr (JObj days) => days
  | _ => []
  end.

Definition tuesday_11am : datetime := mk_datetime 737123 11 0 0.

Definition monday_10am : datetime := mk_datetime 737122 10 0 0.

Definition sunday_noon : datetime := mk_datetime 737128 12 0 0.

(** The AAPL series as [get_time_series_daily] hands it on. *)
Definition aapl_days : dict (dict float) :=
  [("2019-03-05", [("open", 108); ("high", 111); ("low", 107); ("close", 110);
                   ("volume", 1000)]);
   ("2019-03-04", [("open", 99); ("high", 101); ("low", 98); ("close", 100);
                   ("volume", 1200)]);
   ("2019-03-01", [("open", 97); ("high", 99.5); ("low", 96); ("close", 99);
                   ("volume", 900)])]%float.

Definition symbol_of (params : dict (option string)) : string :=
  match dict_get "symbol" params with
  | Some (Some s) => s
  | _ => EmptyString
  end.

(** Every request is answered. *)
Definition market_env : Env :=
  Build_Env (fun _ => tuesday_11am)
            (fun _ params =>
               if String.eqb (symbol_of params) "AAPL" then inr aapl_body
               else if String.eqb (symbol_of params) "MSFT" then inr msft_body
               else inl (RequestError "unknown symbol")).

(** The same market on Monday 2019-03-04 at 10:00, before Tuesday's
    prices exist. *)
Definition monday_env : Env :=
  Build_Env (fun _ => monday_10am)
            (fun _ params =>
               if String.eqb (symbol_of params) "AAPL"
               then inr (series_body "AAPL"
                           [("2019-03-04",
                             day_values "99.0000" "101.0000" "98.0000"
                                        "100.0000" "1200");
                            ("2019-03-01",
                             day_values "97.0000" "99.5000" "96.0000"
                                        "99.0000" "900")])
               else inl (RequestError "unknown symbol")).

(** Requests for AAPL time out; those for MSFT are answered. *)
Definition aapl_down_env : Env :=
  Build_Env (fun _ => tuesday_11am)
            (fun _ params =>
               if String.eqb (symbol_of params) "MSFT" then inr msft_body
               else inl (RequestError "connection timed out")).

(** Every request is answered with the API's error body, as for a symbol
    it does not know. *)
Definition error_body : json :=
  JObj [("Error Message", JStr "Invalid API call.")].

Definition unknown_symbol_env : Env :=
  Build_Env (fun _ => tuesday_11am) (fun _ _ => inr error_body).

(** No request is ever answered. *)
Definition offline_env : Env :=
  Build_Env (fun _ => tuesday_11am)
            (fun _ _ => inl (RequestError "connection timed out")).

Definition blank_world : world :=
  mk_world (mk_config None [] [] []) [] [] None [] 0 0.

Definition two_stocks : raw_config :=
  mk_raw_config (Some "demo-key") (Some ["#stocks"])
                (Some [("AAPL", "Apple"); ("MSFT", "Microsoft")]) None.

(** The plugin as its constructor leaves it. *)
Definition fresh_plugin : world :=
  snd (init (env := market_env) (Some two_stocks) blank_world).

Definition alice : sender := mk_sender "alice" "al" "example.org".

(** A plugin with one relay bot, known by its nick alone, and the bot
    itself as a sender. *)
Definition relay_config : raw_config :=
  mk_raw_config (Some "demo-key") (Some ["#stocks"])
                (Some [("AAPL", "Apple"); ("MSFT", "Microsoft")])
                (Some [[("nick", Some "relay"); ("user", None);
                        ("vhost", None)]]).

Definition relay_plugin : world :=
  snd (init (env := market_env) (Some relay_config) blank_world).

Definition relay : sender := mk_sender "relay" "bridge" "chat.example.org".

(** [!predict aapl +5%] and [!predict aapl -2.5%] *)
Definition aapl_up_5 : predict_match :=
  mk_predict_match None "aapl" (Some "+") "5".

Definition aapl_down_2_5 : predict_match :=
  mk_predict_match None "aapl" (Some "-") "2.5".

(** The plugin after alice's [!predict aapl +5%] in [#stocks]. *)
Definition one_prediction : world :=
  snd (predict (rt := demo_runtime) (env := market_env) alice "#stocks" aapl_up_5
               fresh_plugin).

(** Sunday at noon and Saturday at 09:30, with the API out of reach. *)
Definition saturday_0930 : datetime := mk_datetime 737127 9 30 0.

Definition sunday_env : Env :=
  Build_Env (fun _ => sunday_noon)
            (fun _ _ => inl (RequestError "connection timed out")).

Definition saturday_env : Env :=
  Build_Env (fun _ => saturday_0930)
            (fun _ _ => inl (RequestError "connection timed out")).

(** The plugin holding two predictions for AAPL made on Tuesday at 11:00
    from the open of 108: alice's of 108 and bob's of 120. *)
Definition two_predictions : world :=
  set_predictions
    [("AAPL", [("alice", (tuesday_11am, 108, 108)%float);
               ("bob", (tuesday_11am, 108, 120)%float)])]
    fresh_plugin.

(** ** What the specification's words stand for *)

(** The green and the red rendering of a percentage. *)
Definition green_text {rt : PyRuntime} (percentage : float) : string :=
  x03 ++ "09" ++ float_fixed2 percentage ++ "%" ++ x03.

Definition red_text {rt : PyRuntime} (percentage : float) : string :=
  x03 ++ "04" ++ float_fixed2 percentage ++ "%" ++ x03.

(** [predictions[symbol][nick]], read without touching the mapping. *)
Definition stored (p : dict (dict prediction_t)) (symbol nick : string)
  : option prediction_t :=
  match dict_get symbol p with
  | Some inner => dict_get nick inner
  | None => None
  end.

(** The day has an entry in the API's data. *)
Definition has_day {rt : PyRuntime} (data : dict (dict float)) (day : datetime)
  : bool :=
  dict_mem (day_key day) data.

(** The requests made and the chat messages sent among a list of events. *)
Definition requests_sent (evs : list event) : nat :=
  List.length (filter (fun e => match e with HttpGet _ _ => true | _ => false end)
                      evs).

Definition messages_sent (evs : list event) : list (string * string) :=
  flat_map (fun e => match e with
                     | SendMsg channel msg => [(channel, msg)]
                     | _ => []
                     end) evs.

(** The lengths of the pauses among a list of events. *)
Definition pauses (evs : list event) : list Z :=
  flat_map (fun e => match e with
                     | Sleep secs => [secs]
                     | _ => []
                     end) evs.

(** The requests after the first one. *)
Definition retries (evs : list event) : nat := requests_sent evs - 1.

(** The parameters [make_av_request] sends. *)
Definition final_params (key : option string) (function : string)
           (params : dict (option string)) : dict (option string) :=
  dict_set "datatype" (Some "json")
           (dict_set "apikey" key (dict_set "function" (Some function) params)).

(** The log record of a failed attempt. *)
Definition retry_log (remaining : Z) : event :=
  Log LException
      ("Failed to make request to AV API - retries remaining: "
       ++ string_of_Z remaining).

(** The world [n] requests and the events [evs] later. *)
Definition after (w : world) (evs : list event) (n : nat) : world :=
  mk_world (config w) (relay_bots w) (predictions w) (call_id w)
           (events w ++ evs) (clock_reads w) (n + requests_made w).

(** A relay bot entry of the configuration names all three fields. *)
Definition complete_relay_bot (relay_bot : dict (option string)) : bool :=
  dict_mem "nick" relay_bot && dict_mem "user" relay_bot
  && dict_mem "vhost" relay_bot.

(** A method call ended in an exception. *)
Definition raised {A} (r : (exn + A) * world) : bool :=
  match fst r with
  | inl _ => true
  | inr _ => false
  end.

(** Events that stay between the plugin and the API: requests, pauses and
    log records. *)
Definition quiet (e : event) : bool :=
  match e with
  | HttpGet _ _ | Sleep _ | Log _ _ => true
  | SendMsg _ _ | CallLater _ => false
  end.

(** [w'] is [w] after network traffic alone: the plugin object is as it
    was, nothing was said in a channel and no call was scheduled. *)
Definition network_only (w w' : world) : Prop :=
  config w' = config w
  /\ relay_bots w' = relay_bots w
  /\ predictions w' = predictions w
  /\ call_id w' = call_id w
  /\ exists evs, events w' = (events w ++ evs)%list /\ forallb quiet evs = true.

(** Minutes since midnight of a clock reading. *)
Definition minute_of_day (dt : datetime) : Z := 60 * hour dt + minute dt.

(** A relay bot pattern matches a sender. *)
Definition bot_matches (bot : user_info) (u : sender) : Prop :=
  (ui_nick bot = None \/ ui_nick bot = Some (nick u))
  /\ (ui_user bot = None \/ ui_user bot = Some (user u))
  /\ (ui_vhost bot = None \/ ui_vhost bot = Some (vhost u)).

(** Some registered relay bot matches the sender. *)
Definition relay_matches (u : sender) (w : world) : bool :=
  existsb (fun bot =>
             field_matches (ui_nick bot) (nick u)
             && field_matches (ui_user bot) (user u)
             && field_matches (ui_vhost bot) (vhost u)) (relay_bots w).

(** The nick a command is taken to come from: the sender's, or the relayed
    one when a relay bot sent the message; [None] when a relayed message
    comes from someone who is no relay bot. *)
Definition command_nick (relayed : option string) (u : sender) (w : world)
  : option string :=
  if truthy_str relayed then
    if relay_matches u w then relayed else None
  else Some (nick u).

(** Monday to Friday, 09:30 to 16:00. *)
Definition within_hours (now : datetime) : bool :=
  (weekday now <? 5)
  && (570 <=? minute_of_day now) && (minute_of_day now <=? 960).

(** The predictions made for a symbol. *)
Definition predictions_for (p : dict (dict prediction_t)) (symbol : string)
  : dict prediction_t :=
  or_default (dict_get symbol p) [].

(** An outcome of a [DeferredList] that is a failure. *)
Definition is_failure {A} (r : exn + A) : bool :=
  match r with
  | inl _ => true
  | inr _ => false
  end.

(** The world after [message] went to each of [chans], in order. *)
Definition after_messages (chans : list string) (message : string) (w : world)
  : world :=
  fold_left (fun w' channel => add_event (SendMsg channel message) w') chans w.

(** The relay bot pattern an entry of the configuration stands for. *)
Definition relay_bot_of (entry : dict (option string)) : user_info :=
  mk_user_info (or_default (dict_get "nick" entry) None)
               (or_default (dict_get "user" entry) None)
               (or_default (dict_get "vhost" entry) None).

(** The delays of the calls scheduled among a list of events. *)
Definition calls_scheduled (evs : list event) : list Z :=
  flat_map (fun e => match e with
                     | CallLater secs => [secs]
                     | _ => []
                     end) evs.

(** The notices of failure of [do_predictions]: for every symbol in turn,
    one to every channel. *)
Definition prediction_errors (symbols chans : list string)
  : list (string * string) :=
  flat_map (fun symbol =>
              map (fun channel =>
                     (channel,
                      "Error with predictions for symbol " ++ symbol ++ "."))
                  chans) symbols.

(** The base price of a stored prediction. *)
Definition base_of (p : prediction_t) : float :=
  let '(_, base, _) := p in base.

(** One text to every channel, for each text in turn. *)
Definition to_channels (chans texts : list string) : list (string * string) :=
  flat_map (fun text => map (fun channel => (channel, text)) chans) texts.

(** What the loop over a symbol's predictions does to its three locals at
    one prediction (lines 245-250), and where it leaves them. *)
Definition closest_step (actual : float) (c : closest)
           (item : string * prediction_t) : closest :=
  let '(nick, (dt, base, prediction)) := item in
  let delta := PrimFloat.abs (actual - prediction)%float in
  if negb (truthy_float (closest_delta c))
     || match closest_delta c with
        | Some cd => PrimFloat.ltb delta cd
        | None => false
        end
  then mk_closest (Some prediction) (Some delta) (Some nick)
  else c.

Definition closest_of (actual : float) (inner : dict prediction_t) : closest :=
  fold_left (closest_step actual) inner (mk_closest None None None).

(** The loop over a symbol's predictions has seen one. *)
Definition started (c : closest) : Prop :=
  exists prediction delta nick,
    c = mk_closest (Some prediction) (Some delta) (Some nick).

(** * Properties *)

(** ** Dicts *)

Lemma dict_get_set_same : forall V (d : dict V) k v,
  dict_get k (dict_set k v d) = Some v.
Proof.
  induction d as [|[k' v'] d IH]; intros k v; simpl.
  - now rewrite String.eqb_refl.
  - destruct (String.eqb k k') eqn:E; simpl; rewrite E; auto.
Qed.

Lemma dict_get_set_other : forall V (d : dict V) k k' v,
  k' <> k -> dict_get k' (dict_set k v d) = dict_get k' d.
Proof.
  induction d as [|[k0 v0] d IH]; intros k k' v Hne; simpl.
  - apply String.eqb_neq in Hne. now rewrite Hne.
  - destruct (String.eqb k k0) eqn:E; simpl.
    + apply String.eqb_eq in E. subst k0.
      apply String.eqb_neq in Hne. now rewrite Hne.
    + destruct (String.eqb k' k0); auto.
Qed.

Lemma dict_mem_set_same : forall V (d : dict V) k v,
  dict_mem k (dict_set k v d) = true.
Proof. intros. unfold dict_mem. now rewrite dict_get_set_same. Qed.

(** ** Strings and the monad *)

Lemma append_empty_r : forall s : string, s ++ EmptyString = s.
Proof. induction s as [|c s IH]; simpl; [reflexivity | now rewrite IH]. Qed.

Lemma lift_run : forall A (r : exn + A) w, lift r w = (r, w).
Proof. intros A [e|a] w; reflexivity. Qed.

(** ** colorize *)

Section Colorize.
Context {rt : PyRuntime}.

Lemma colorize_positive : forall p,
  PrimFloat.ltb 0%float p = true -> colorize p = inr (green_text p).
Proof. intros p H. unfold colorize. rewrite H. reflexivity. Qed.

Lemma colorize_not_positive : forall p,
  PrimFloat.ltb 0%float p = false -> colorize p = inr (red_text p).
Proof. intros p H. unfold colorize. rewrite H. reflexivity. Qed.

Lemma green_not_red : forall p q, green_text p <> red_text q.
Proof. intros p q H. unfold green_text, red_text in H. discriminate H. Qed.

(** C10: colorize returns the green format exactly when the percentage is
    strictly greater than zero, and the red format otherwise; a percentage
    of exactly zero gets the red colour code. *)
Theorem colorize_green_iff_positive : forall p,
  (colorize p = inr (green_text p) <-> PrimFloat.ltb 0%float p = true)
  /\ (colorize p = inr (red_text p) <-> PrimFloat.ltb 0%float p = false)
  /\ colorize 0%float = inr (red_text 0%float).
Proof.
  intros p. split; [|split].
  - split.
    + destruct (PrimFloat.ltb 0%float p) eqn:E; auto.
      rewrite (colorize_not_positive p E). intros H.
      exfalso. apply (green_not_red p p). congruence.
    + apply colorize_positive.
  - split.
    + destruct (PrimFloat.ltb 0%float p) eqn:E; auto.
      rewrite (colorize_positive p E). intros H.
      exfalso. apply (green_not_red p p). congruence.
    + apply colorize_not_positive.
  - now apply colorize_not_positive.
Qed.

End Colorize.

(** On the values 1.5, 0 and -2.25, with CPython's rendering. *)
Example colorize_examples :
  colorize (rt := demo_runtime) 1.5%float = inr (x03 ++ "091.50%" ++ x03)
  /\ colorize (rt := demo_runtime) 0%float = inr (x03 ++ "040.00%" ++ x03)
  /\ colorize (rt := demo_runtime) (-2.25)%float = inr (x03 ++ "04-2.25%" ++ x03).
Proof. repeat split; vm_compute; reflexivity. Qed.

(** ** save_prediction *)

Section SavePrediction.
Context {env : Env}.

(** C7: save_prediction stores exactly (the clock's reading, base price,
    predicted price) at predictions[symbol][nick] and leaves the entry of
    every other (symbol, nick) pair as it was; it never raises, and it
    touches nothing else of the plugin. *)
Theorem save_prediction_stores : forall w symbol nick base prediction,
  let r := save_prediction symbol nick base prediction w in
  fst r = inr tt
  /\ stored (predictions (snd r)) symbol nick
     = Some (clock (clock_reads w), base, prediction)
  /\ (forall s n, s <> symbol \/ n <> nick ->
        stored (predictions (snd r)) s n = stored (predictions w) s n)
  /\ config (snd r) = config w
  /\ events (snd r) = events w.
Proof.
  intros w symbol nick base prediction.
  unfold save_prediction, bind, est_now, predictions_at, modify, stored.
  simpl.
  destruct (dict_get symbol (predictions w)) as [inner|] eqn:E; simpl.
  - split; [reflexivity|]. split.
    + rewrite dict_get_set_same. apply dict_get_set_same.
    + split; [|split; reflexivity].
      intros s n Hne.
      destruct (String.eqb s symbol) eqn:Es.
      * apply String.eqb_eq in Es. subst s.
        rewrite dict_get_set_same, E.
        destruct Hne as [Hne|Hne]; [contradiction|].
        now apply dict_get_set_other.
      * apply String.eqb_neq in Es.
        now rewrite dict_get_set_other.
  - split; [reflexivity|]. split.
    + rewrite dict_get_set_same. simpl. now rewrite String.eqb_refl.
    + split; [|split; reflexivity].
      intros s n Hne.
      destruct (String.eqb s symbol) eqn:Es.
      * apply String.eqb_eq in Es. subst s.
        rewrite dict_get_set_same, E.
        destruct Hne as [Hne|Hne]; [contradiction|].
        apply String.eqb_neq in Hne. simpl. now rewrite Hne.
      * apply String.eqb_neq in Es.
        now rewrite !dict_get_set_other.
Qed.

End SavePrediction.

(** A second prediction next to a first one. *)
Example save_prediction_example :
  let w := snd (save_prediction (env := market_env) "AAPL" "alice" 108 113.4
                                fresh_plugin) in
  predictions (snd (save_prediction (env := market_env) "MSFT" "bob" 205 200 w))
  = [("AAPL", [("alice", (tuesday_11am, 108, 113.4))]);
     ("MSFT", [("bob", (tuesday_11am, 205, 200))])]%float.
Proof. vm_compute. reflexivity. Qed.

(** ** get_daily: the percentage *)

Section DailyValues.
Context {rt : PyRuntime}.

(** The percentage [get_daily] returns is
    (previous close / latest close) * 100 - 100: the two closing prices
    reach [get_delta] in the order (old, new). *)
Lemma daily_of_values_percentage : forall current_value last_day_value d,
  daily_of_values current_value last_day_value = inr d ->
  exists latest previous,
    dict_get "close" current_value = Some latest
    /\ dict_get "close" last_day_value = Some previous
    /\ d_current d = latest
    /\ d_percentage d = (previous / latest * 100 - 100)%float.
Proof.
  intros cv lv d. unfold daily_of_values, dict_index, ebind, get_delta.
  destruct (dict_get "close" lv) as [previous|]; [|discriminate].
  destruct (dict_get "close" cv) as [latest|]; [|discriminate].
  destruct (PrimFloat.eqb latest 0); [discriminate|].
  destruct (dict_get "open" cv) as [o|]; [|discriminate].
  intros H. injection H as H. subst d. simpl.
  exists latest, previous. auto.
Qed.

End DailyValues.

(** C1: AAPL closed at 100 on Monday and at 110 on Tuesday, a rise of ten
    percent.  get_daily reports (100 / 110) * 100 - 100, a fall of about
    nine percent, where the claim's formula (110 / 100) * 100 - 100 gives
    a rise. *)
Theorem get_daily_percentage_swapped :
  fst (get_daily (rt := demo_runtime) (env := market_env) "AAPL" fresh_plugin)
  = inr (mk_daily 110 110 108 (100 / 110 * 100 - 100))%float
  /\ PrimFloat.ltb (100 / 110 * 100 - 100) 0 = true
  /\ get_delta 110 100 = inr (110 / 100 * 100 - 100)%float
  /\ PrimFloat.ltb 0 (110 / 100 * 100 - 100) = true.
Proof. repeat split; vm_compute; reflexivity. Qed.

(** ** get_daily: the search for the two latest days *)

Lemma minus_days_0 : forall d, minus_days d 0 = d.
Proof. intros [o h m s]. unfold minus_days. simpl. f_equal. lia. Qed.

Lemma minus_days_add : forall d a b,
  minus_days (minus_days d a) b = minus_days d (a + b).
Proof. intros [o h m s] a b. unfold minus_days. simpl. f_equal. lia. Qed.

Section DateSearch.
Context {rt : PyRuntime}.

Lemma has_day_true : forall data day,
  has_day data day = true -> exists v, dict_get (day_key day) data = Some v.
Proof.
  intros data day. unfold has_day, dict_mem.
  destruct (dict_get (day_key day) data) as [v|]; [eauto|discriminate].
Qed.

Lemma has_day_false : forall data day,
  has_day data day = false -> dict_get (day_key day) data = None.
Proof.
  intros data day. unfold has_day, dict_mem.
  destruct (dict_get (day_key day) data) as [v|]; [discriminate|auto].
Qed.

(** The loop stops on the first day, counting back from [day], that the
    data has, if that day is at most [tries] days back. *)
Lemma search_back_found : forall tries data day k,
  (k <= tries)%nat ->
  has_day data (minus_days day (Z.of_nat k)) = true ->
  (forall i, (i < k)%nat -> has_day data (minus_days day (Z.of_nat i)) = false) ->
  search_back data day tries = minus_days day (Z.of_nat k).
Proof.
  induction tries as [|tries IH]; intros data day k Hk Hin Hout.
  - assert (k = 0%nat) by lia. subst k. simpl. now rewrite minus_days_0.
  - destruct k as [|k].
    + simpl Z.of_nat in *. rewrite minus_days_0 in *.
      apply has_day_true in Hin. destruct Hin as [v Hv]. simpl. now rewrite Hv.
    + assert (H0 : has_day data day = false).
      { rewrite <- (minus_days_0 day). apply (Hout 0%nat). lia. }
      apply has_day_false in H0. simpl search_back. rewrite H0.
      rewrite (IH data (minus_days day 1) k).
      * rewrite minus_days_add. f_equal. lia.
      * lia.
      * rewrite minus_days_add. now replace (1 + Z.of_nat k) with (Z.of_nat (S k)) by lia.
      * intros i Hi. rewrite minus_days_add.
        replace (1 + Z.of_nat i) with (Z.of_nat (S i)) by lia.
        apply Hout. lia.
Qed.

(** With no such day the loop gives up [tries] days back. *)
Lemma search_back_missing : forall tries data day,
  (forall i, (i < tries)%nat -> has_day data (minus_days day (Z.of_nat i)) = false) ->
  search_back data day tries = minus_days day (Z.of_nat tries).
Proof.
  induction tries as [|tries IH]; intros data day Hout.
  - simpl. now rewrite minus_days_0.
  - assert (H0 : has_day data day = false).
    { rewrite <- (minus_days_0 day). apply (Hout 0%nat). lia. }
    apply has_day_false in H0. simpl search_back. rewrite H0.
    rewrite IH.
    + rewrite minus_days_add. f_equal. lia.
    + intros i Hi. rewrite minus_days_add.
      replace (1 + Z.of_nat i) with (Z.of_nat (S i)) by lia.
      apply Hout. lia.
Qed.

(** The two searches of [get_daily], on the data and the clock's reading:
    the latest day with data among [now] and the 5 days before it, then the
    latest among the 6 days before that one. *)
Lemma get_daily_at_searches_back : forall data now,
  ((forall k, (k <= 5)%nat ->
      has_day data (minus_days now (Z.of_nat k)) = false) ->
   get_daily_at data now = inl (NoDataAsFarBack (minus_days now 5)))
  /\ (forall k, (k <= 5)%nat ->
      has_day data (minus_days now (Z.of_nat k)) = true ->
      (forall i, (i < k)%nat ->
         has_day data (minus_days now (Z.of_nat i)) = false) ->
      let today := minus_days now (Z.of_nat k) in
      ((forall j, (j <= 5)%nat ->
          has_day data (minus_days today (1 + Z.of_nat j)) = false) ->
       get_daily_at data now = inl (NoDataAsFarBack (minus_days today 6)))
      /\ (forall j, (j <= 5)%nat ->
          has_day data (minus_days today (1 + Z.of_nat j)) = true ->
          (forall i, (i < j)%nat ->
             has_day data (minus_days today (1 + Z.of_nat i)) = false) ->
          exists current_value last_day_value,
            dict_get (day_key today) data = Some current_value
            /\ dict_get (day_key (minus_days today (1 + Z.of_nat j))) data
               = Some last_day_value
            /\ get_daily_at data now
               = daily_of_values current_value last_day_value)).
Proof.
  intros data now. split.
  - intros Hnone. unfold get_daily_at.
    rewrite (search_back_missing 5 data now) by (intros i Hi; apply Hnone; lia).
    pose proof (has_day_false _ _ (Hnone 5%nat (le_n 5))) as H5.
    change (Z.of_nat 5) with 5 in *. now rewrite H5.
  - intros k Hk Hin Hout today.
    assert (Htoday : search_back data now 5 = today)
      by (apply search_back_found; assumption).
    destruct (has_day_true _ _ Hin) as [current_value Hcv].
    fold today in Hcv.
    split.
    + intros Hnone. unfold get_daily_at. rewrite Htoday, Hcv.
      rewrite (search_back_missing 5 data (minus_days today 1)).
      * rewrite minus_days_add.
        pose proof (has_day_false _ _ (Hnone 5%nat (le_n 5))) as H5.
        change (Z.of_nat 5) with 5 in *. change (1 + 5) with 6 in *.
        now rewrite H5.
      * intros i Hi. rewrite minus_days_add. apply Hnone. lia.
    + intros j Hj Hjin Hjout.
      destruct (has_day_true _ _ Hjin) as [last_day_value Hlv].
      exists current_value, last_day_value.
      split; [assumption|]. split; [assumption|].
      unfold get_daily_at. rewrite Htoday, Hcv.
      rewrite (search_back_found 5 data (minus_days today 1) j).
      * rewrite minus_days_add. now rewrite Hlv.
      * assumption.
      * now rewrite minus_days_add.
      * intros i Hi. rewrite minus_days_add. now apply Hjout.
Qed.

End DateSearch.

Section GetDaily.
Context {rt : PyRuntime} {env : Env}.

(** [get_daily] is its search on the series fetched and the clock read
    after the fetch. *)
Lemma get_daily_run : forall symbol w w1 data,
  get_time_series_daily symbol "compact" w = (inr data, w1) ->
  get_daily symbol w
  = (get_daily_at data (clock (clock_reads w1)), tick_clock w1).
Proof.
  intros symbol w w1 data Hdata. unfold get_daily, bind, est_now.
  rewrite Hdata. apply lift_run.
Qed.

(** C3: on the mapping of dates that get_time_series_daily returns,
    get_daily looks for the latest day present among the current EST date
    and the 5 days before it, then for the latest day present among the 6
    days before that one (the day before it and 5 more).  It raises when
    either search finds no day, and otherwise builds its result from the
    values of the two days found. *)
Theorem get_daily_searches_back : forall symbol w w1 data,
  get_time_series_daily symbol "compact" w = (inr data, w1) ->
  let now := clock (clock_reads w1) in
  ((forall k, (k <= 5)%nat ->
      has_day data (minus_days now (Z.of_nat k)) = false) ->
   fst (get_daily symbol w) = inl (NoDataAsFarBack (minus_days now 5)))
  /\ (forall k, (k <= 5)%nat ->
      has_day data (minus_days now (Z.of_nat k)) = true ->
      (forall i, (i < k)%nat ->
         has_day data (minus_days now (Z.of_nat i)) = false) ->
      let today := minus_days now (Z.of_nat k) in
      ((forall j, (j <= 5)%nat ->
          has_day data (minus_days today (1 + Z.of_nat j)) = false) ->
       fst (get_daily symbol w) = inl (NoDataAsFarBack (minus_days today 6)))
      /\ (forall j, (j <= 5)%nat ->
          has_day data (minus_days today (1 + Z.of_nat j)) = true ->
          (forall i, (i < j)%nat ->
             has_day data (minus_days today (1 + Z.of_nat i)) = false) ->
          exists current_value last_day_value,
            dict_get (day_key today) data = Some current_value
            /\ dict_get (day_key (minus_days today (1 + Z.of_nat j))) data
               = Some last_day_value
            /\ fst (get_daily symbol w)
               = daily_of_values current_value last_day_value)).
Proof.
  intros symbol w w1 data Hdata now.
  rewrite (get_daily_run symbol w w1 data Hdata). fold now. simpl fst.
  apply get_daily_at_searches_back.
Qed.

End GetDaily.

(** On a Monday whose data has the day itself and the Friday before: the
    first search stops at once, the second passes over Sunday and
    Saturday. *)
Lemma get_daily_searches_back_monday :
  exists current_value last_day_value,
    dict_get "2019-03-04" (tl aapl_days) = Some current_value
    /\ dict_get "2019-03-01" (tl aapl_days) = Some last_day_value
    /\ fst (get_daily (rt := demo_runtime) (env := monday_env) "AAPL"
                      fresh_plugin)
       = daily_of_values current_value last_day_value.
Proof.
  destruct (get_daily_searches_back
              (rt := demo_runtime) (env := monday_env) "AAPL" fresh_plugin
              (snd (get_time_series_daily (rt := demo_runtime) (env := monday_env)
                                          "AAPL" "compact" fresh_plugin))
              (tl aapl_days))
    as [_ Hfound]; [vm_compute; reflexivity|].
  destruct (Hfound 0%nat) as [_ Hsecond]; [lia | reflexivity | intros; lia |].
  apply (Hsecond 2%nat).
  - lia.
  - reflexivity.
  - intros [|[|i]] Hi; [reflexivity | reflexivity | lia].
Defined.

(** On a Sunday five days after the latest day of the data, and on a day
    with no data within reach. *)
Example get_daily_at_examples :
  get_daily_at (rt := demo_runtime) aapl_days sunday_noon
  = inr (mk_daily 110 110 108 (100 / 110 * 100 - 100))%float
  /\ get_daily_at (rt := demo_runtime) aapl_days (minus_days sunday_noon (-1))
     = inl (NoDataAsFarBack (minus_days sunday_noon 4))
  /\ get_daily_at (rt := demo_runtime)
                  [("2019-03-05", [("open", 108); ("close", 110)])]%float
                  tuesday_11am
     = inl (NoDataAsFarBack (minus_days tuesday_11am 6)).
Proof. repeat split; vm_compute; reflexivity. Qed.

(** ** make_av_request *)

(** Worlds that differ from [w] by events and requests. *)
Lemma after_start : forall w, after w [] 0 = w.
Proof. intros [c r p i e k n]. unfold after. simpl. now rewrite app_nil_r. Qed.

Lemma after_add_event : forall w evs n e,
  add_event e (after w evs n) = after w (evs ++ [e]) n.
Proof. intros. unfold add_event, after. simpl. now rewrite app_assoc. Qed.

Lemma after_count_request : forall w evs n,
  count_request (after w evs n) = after w evs (S n).
Proof. reflexivity. Qed.

Lemma after_requests_made : forall w evs n,
  requests_made (after w evs n) = (n + requests_made w)%nat.
Proof. reflexivity. Qed.

Lemma requests_sent_app : forall evs evs',
  requests_sent (evs ++ evs') = (requests_sent evs + requests_sent evs')%nat.
Proof. intros. unfold requests_sent. now rewrite filter_app, length_app. Qed.

Lemma pauses_app : forall evs evs',
  pauses (evs ++ evs') = (pauses evs ++ pauses evs')%list.
Proof. intros. unfold pauses. apply flat_map_app. Qed.

Lemma requests_made_count : forall w,
  requests_made (count_request w) = S (requests_made w).
Proof. reflexivity. Qed.

Lemma requests_made_add_event : forall e w,
  requests_made (add_event e w) = requests_made w.
Proof. reflexivity. Qed.

Section Requests.
Context {rt : PyRuntime} {env : Env}.

Lemma retry_log_message : forall remaining,
  py_format "Failed to make request to AV API - retries remaining: {}"
            [AInt remaining] []
  = inr ("Failed to make request to AV API - retries remaining: "
         ++ string_of_Z remaining).
Proof.
  intros remaining. unfold py_format. simpl.
  now rewrite append_empty_r.
Qed.

Lemma request_run : forall params w,
  request params w
  = (attempt (requests_made w) params,
     count_request (add_event (HttpGet AV_API_URL params) w)).
Proof.
  intros params w. unfold request, bind, gets, modify. simpl.
  apply lift_run.
Qed.

(** One turn of the loop: a request; on success its result; on failure a
    log record and then the exception, when no try is left, or a pause of
    15 seconds and the next turn. *)
Lemma av_loop_step : forall remaining params w,
  av_loop (S remaining) params w
  = let w1 := count_request (add_event (HttpGet AV_API_URL params) w) in
    match attempt (requests_made w) params with
    | inr result => (inr result, w1)
    | inl e =>
        let w2 := add_event (retry_log (Z.of_nat remaining)) w1 in
        if Nat.eqb remaining 0 then (inl e, w2)
        else av_loop remaining params (add_event (Sleep RETRY_WAIT) w2)
    end.
Proof.
  intros remaining params w. cbn [av_loop]. unfold bind at 1, try_.
  rewrite request_run.
  destruct (attempt (requests_made w) params) as [e|result]; [|reflexivity].
  unfold bind at 1. rewrite retry_log_message. simpl lift. unfold ret at 1.
  unfold bind at 1, log, modify.
  destruct (Nat.eqb remaining 0); [reflexivity|].
  unfold bind at 1, sleep, modify. reflexivity.
Qed.

(** The same turn, from a world described by what happened since [w]. *)
Lemma av_loop_step_after : forall remaining params w evs n,
  av_loop (S remaining) params (after w evs n)
  = let get := HttpGet AV_API_URL params in
    match attempt (n + requests_made w) params with
    | inr result => (inr result, after w (evs ++ [get]) (S n))
    | inl e =>
        if Nat.eqb remaining 0 then
          (inl e, after w (evs ++ [get; retry_log (Z.of_nat remaining)]) (S n))
        else
          av_loop remaining params
                  (after w (evs ++ [get; retry_log (Z.of_nat remaining);
                                    Sleep RETRY_WAIT]) (S n))
    end.
Proof.
  intros remaining params w evs n. rewrite av_loop_step. cbv zeta.
  rewrite after_requests_made.
  rewrite !after_add_event, after_count_request, !after_add_event.
  rewrite <- !app_assoc. reflexivity.
Qed.

(** The three turns of the loop, one after the other. *)
Lemma av_loop_three_tries : forall w p,
  let get := HttpGet AV_API_URL p in
  let n := requests_made w in
  av_loop 3 p w
  = match attempt n p with
    | inr result => (inr result, after w [get] 1)
    | inl e1 =>
        match attempt (1 + n) p with
        | inr result =>
            (inr result, after w [get; retry_log 2; Sleep 15; get] 2)
        | inl e2 =>
            match attempt (2 + n) p with
            | inr result =>
                (inr result,
                 after w [get; retry_log 2; Sleep 15;
                          get; retry_log 1; Sleep 15; get] 3)
            | inl e3 =>
                (inl e3,
                 after w [get; retry_log 2; Sleep 15;
                          get; retry_log 1; Sleep 15; get; retry_log 0] 3)
            end
        end
    end.
Proof.
  intros w p. cbv zeta.
  rewrite <- (after_start w) at 1.
  rewrite av_loop_step_after. cbv zeta.
  change (0 + requests_made w)%nat with (requests_made w).
  destruct (attempt (requests_made w) p) as [e1|result]; [|reflexivity].
  change (Nat.eqb 2 0) with false. cbv iota.
  rewrite av_loop_step_after. cbv zeta.
  destruct (attempt (1 + requests_made w) p) as [e2|result]; [|reflexivity].
  change (Nat.eqb 1 0) with false. cbv iota.
  rewrite av_loop_step_after. cbv zeta.
  destruct (attempt (2 + requests_made w) p) as [e3|result]; reflexivity.
Qed.

(** C2, as the code has it: make_av_request makes at most 3 requests (a
    first try and up to 2 retries).  A request that succeeds ends the call
    with its result and no further request; each failed try but the last
    is followed by a pause of 15 seconds; the third failure in a row
    raises its own exception at once. *)
Theorem make_av_request_three_tries : forall w function params,
  let p := final_params (api_key (config w)) function params in
  let get := HttpGet AV_API_URL p in
  let n := requests_made w in
  make_av_request function params w
  = match attempt n p with
    | inr result => (inr result, after w [get] 1)
    | inl e1 =>
        match attempt (1 + n) p with
        | inr result =>
            (inr result, after w [get; retry_log 2; Sleep 15; get] 2)
        | inl e2 =>
            match attempt (2 + n) p with
            | inr result =>
                (inr result,
                 after w [get; retry_log 2; Sleep 15;
                          get; retry_log 1; Sleep 15; get] 3)
            | inl e3 =>
                (inl e3,
                 after w [get; retry_log 2; Sleep 15;
                          get; retry_log 1; Sleep 15; get; retry_log 0] 3)
            end
        end
    end.
Proof.
  intros w function params.
  unfold make_av_request, bind at 1, gets.
  apply (av_loop_three_tries w).
Qed.

(** In numbers: a call makes between 1 and 3 requests, pauses 15 seconds
    between any two of them, and raises only after the third. *)
Lemma make_av_request_counts : forall w function params,
  let r := make_av_request function params w in
  exists k, (1 <= k <= 3)%nat
    /\ requests_sent (events (snd r)) = (requests_sent (events w) + k)%nat
    /\ pauses (events (snd r)) = (pauses (events w) ++ repeat 15 (k - 1))%list
    /\ (raised r = true -> k = 3%nat).
Proof.
  intros w function params. cbv zeta.
  remember (make_av_request function params w) as r eqn:Hr.
  unfold make_av_request, bind at 1, gets, MAX_RETRIES in Hr.
  rewrite av_loop_three_tries in Hr. cbv zeta in Hr.
  match type of Hr with
  | context [attempt (requests_made w) ?p] =>
      destruct (attempt (requests_made w) p) as [e1|result1];
      [destruct (attempt (1 + requests_made w) p) as [e2|result2];
       [destruct (attempt (2 + requests_made w) p) as [e3|result3]|]|]
  end; subst r; unfold raised, after; cbn [snd fst events];
    rewrite requests_sent_app, pauses_app.
  - exists 3%nat. repeat split; auto.
  - exists 3%nat. repeat split; auto.
  - exists 2%nat. repeat split; auto; try discriminate; try lia.
  - exists 1%nat. repeat split; auto; try discriminate; try lia.
Qed.

End Requests.

(** With the API out of reach the call gives up after its third request:
    the failed request has been retried twice, not three times. *)
Lemma make_av_request_retries_twice :
  let r := make_av_request (rt := demo_runtime) (env := offline_env)
                           "TIME_SERIES_DAILY" [("symbol", Some "AAPL")]
                           fresh_plugin in
  fst r = inl (RequestError "connection timed out")
  /\ requests_sent (events (snd r)) = 3%nat
  /\ retries (events (snd r)) = 2%nat
  /\ retries (events (snd r)) <> 3%nat.
Proof. vm_compute. repeat split; discriminate. Qed.

(** A throttled first try, then an answer: one pause, two requests. *)
Example make_av_request_throttled_once :
  let throttled := JObj [("Note", JStr "Thank you! Our standard API call frequency is 5 calls per minute.")] in
  let env := Build_Env (fun _ => tuesday_11am)
                       (fun n _ => match n with
                                   | O => inr throttled
                                   | _ => inr aapl_body
                                   end) in
  let r := make_av_request (rt := demo_runtime) (env := env)
                           "TIME_SERIES_DAILY" [("symbol", Some "AAPL")]
                           fresh_plugin in
  fst r = inr aapl_body
  /\ requests_sent (events (snd r)) = 2%nat
  /\ filter (fun e => match e with Sleep _ => true | _ => false end)
            (events (snd r)) = [Sleep 15].
Proof. vm_compute. repeat split. Qed.

(** ** The constructor *)

Section Constructor.
Context {env : Env}.

Lemma add_relay_bot_ok : forall relay_bot w,
  complete_relay_bot relay_bot = true ->
  exists w', add_relay_bot relay_bot w = (inr tt, w').
Proof.
  intros relay_bot w H. unfold complete_relay_bot, dict_mem in H.
  unfold add_relay_bot, bind, dict_index.
  destruct (dict_get "nick" relay_bot); [|discriminate].
  destruct (dict_get "user" relay_bot); [|discriminate].
  destruct (dict_get "vhost" relay_bot); [|discriminate].
  simpl. eexists. reflexivity.
Qed.

Lemma relay_bots_ok : forall bots w,
  forallb complete_relay_bot bots = true ->
  exists w', for_each bots add_relay_bot w = (inr tt, w').
Proof.
  induction bots as [|bot bots IH]; intros w H; simpl.
  - eexists. reflexivity.
  - simpl in H. apply andb_true_iff in H. destruct H as [Hbot Hbots].
    destruct (add_relay_bot_ok bot w Hbot) as [w1 H1].
    unfold bind. rewrite H1. now apply IH.
Qed.

(** C6, as the code has it: given an api_key and relay bot entries that
    name nick, user and vhost, the constructor raises exactly when the
    configuration has more than 5 stock symbols, and then it is the
    ValueError of the limit; with at most 5 it returns. *)
Theorem init_raises_iff_more_than_five_stocks : forall raw w,
  truthy_str (raw_api_key raw) = true ->
  forallb complete_relay_bot (or_default (raw_relay_bots raw) []) = true ->
  let n := List.length (or_default (raw_stocks raw) []) in
  (raised (init (Some raw) w) = true <-> (5 < n)%nat)
  /\ ((5 < n)%nat ->
      fst (init (Some raw) w)
      = inl (ValueError "No more than 5 stocks may be present in ticker config"))
  /\ ((n <= 5)%nat -> fst (init (Some raw) w) = inr tt).
Proof.
  intros raw w Hkey Hbots n.
  assert (Hmany : (5 < n)%nat ->
            fst (init (Some raw) w)
            = inl (ValueError "No more than 5 stocks may be present in ticker config")).
  { intros Hn. apply Nat.ltb_lt in Hn. fold n in Hn.
    unfold init, bind, modify, log. simpl.
    destruct (List.length (or_default (raw_channels raw) []) =? 0)%nat;
      destruct (List.length (or_default (raw_stocks raw) []) =? 0)%nat;
      simpl; rewrite Hkey; simpl; fold n; rewrite Hn; reflexivity. }
  assert (Hfew : (n <= 5)%nat -> fst (init (Some raw) w) = inr tt).
  { intros Hn. apply Nat.ltb_ge in Hn. fold n in Hn.
    unfold init, bind at 1, modify. simpl or_default.
    match goal with
    | |- context [for_each _ add_relay_bot] => idtac
    end.
    unfold bind, modify, log. simpl.
    destruct (List.length (or_default (raw_channels raw) []) =? 0)%nat;
      destruct (List.length (or_default (raw_stocks raw) []) =? 0)%nat;
      simpl; rewrite Hkey; simpl; fold n; rewrite Hn;
      match goal with
      | |- context [for_each _ add_relay_bot ?w0] =>
          destruct (relay_bots_ok _ w0 Hbots) as [w' Hw']; rewrite Hw'
      end; reflexivity. }
  split; [|split; assumption].
  unfold raised. split.
  - intros H. destruct (Nat.lt_ge_cases 5 n) as [Hn|Hn]; [assumption|].
    rewrite (Hfew Hn) in H. discriminate.
  - intros Hn. now rewrite (Hmany Hn).
Qed.

End Constructor.

(** Two stocks, an api_key and a relay bot given by its nick alone: the
    constructor raises although there are fewer than 5 symbols. *)
Lemma init_raises_on_incomplete_relay_bot :
  let raw := mk_raw_config (Some "demo-key") (Some ["#stocks"])
                           (Some [("AAPL", "Apple"); ("MSFT", "Microsoft")])
                           (Some [[("nick", Some "relay")]]) in
  fst (init (env := market_env) (Some raw) blank_world) = inl (KeyError "user")
  /\ raised (init (env := market_env) (Some raw) blank_world) = true
  /\ truthy_str (raw_api_key raw) = true
  /\ (List.length (or_default (raw_stocks raw) []) <= 5)%nat.
Proof. vm_compute. repeat split. lia. Qed.

(** The constructor on two stocks and a complete relay bot. *)
Lemma init_accepts_two_stocks :
  let raw := mk_raw_config (Some "demo-key") (Some ["#stocks"])
                           (Some [("AAPL", "Apple"); ("MSFT", "Microsoft")])
                           (Some [[("nick", Some "relay"); ("user", None);
                                   ("vhost", None)]]) in
  fst (init (env := market_env) (Some raw) blank_world) = inr tt.
Proof.
  intros raw.
  apply (init_raises_iff_more_than_five_stocks (env := market_env) raw blank_world
           eq_refl eq_refl).
  simpl. lia.
Defined.

(** ** do_predictions *)

Lemma for_each_ok : forall A (body : A -> M unit) (l : list A),
  (forall x w, exists w', body x w = (inr tt, w')) ->
  forall w, exists w', for_each l body w = (inr tt, w').
Proof.
  intros A body l Hbody. induction l as [|x l IH]; intros w; simpl.
  - eexists. reflexivity.
  - unfold bind. destruct (Hbody x w) as [w1 H1]. rewrite H1. apply IH.
Qed.

Section Predictions.
Context {rt : PyRuntime} {env : Env}.

(** C5: when a run of do_predictions completes, the predictions mapping
    is empty, whatever the fetches of the run came to. *)
Theorem do_predictions_clears : forall w,
  fst (do_predictions w) = inr tt ->
  predictions (snd (do_predictions w)) = [].
Proof.
  intros w. unfold do_predictions, bind, gets, modify.
  destruct (for_each (dict_keys (predictions w)) do_symbol w) as [[e|[]] w1];
    simpl.
  - discriminate.
  - reflexivity.
Qed.

(** A fetch that no request answers fails. *)
Lemma get_daily_offline : forall symbol w,
  (forall n params, exists e, http n params = inl e) ->
  exists e w', get_daily symbol w = (inl e, w').
Proof.
  intros symbol w Hdown.
  assert (Hatt : forall n params, exists e, attempt n params = inl e).
  { intros n params. destruct (Hdown n params) as [e He].
    exists e. unfold attempt. now rewrite He. }
  unfold get_daily, get_time_series_daily.
  unfold bind at 1. unfold bind at 1.
  unfold make_av_request, bind at 1, gets, MAX_RETRIES.
  rewrite av_loop_three_tries. cbv zeta.
  match goal with
  | |- context [attempt (requests_made w) ?p] =>
      destruct (Hatt (requests_made w) p) as [e1 H1];
      destruct (Hatt (1 + requests_made w)%nat p) as [e2 H2];
      destruct (Hatt (2 + requests_made w)%nat p) as [e3 H3]
  end.
  rewrite H1, H2, H3. eexists. eexists. reflexivity.
Qed.

(** A symbol whose fetch fails is reported and passed over. *)
Lemma do_symbol_offline : forall symbol w,
  (forall n params, exists e, http n params = inl e) ->
  exists w', do_symbol symbol w = (inr tt, w').
Proof.
  intros symbol w Hdown. unfold do_symbol.
  unfold bind at 1, try_. unfold bind at 1.
  destruct (get_daily_offline symbol w Hdown) as (e & w1 & H1). rewrite H1.
  unfold bind at 1, gets. unfold bind at 1.
  assert (Hfmt : exists s, py_format
                   "Failed to fetch information for symbol {} -- skipping"
                   [AStr symbol] [] = inr s) by (eexists; reflexivity).
  destruct Hfmt as [s Hs]. rewrite Hs. unfold lift at 1, ret at 1.
  unfold bind at 1, log, modify.
  apply for_each_ok. intros channel w2.
  assert (Hmsg : exists s, py_format "Error with predictions for symbol {}."
                                     [AStr symbol] [] = inr s)
    by (eexists; reflexivity).
  destruct Hmsg as [m Hm]. unfold bind. rewrite Hm. simpl.
  eexists. reflexivity.
Qed.

(** With every fetch failing, the run still completes and clears the
    mapping. *)
Lemma do_predictions_offline : forall w,
  (forall n params, exists e, http n params = inl e) ->
  fst (do_predictions w) = inr tt
  /\ predictions (snd (do_predictions w)) = [].
Proof.
  intros w Hdown.
  unfold do_predictions, bind, gets, modify.
  destruct (for_each_ok _ do_symbol (dict_keys (predictions w))
              (fun x w0 => do_symbol_offline x w0 Hdown) w) as [w1 H1].
  rewrite H1. split; reflexivity.
Qed.

End Predictions.

(** A run whose fetch succeeds, on the plugin that holds alice's
    prediction. *)
Lemma do_predictions_clears_after_report :
  fst (do_predictions (rt := demo_runtime) (env := market_env) one_prediction)
  = inr tt
  /\ predictions (snd (do_predictions (rt := demo_runtime) (env := market_env)
                                      one_prediction)) = [].
Proof.
  split.
  - vm_compute. reflexivity.
  - apply do_predictions_clears. vm_compute. reflexivity.
Defined.

(** The same plugin with the API out of reach. *)
Example do_predictions_offline_example :
  let r := do_predictions (rt := demo_runtime) (env := offline_env)
                          one_prediction in
  fst r = inr tt
  /\ predictions (snd r) = []
  /\ messages_sent (events (snd r))
     = (messages_sent (events one_prediction)
        ++ [("#stocks", "Error with predictions for symbol AAPL.")])%list.
Proof. vm_compute. repeat split. Qed.

(** ** send_ticker *)

Section Ticker.
Context {rt : PyRuntime} {env : Env}.

(** The log call of the error branch: two replacement fields and one
    argument. *)
Lemma ticker_error_message : forall text,
  py_format "Error fetching symbol {} for ticker -- skipping: {}"
            [AStr text] []
  = inl (IndexError "Replacement index out of range for positional args tuple").
Proof. reflexivity. Qed.

(** The error branch raises before it logs or removes anything. *)
Lemma ticker_result_failure : forall failure l w,
  ticker_result (inl failure) l w
  = (inl (IndexError "Replacement index out of range for positional args tuple"),
     w).
Proof.
  intros failure l w. unfold ticker_result, bind.
  now rewrite ticker_error_message.
Qed.

Lemma ticker_result_success : forall symbol change l w,
  ticker_result (inr (symbol, change)) l w
  = (inr (mk_ticker_locals (dict_set symbol (Some change) (results l))
                           (Some symbol) (Some change)), w).
Proof. reflexivity. Qed.

(** One failed fetch among the results ends [send_ticker] in an
    IndexError, with nothing sent to any channel. *)
Lemma send_ticker_results_failure : forall dl_results w,
  existsb (fun r => match r with inl _ => true | inr _ => false end) dl_results
  = true ->
  send_ticker_results dl_results w
  = (inl (IndexError "Replacement index out of range for positional args tuple"),
     w).
Proof.
  intros dl_results w Hfail. unfold send_ticker_results.
  unfold bind at 1, gets. unfold bind at 1.
  match goal with
  | |- context [for_fold dl_results ?l0 ticker_result w] =>
      generalize l0
  end.
  induction dl_results as [|r rs IH]; intros l0; [discriminate|].
  simpl for_fold. unfold bind at 1.
  destruct r as [failure|[symbol change]].
  - now rewrite ticker_result_failure.
  - rewrite ticker_result_success. simpl in Hfail. apply IH. assumption.
Qed.

(** The entry built for a symbol does not look at the value stored for
    that symbol: it renders the variable [change]. *)
Lemma ticker_part_ignores_result : forall change symbol result result' parts,
  ticker_part change (symbol, result) parts
  = ticker_part change (symbol, result') parts.
Proof. reflexivity. Qed.

End Ticker.

(** C4: with the requests for AAPL failing and those for MSFT answered,
    send_ticker neither skips AAPL nor posts MSFT: it raises IndexError
    out of the call that formats the log message, and sends nothing. *)
Theorem send_ticker_failed_fetch_raises :
  let r := send_ticker (rt := demo_runtime) (env := aapl_down_env) fresh_plugin in
  fst r = inl (IndexError "Replacement index out of range for positional args tuple")
  /\ messages_sent (events (snd r)) = []
  /\ requests_sent (events (snd r)) = 4%nat
  /\ fst (get_daily_change (rt := demo_runtime) (env := aapl_down_env) "MSFT"
                           fresh_plugin)
     = inr ("MSFT", (200 / 210 * 100 - 100)%float).
Proof. vm_compute. repeat split. Qed.

(** C8: AAPL's fetched change is (100/110)*100-100, about -9.09, and
    MSFT's is (200/210)*100-100, about -4.76; the message shows -4.76%,
    the change fetched last, in both entries. *)
Theorem send_ticker_repeats_last_change :
  let r := send_ticker (rt := demo_runtime) (env := market_env) fresh_plugin in
  let aapl := (100 / 110 * 100 - 100)%float in
  let msft := (200 / 210 * 100 - 100)%float in
  fst (get_daily_change (rt := demo_runtime) (env := market_env) "AAPL"
                        fresh_plugin) = inr ("AAPL", aapl)
  /\ fst (get_daily_change (rt := demo_runtime) (env := market_env) "MSFT"
                           fresh_plugin) = inr ("MSFT", msft)
  /\ colorize (rt := demo_runtime) aapl = inr (x03 ++ "04-9.09%" ++ x03)
  /\ colorize (rt := demo_runtime) msft = inr (x03 ++ "04-4.76%" ++ x03)
  /\ fst r = inr tt
  /\ messages_sent (events (snd r))
     = [("#stocks",
         "Apple (" ++ x02 ++ "AAPL" ++ x02 ++ "): " ++ x03 ++ "04-4.76%" ++ x03
         ++ " | "
         ++ "Microsoft (" ++ x02 ++ "MSFT" ++ x02 ++ "): " ++ x03 ++ "04-4.76%"
         ++ x03)].
Proof. vm_compute. repeat split. Qed.

(** ** predict *)

Section Predict.
Context {rt : PyRuntime} {env : Env}.

Lemma colorize_returns : forall p, exists s, colorize p = inr s.
Proof.
  intros p. destruct (PrimFloat.ltb 0%float p) eqn:E.
  - eexists. now apply colorize_positive.
  - eexists. now apply colorize_not_positive.
Qed.

(** X23: a [!predict] by a user who already holds a prediction for the
    symbol raises, NameError for the unbound [old_datetime] unless the old base
    price is zero, and leaves the old prediction in place and the
    confirmation unsent. *)
Lemma predict_replacement_raises :
  forall u channel m w w1 nick symbol prediction base old,
  parse_prediction u m w = (inr (Some (nick, symbol, prediction, base)), w1) ->
  stored (predictions w1) symbol nick = Some old ->
  (fst (predict u channel m w) = inl (NameError "old_datetime")
   \/ fst (predict u channel m w) = inl ZeroDivisionError)
  /\ snd (predict u channel m w) = w1.
Proof.
  intros u channel m w w1 nick symbol prediction base [[dt old_base] old_prediction]
         Hparse Hstored.
  remember (predict u channel m w) as r eqn:Hr.
  unfold predict in Hr. unfold bind at 1 in Hr. rewrite Hparse in Hr.
  unfold bind at 1, predictions_at in Hr. unfold stored in Hstored.
  destruct (dict_get symbol (predictions w1)) as [inner|]; [|discriminate].
  rewrite Hstored in Hr. unfold bind at 1 in Hr. unfold bind at 1 in Hr.
  unfold get_delta in Hr.
  destruct (PrimFloat.eqb old_base 0%float).
  - subst r. simpl. auto.
  - unfold lift at 1, ret at 1 in Hr. unfold bind at 1 in Hr.
    destruct (colorize_returns (old_prediction / old_base * 100 - 100)%float)
      as [text Htext].
    rewrite Htext in Hr. subst r. simpl. auto.
Qed.

End Predict.

(** C9: alice holds a prediction for AAPL and sends [!predict aapl -2.5%].
    The command raises NameError; her old prediction stays, and no
    confirmation is sent. *)
Theorem predict_again_raises_name_error :
  let r := predict (rt := demo_runtime) (env := market_env) alice "#stocks"
                   aapl_down_2_5 one_prediction in
  stored (predictions one_prediction) "AAPL" "alice"
  = Some (tuesday_11am, 108, 108 + 5 * 0.01 * 108)%float
  /\ fst r = inl (NameError "old_datetime")
  /\ predictions (snd r) = predictions one_prediction
  /\ messages_sent (events (snd r)) = messages_sent (events one_prediction).
Proof. vm_compute. repeat split. Qed.

(** Her first prediction went through. *)
Example predict_first_time :
  fst (predict (rt := demo_runtime) (env := market_env) alice "#stocks" aapl_up_5
               fresh_plugin) = inr tt
  /\ messages_sent (events one_prediction)
     = [("#stocks",
         "Prediction by alice for " ++ x02 ++ "AAPL" ++ x02
         ++ " at market close: 113.40 (" ++ x03 ++ "095.00%" ++ x03 ++ ") ")].
Proof. vm_compute. repeat split. Qed.

(** * Further properties of the plugin *)

(** ** The clock: market hours and the timer *)

(** The test of [market_is_open] and [tick], in minutes of the day. *)
Lemma market_hours : forall now,
  0 <= minute now < 60 ->
  negb ((weekday now >=? 5)
        || ((hour now <? 9) || (hour now >=? 17))
        || ((hour now =? 9) && (minute now <? 30))
        || ((hour now =? 16) && (minute now >? 0)))
  = within_hours now.
Proof.
  intros now Hmin. unfold within_hours, minute_of_day.
  rewrite !Z.geb_leb, Z.gtb_ltb.
  destruct (Z.leb_spec 5 (weekday now)), (Z.ltb_spec (weekday now) 5);
    try lia; simpl;
    destruct (Z.ltb_spec (hour now) 9), (Z.leb_spec 17 (hour now)),
             (Z.eqb_spec (hour now) 9), (Z.eqb_spec (hour now) 16),
             (Z.ltb_spec (minute now) 30), (Z.ltb_spec 0 (minute now)),
             (Z.leb_spec 570 (60 * hour now + minute now)),
             (Z.leb_spec (60 * hour now + minute now) 960);
    simpl; try reflexivity; lia.
Qed.

Section Clock.
Context {env : Env}.

(** X1: market_is_open answers yes exactly on Monday to Friday from 09:30
    to 16:00, both ends included, and reads the clock once. *)
Theorem market_is_open_hours : forall w,
  let now := clock (clock_reads w) in
  0 <= minute now < 60 ->
  market_is_open w = (inr (within_hours now), tick_clock w).
Proof.
  intros w now Hmin. unfold market_is_open, bind, est_now, ret. fold now.
  now rewrite (market_hours now Hmin).
Qed.

(** X2: wait schedules exactly one call, between 1 and 15 whole minutes
    ahead, so that the minute it falls in is a multiple of 15; the seconds
    of the clock are not taken off (seconds_to_sleep is computed and left
    unused).  It remembers the call and never raises. *)
Theorem wait_schedules_next_quarter : forall w,
  let now := clock (clock_reads w) in
  exists secs,
    wait w = (inr tt, set_call_id (Some secs)
                        (add_event (CallLater secs) (tick_clock w)))
    /\ 60 <= secs <= 900
    /\ secs mod 60 = 0
    /\ (minute now + secs / 60) mod 15 = 0.
Proof.
  intros w now. exists ((15 - minute now mod 15) * 60).
  pose proof (Z.mod_pos_bound (minute now) 15 ltac:(lia)) as Hm.
  split; [reflexivity|]. split; [lia|]. split.
  - apply Z.mod_mul. lia.
  - rewrite Z.div_mul by lia.
    rewrite (Z.div_mod (minute now) 15) at 1 by lia.
    replace (15 * (minute now / 15) + minute now mod 15
             + (15 - minute now mod 15))
      with ((minute now / 15 + 1) * 15) by lia.
    apply Z.mod_mul. lia.
Qed.

End Clock.

(** ** Relay bots *)

Lemma field_matches_spec : forall pattern value,
  field_matches pattern value = true
  <-> (pattern = None \/ pattern = Some value).
Proof.
  intros [p|] value; simpl.
  - rewrite String.eqb_eq. split.
    + intros ->. now right.
    + intros [H|H]; [discriminate | now injection H].
  - split; auto.
Qed.

Lemma relay_matches_spec : forall u w,
  relay_matches u w = true
  <-> exists bot, In bot (relay_bots w) /\ bot_matches bot u.
Proof.
  intros u w. unfold relay_matches. rewrite existsb_exists. unfold bot_matches.
  split; intros [bot [Hin H]]; exists bot; split; auto.
  - apply andb_true_iff in H. destruct H as [H Hv].
    apply andb_true_iff in H. destruct H as [Hn Hu].
    now rewrite <- !field_matches_spec.
  - rewrite <- !field_matches_spec in H. destruct H as (Hn & Hu & Hv).
    now rewrite Hn, Hu, Hv.
Qed.

Lemma is_relay_bot_run : forall u w,
  is_relay_bot u w = (inr (relay_matches u w), w).
Proof. reflexivity. Qed.

(** X3: is_relay_bot answers yes exactly when some registered relay bot
    agrees with the sender on every field it names; it changes nothing. *)
Theorem is_relay_bot_spec : forall u w,
  exists b,
    is_relay_bot u w = (inr b, w)
    /\ (b = true <-> exists bot, In bot (relay_bots w) /\ bot_matches bot u).
Proof.
  intros u w. exists (relay_matches u w).
  split; [apply is_relay_bot_run | apply relay_matches_spec].
Qed.

(** The clock of the scenarios stands at Tuesday 11:00, inside the hours. *)
Lemma market_is_open_tuesday_11am :
  0 <= minute (clock (Env := market_env) (clock_reads fresh_plugin)) < 60
  /\ market_is_open (env := market_env) fresh_plugin
     = (inr true, tick_clock fresh_plugin).
Proof.
  split.
  - vm_compute. split; [discriminate | reflexivity].
  - apply (market_is_open_hours (env := market_env) fresh_plugin).
    vm_compute. split; [discriminate | reflexivity].
Defined.

(** ** What a fetch touches *)

Lemma messages_sent_quiet : forall evs,
  forallb quiet evs = true -> messages_sent evs = [].
Proof.
  induction evs as [|e evs IH]; intros H; [reflexivity|].
  simpl in H. apply andb_true_iff in H. destruct H as [He Hevs].
  destruct e; try discriminate; simpl; auto.
Qed.

Lemma messages_sent_app : forall evs evs',
  messages_sent (evs ++ evs') = (messages_sent evs ++ messages_sent evs')%list.
Proof. intros. unfold messages_sent. apply flat_map_app. Qed.

Lemma network_only_refl : forall w, network_only w w.
Proof.
  intros w. unfold network_only. repeat split.
  exists []. now rewrite app_nil_r.
Qed.

Lemma network_only_trans : forall w1 w2 w3,
  network_only w1 w2 -> network_only w2 w3 -> network_only w1 w3.
Proof.
  intros w1 w2 w3 (Hc & Hr & Hp & Hi & evs & He & Hq)
         (Hc' & Hr' & Hp' & Hi' & evs' & He' & Hq').
  unfold network_only. repeat split; try congruence.
  exists (evs ++ evs')%list. split.
  - rewrite He', He. now rewrite app_assoc.
  - rewrite forallb_app. now rewrite Hq, Hq'.
Qed.

Lemma network_only_after : forall w evs n,
  forallb quiet evs = true -> network_only w (after w evs n).
Proof.
  intros w evs n H. unfold network_only, after. simpl. repeat split.
  now exists evs.
Qed.

Lemma network_only_tick_clock : forall w, network_only w (tick_clock w).
Proof.
  intros w. unfold network_only, tick_clock. simpl. repeat split.
  exists []. now rewrite app_nil_r.
Qed.

Lemma network_only_messages : forall w w',
  network_only w w' -> messages_sent (events w') = messages_sent (events w).
Proof.
  intros w w' (_ & _ & _ & _ & evs & He & Hq).
  rewrite He, messages_sent_app, (messages_sent_quiet evs Hq).
  apply app_nil_r.
Qed.

Section Fetch.
Context {rt : PyRuntime} {env : Env}.

(** The world a call of [make_av_request] leaves: 1 to 3 requests later,
    with requests, log records and pauses in between. *)
Lemma make_av_request_after : forall w function params,
  exists evs n,
    snd (make_av_request function params w) = after w evs n
    /\ forallb quiet evs = true
    /\ (1 <= n <= 3)%nat.
Proof.
  intros w function params.
  remember (make_av_request function params w) as r eqn:Hr.
  unfold make_av_request, bind at 1, gets, MAX_RETRIES in Hr.
  rewrite av_loop_three_tries in Hr. cbv zeta in Hr.
  match type of Hr with
  | context [attempt (requests_made w) ?p] =>
      destruct (attempt (requests_made w) p) as [e1|result1];
      [destruct (attempt (1 + requests_made w) p) as [e2|result2];
       [destruct (attempt (2 + requests_made w) p) as [e3|result3]|]|]
  end; subst r; cbn [snd]; eexists; eexists;
    (split; [reflexivity|]); split; try reflexivity; lia.
Qed.

Lemma get_time_series_daily_world : forall symbol outputsize w,
  snd (get_time_series_daily symbol outputsize w)
  = snd (make_av_request "TIME_SERIES_DAILY"
           [("symbol", Some symbol); ("outputsize", Some outputsize)] w).
Proof.
  intros symbol outputsize w. unfold get_time_series_daily, bind.
  destruct (make_av_request "TIME_SERIES_DAILY"
              [("symbol", Some symbol); ("outputsize", Some outputsize)] w)
    as [[e|data] w1]; [reflexivity|].
  rewrite lift_run.
  destruct data as [| | | | |kv]; try reflexivity.
  destruct (dict_get "Time Series (Daily)" kv) as [series|]; [|reflexivity].
  destruct series; try reflexivity. now rewrite lift_run.
Qed.

(** The world a call of [get_daily] leaves: that of its request, and one
    reading of the clock later when the request gave a series. *)
Lemma get_daily_world : forall symbol w,
  exists evs n,
    forallb quiet evs = true /\ (1 <= n <= 3)%nat
    /\ (snd (get_daily symbol w) = after w evs n
        \/ snd (get_daily symbol w) = tick_clock (after w evs n)).
Proof.
  intros symbol w.
  destruct (make_av_request_after w "TIME_SERIES_DAILY"
              [("symbol", Some symbol); ("outputsize", Some "compact")])
    as (evs & n & Hw & Hq & Hn).
  rewrite <- get_time_series_daily_world in Hw.
  exists evs, n. split; [assumption|]. split; [assumption|].
  remember (get_daily symbol w) as r eqn:Hr.
  unfold get_daily, bind at 1 in Hr.
  destruct (get_time_series_daily symbol "compact" w) as [[e|data] w1];
    simpl in Hw; subst w1.
  - subst r. now left.
  - unfold bind, est_now in Hr. rewrite lift_run in Hr. subst r. now right.
Qed.

Lemma get_daily_quiet : forall symbol w,
  network_only w (snd (get_daily symbol w)).
Proof.
  intros symbol w.
  destruct (get_daily_world symbol w) as (evs & n & Hq & _ & [H|H]); rewrite H.
  - now apply network_only_after.
  - apply (network_only_trans _ (after w evs n));
      auto using network_only_after, network_only_tick_clock.
Qed.

(** X4: a call of get_daily makes at least one and at most three API
    requests and reads the clock at most once; it sends nothing to any
    channel, schedules nothing, and leaves the configuration, the relay
    bots and the predictions as they were, whether it returns or raises. *)
Theorem get_daily_network_only : forall symbol w,
  let w' := snd (get_daily symbol w) in
  network_only w w'
  /\ (requests_made w < requests_made w' <= requests_made w + 3)%nat
  /\ (clock_reads w <= clock_reads w' <= clock_reads w + 1)%nat.
Proof.
  intros symbol w. cbv zeta. split; [apply get_daily_quiet|].
  destruct (get_daily_world symbol w) as (evs & n & _ & Hn & [H|H]);
    rewrite H; unfold after; simpl; lia.
Qed.

(** [detect_throttle] hands back the very response it was given. *)
Lemma detect_throttle_same : forall response result,
  detect_throttle response = inr result -> result = response.
Proof.
  intros response result. unfold detect_throttle, ebind.
  destruct (py_in "Note" response) as [e|[|]]; try discriminate.
  - destruct (py_getitem response "Note") as [e|note]; [discriminate|].
    destruct (py_in "call frequency" note) as [e|[|]]; try discriminate.
    now intros [= <-].
  - now intros [= <-].
Qed.

Lemma attempt_checked : forall n params result,
  attempt n params = inr result -> detect_throttle result = inr result.
Proof.
  intros n params result. unfold attempt, ebind.
  destruct (http n params) as [e|response]; [discriminate|].
  intros H. pose proof (detect_throttle_same _ _ H) as ->. assumption.
Qed.

(** X5: make_av_request never hands a throttling notice to its caller: a
    result it returns has passed the throttle check, so if it is an object
    whose Note is a string, that string does not contain 'call
    frequency'. *)
Theorem make_av_request_never_returns_throttled :
  forall w function params result,
  fst (make_av_request function params w) = inr result ->
  detect_throttle result = inr result
  /\ (forall kv note,
        result = JObj kv -> dict_get "Note" kv = Some (JStr note) ->
        contains "call frequency" note = false).
Proof.
  intros w function params result Hres.
  assert (Hchecked : detect_throttle result = inr result).
  { remember (make_av_request function params w) as r eqn:Hr.
    unfold make_av_request, bind at 1, gets, MAX_RETRIES in Hr.
    rewrite av_loop_three_tries in Hr. cbv zeta in Hr.
    match type of Hr with
    | context [attempt (requests_made w) ?p] =>
        destruct (attempt (requests_made w) p) as [e1|result1] eqn:E1;
        [destruct (attempt (1 + requests_made w) p) as [e2|result2] eqn:E2;
         [destruct (attempt (2 + requests_made w) p) as [e3|result3] eqn:E3|]|]
    end; subst r; cbn [fst] in Hres; try discriminate;
      injection Hres as <-; eauto using attempt_checked. }
  split; [assumption|].
  intros kv note -> Hnote. unfold detect_throttle, ebind in Hchecked.
  simpl in Hchecked. unfold dict_mem, dict_index in Hchecked.
  rewrite Hnote in Hchecked. simpl in Hchecked.
  destruct (contains "call frequency" note); [discriminate|reflexivity].
Qed.

End Fetch.

(** The AAPL series comes back as the API sent it. *)
Lemma make_av_request_returns_checked :
  fst (make_av_request (rt := demo_runtime) (env := market_env)
                       "TIME_SERIES_DAILY" [("symbol", Some "AAPL")]
                       fresh_plugin) = inr aapl_body
  /\ detect_throttle aapl_body = inr aapl_body.
Proof.
  split; [vm_compute; reflexivity|].
  apply (make_av_request_never_returns_throttled
           (rt := demo_runtime) (env := market_env)
           fresh_plugin "TIME_SERIES_DAILY" [("symbol", Some "AAPL")]).
  vm_compute. reflexivity.
Defined.

(** ** Requests and the time series *)

Lemma final_params_get : forall key function params,
  let p := final_params key function params in
  dict_get "function" p = Some (Some function)
  /\ dict_get "apikey" p = Some key
  /\ dict_get "datatype" p = Some (Some "json")
  /\ (forall k, k <> "function" -> k <> "apikey" -> k <> "datatype" ->
        dict_get k p = dict_get k params).
Proof.
  intros key function params. unfold final_params. cbv zeta.
  repeat split.
  - rewrite !dict_get_set_other by discriminate. apply dict_get_set_same.
  - rewrite dict_get_set_other by discriminate. apply dict_get_set_same.
  - apply dict_get_set_same.
  - intros k Hf Ha Hd. now rewrite !dict_get_set_other.
Qed.

Section TimeSeries.
Context {rt : PyRuntime} {env : Env}.

(** X6: every request make_av_request sends goes to the API's URL and
    carries the function asked for, the configured api key and
    datatype=json, over any value the caller gave under these names; every
    other parameter goes out as the caller gave it. *)
Theorem make_av_request_sends_params : forall w function params url p,
  In (HttpGet url p) (events (snd (make_av_request function params w))) ->
  ~ In (HttpGet url p) (events w) ->
  url = AV_API_URL
  /\ dict_get "function" p = Some (Some function)
  /\ dict_get "apikey" p = Some (api_key (config w))
  /\ dict_get "datatype" p = Some (Some "json")
  /\ (forall k, k <> "function" -> k <> "apikey" -> k <> "datatype" ->
        dict_get k p = dict_get k params).
Proof.
  intros w function params url p Hin Hnew.
  assert (Hsent : HttpGet url p
                  = HttpGet AV_API_URL
                            (final_params (api_key (config w)) function params)).
  { remember (make_av_request function params w) as r eqn:Hr.
    unfold make_av_request, bind at 1, gets, MAX_RETRIES in Hr.
    rewrite av_loop_three_tries in Hr. cbv zeta in Hr.
    unfold final_params.
    match type of Hr with
    | context [attempt (requests_made w) ?q] =>
        destruct (attempt (requests_made w) q) as [e1|result1];
        [destruct (attempt (1 + requests_made w) q) as [e2|result2];
         [destruct (attempt (2 + requests_made w) q) as [e3|result3]|]|]
    end; subst r; cbn [snd] in Hin; unfold after in Hin; cbn [events] in Hin;
      apply in_app_or in Hin; destruct Hin as [Hin|Hin];
      try contradiction; unfold retry_log in Hin; simpl in Hin;
      repeat (destruct Hin as [Hin|Hin]; [try discriminate; now symmetry|]);
      contradiction. }
  injection Hsent as -> ->. split; [reflexivity|].
  apply final_params_get.
Qed.

(** X7: an answer that is a JSON object without 'Time Series (Daily)' (what
    the API sends for a symbol it does not know) is not retried:
    get_time_series_daily raises KeyError after that single request. *)
Theorem get_time_series_daily_missing_series :
  forall symbol outputsize w kv,
  let p := final_params (api_key (config w)) "TIME_SERIES_DAILY"
                        [("symbol", Some symbol);
                         ("outputsize", Some outputsize)] in
  attempt (requests_made w) p = inr (JObj kv) ->
  dict_get "Time Series (Daily)" kv = None ->
  get_time_series_daily symbol outputsize w
  = (inl (KeyError "Response missing expected 'Time Series (Daily)' key"),
     after w [HttpGet AV_API_URL p] 1).
Proof.
  intros symbol outputsize w kv p Hatt Hnone.
  unfold get_time_series_daily, bind at 1.
  unfold make_av_request, bind at 1, gets, MAX_RETRIES.
  rewrite av_loop_three_tries. cbv zeta.
  unfold p, final_params in Hatt. rewrite Hatt.
  unfold bind. rewrite Hnone. reflexivity.
Qed.

Lemma convert_days_keys : forall days data,
  convert_days days = inr data -> dict_keys data = dict_keys days.
Proof.
  induction days as [|[date values] days IH]; intros data; simpl.
  - now intros [= <-].
  - unfold ebind. destruct (strip_values values) as [e|vs]; [discriminate|].
    destruct (convert_days days) as [e|rest]; [discriminate|].
    intros [= <-]. simpl. f_equal. now apply IH.
Qed.

Lemma convert_days_get : forall days data date values,
  convert_days days = inr data ->
  dict_get date days = Some values ->
  exists vs, dict_get date data = Some vs /\ strip_values values = inr vs.
Proof.
  induction days as [|[date0 values0] days IH]; intros data date values; simpl.
  - discriminate.
  - unfold ebind. destruct (strip_values values0) as [e|vs0] eqn:E0;
      [discriminate|].
    destruct (convert_days days) as [e|rest]; [discriminate|].
    intros [= <-]. simpl. destruct (String.eqb date date0).
    + intros [= <-]. now exists vs0.
    + now apply IH.
Qed.

(** X8: when the answer has a 'Time Series (Daily)' object,
    get_time_series_daily makes that one request and returns the days of
    the answer in the answer's order, each day with its own values
    converted; it raises if a day's values cannot be converted. *)
Theorem get_time_series_daily_keeps_days :
  forall symbol outputsize w kv days,
  let p := final_params (api_key (config w)) "TIME_SERIES_DAILY"
                        [("symbol", Some symbol);
                         ("outputsize", Some outputsize)] in
  attempt (requests_made w) p = inr (JObj kv) ->
  dict_get "Time Series (Daily)" kv = Some (JObj days) ->
  get_time_series_daily symbol outputsize w
  = (convert_days days, after w [HttpGet AV_API_URL p] 1)
  /\ (forall data, convert_days days = inr data ->
        dict_keys data = dict_keys days
        /\ forall date values, dict_get date days = Some values ->
             exists vs, dict_get date data = Some vs
                        /\ strip_values values = inr vs).
Proof.
  intros symbol outputsize w kv days p Hatt Hseries. split.
  - unfold get_time_series_daily, bind at 1.
    unfold make_av_request, bind at 1, gets, MAX_RETRIES.
    rewrite av_loop_three_tries. cbv zeta.
    unfold p, final_params in Hatt. rewrite Hatt.
    unfold bind. rewrite Hseries. simpl. apply lift_run.
  - intros data Hdata. split.
    + now apply convert_days_keys.
    + intros date values Hget. now apply (convert_days_get days).
Qed.

Lemma strip_items_get : forall kv acc vs,
  strip_items kv acc = inr vs ->
  NoDup (map (drop_chars 3) (dict_keys kv)) ->
  (forall k v, In (k, v) kv ->
     exists f, py_float v = inr f /\ dict_get (drop_chars 3 k) vs = Some f)
  /\ (forall name, ~ In name (map (drop_chars 3) (dict_keys kv)) ->
        dict_get name vs = dict_get name acc).
Proof.
  induction kv as [|[k0 v0] kv IH]; intros acc vs; simpl.
  - intros [= <-] _. split; [contradiction | reflexivity].
  - unfold ebind. destruct (py_float v0) as [e|f0] eqn:E0; [discriminate|].
    intros Hrest Hnd. inversion Hnd as [|x l Hnotin Hnd']. subst.
    destruct (IH _ _ Hrest Hnd') as [Hin Hout]. split.
    + intros k v [[= <- <-]|Hkv].
      * exists f0. split; [assumption|].
        rewrite (Hout _ Hnotin). apply dict_get_set_same.
      * now apply Hin.
    + intros name Hname. rewrite Hout by (intros H; apply Hname; now right).
      apply dict_get_set_other. intros ->. apply Hname. now left.
Qed.

(** X9: the values of a day come back as floats under their names without
    the first three characters ('4. close' is found under 'close'), when
    the shortened names are distinct; a value that is no number makes the
    conversion raise. *)
Theorem strip_values_names : forall kv vs,
  strip_values (JObj kv) = inr vs ->
  NoDup (map (drop_chars 3) (dict_keys kv)) ->
  forall k v, In (k, v) kv ->
    exists f, py_float v = inr f /\ dict_get (drop_chars 3 k) vs = Some f.
Proof.
  intros kv vs Hvs Hnd. simpl in Hvs.
  apply (strip_items_get kv [] vs Hvs Hnd).
Qed.

End TimeSeries.

(** A caller's own datatype is overridden; its symbol goes out as given. *)
Lemma make_av_request_sends_params_example :
  let p := final_params (Some "demo-key") "TIME_SERIES_DAILY"
                        [("symbol", Some "AAPL"); ("datatype", Some "csv")] in
  AV_API_URL = AV_API_URL
  /\ dict_get "function" p = Some (Some "TIME_SERIES_DAILY")
  /\ dict_get "apikey" p = Some (api_key (config fresh_plugin))
  /\ dict_get "datatype" p = Some (Some "json")
  /\ (forall k, k <> "function" -> k <> "apikey" -> k <> "datatype" ->
        dict_get k p
        = dict_get k [("symbol", Some "AAPL"); ("datatype", Some "csv")]).
Proof.
  apply (make_av_request_sends_params
           (rt := demo_runtime) (env := market_env) fresh_plugin).
  - vm_compute. right. left. reflexivity.
  - vm_compute. intros [H|[]]. discriminate H.
Defined.

(** The API's error body for an unknown symbol: one request, KeyError. *)
Lemma get_time_series_daily_unknown_symbol :
  get_time_series_daily (rt := demo_runtime) (env := unknown_symbol_env)
                        "XYZ" "compact" fresh_plugin
  = (inl (KeyError "Response missing expected 'Time Series (Daily)' key"),
     after fresh_plugin
           [HttpGet AV_API_URL
                    (final_params (Some "demo-key") "TIME_SERIES_DAILY"
                                  [("symbol", Some "XYZ");
                                   ("outputsize", Some "compact")])] 1).
Proof.
  apply (get_time_series_daily_missing_series
           (rt := demo_runtime) (env := unknown_symbol_env)
           "XYZ" "compact" fresh_plugin
           [("Error Message", JStr "Invalid API call.")]);
    reflexivity.
Defined.

(** The AAPL answer comes back as the three days of [aapl_days]. *)
Lemma get_time_series_daily_aapl :
  get_time_series_daily (rt := demo_runtime) (env := market_env)
                        "AAPL" "compact" fresh_plugin
  = (convert_days (rt := demo_runtime) aapl_series,
     after fresh_plugin
           [HttpGet AV_API_URL
                    (final_params (Some "demo-key") "TIME_SERIES_DAILY"
                                  [("symbol", Some "AAPL");
                                   ("outputsize", Some "compact")])] 1)
  /\ convert_days (rt := demo_runtime) aapl_series = inr aapl_days.
Proof.
  split.
  - apply (get_time_series_daily_keeps_days
             (rt := demo_runtime) (env := market_env)
             "AAPL" "compact" fresh_plugin
             [("Meta Data", JObj [("2. Symbol", JStr "AAPL")]);
              ("Time Series (Daily)", JObj aapl_series)]);
      reflexivity.
  - vm_compute. reflexivity.
Defined.

(** Tuesday's close of AAPL, read from under '4. close'. *)
Lemma strip_values_close :
  exists f,
    py_float (rt := demo_runtime) (JStr "110.0000") = inr f
    /\ dict_get (drop_chars 3 "4. close")
                [("open", 108); ("close", 110)]%float = Some f.
Proof.
  apply (strip_values_names
           (rt := demo_runtime)
           [("1. open", JStr "108.0000"); ("4. close", JStr "110.0000")]
           [("open", 108); ("close", 110)]%float).
  - vm_compute. reflexivity.
  - simpl. constructor.
    + intros [H|[]]. discriminate H.
    + constructor; [intros [] | constructor].
  - simpl. auto.
Defined.

(** ** !check *)

Lemma command_nick_stranger : forall relayed u w,
  truthy_str relayed = true ->
  (forall bot, In bot (relay_bots w) -> ~ bot_matches bot u) ->
  command_nick relayed u w = None.
Proof.
  intros relayed u w Ht Hnone. unfold command_nick. rewrite Ht.
  destruct (relay_matches u w) eqn:E; [|reflexivity].
  apply relay_matches_spec in E. destruct E as [bot [Hin Hm]].
  now destruct (Hnone bot Hin).
Qed.

Lemma messages_sent_add_message : forall channel msg w,
  messages_sent (events (add_event (SendMsg channel msg) w))
  = (messages_sent (events w) ++ [(channel, msg)])%list.
Proof. intros. unfold add_event. simpl. now rewrite messages_sent_app. Qed.

Lemma messages_sent_add_log : forall level msg w,
  messages_sent (events (add_event (Log level msg) w))
  = messages_sent (events w).
Proof.
  intros. unfold add_event. simpl. rewrite messages_sent_app. apply app_nil_r.
Qed.

Section Check.
Context {rt : PyRuntime} {env : Env}.

Lemma check_reply_format : forall symbol current text,
  py_format ("Symbol: " ++ x02 ++ "{}" ++ x02
             ++ " | Current: {} | Daily Change: {}")
            [AStr symbol; AFloat current; AStr text] []
  = inr ("Symbol: " ++ x02 ++ symbol ++ x02 ++ " | Current: "
         ++ float_repr current ++ " | Daily Change: " ++ text).
Proof.
  intros. unfold py_format. simpl. now rewrite append_empty_r.
Qed.

Lemma check_question_format : forall name,
  py_format "{}: Is your symbol correct?" [AStr name] []
  = inr (name ++ ": Is your symbol correct?").
Proof. reflexivity. Qed.

Lemma check_ignored : forall u channel m w,
  command_nick (cm_relayed m) u w = None ->
  check u channel m w = (inr tt, w).
Proof.
  intros u channel m w. unfold command_nick, check.
  destruct (truthy_str (cm_relayed m)) eqn:Ht; [|discriminate].
  unfold bind at 1. rewrite is_relay_bot_run.
  destruct (relay_matches u w); [|reflexivity].
  intros Hnone. rewrite Hnone in Ht. discriminate.
Qed.

(** [check] once the sender is accepted and the fetch has failed. *)
Lemma check_failure : forall u channel m w name exc w1,
  command_nick (cm_relayed m) u w = Some name ->
  get_daily (upper (cm_symbol m)) w = (inl exc, w1) ->
  exists record,
    check u channel m w
    = (inr tt,
       add_event (SendMsg channel (name ++ ": Is your symbol correct?"))
                 (add_event (Log LWarning record) w1)).
Proof.
  intros u channel m w name exc w1 Hnick Hfetch.
  assert (Hlog : exists record,
            py_format "Error trying to look up symbol {}: {}"
                      [AStr (upper (cm_symbol m)); AStr (exn_message exc)] []
            = inr record) by (eexists; reflexivity).
  destruct Hlog as [record Hrecord]. exists record.
  unfold command_nick in Hnick. unfold check.
  destruct (truthy_str (cm_relayed m)) eqn:Ht.
  - unfold bind at 1. rewrite is_relay_bot_run.
    destruct (relay_matches u w); [|discriminate]. cbn [negb].
    rewrite Hnick. cbn [or_default].
    unfold bind at 1, try_. rewrite Hfetch.
    unfold bind at 1. rewrite Hrecord, lift_run.
    unfold bind at 1, log, modify.
    unfold bind at 1. rewrite check_question_format, lift_run. reflexivity.
  - injection Hnick as <-. unfold bind at 1, ret. cbn [negb].
    unfold bind at 1, try_. rewrite Hfetch.
    unfold bind at 1. rewrite Hrecord, lift_run.
    unfold bind at 1, log, modify.
    unfold bind at 1. rewrite check_question_format, lift_run. reflexivity.
Qed.

(** [check] once the sender is accepted and the fetch has succeeded. *)
Lemma check_success : forall u channel m w name data w1,
  command_nick (cm_relayed m) u w = Some name ->
  get_daily (upper (cm_symbol m)) w = (inr data, w1) ->
  exists text,
    colorize (d_percentage data) = inr text
    /\ check u channel m w
       = (inr tt,
          add_event
            (SendMsg channel
                     ("Symbol: " ++ x02 ++ upper (cm_symbol m) ++ x02
                      ++ " | Current: " ++ float_repr (d_current data)
                      ++ " | Daily Change: " ++ text)) w1).
Proof.
  intros u channel m w name data w1 Hnick Hfetch.
  destruct (colorize_returns (d_percentage data)) as [text Htext].
  exists text. split; [assumption|].
  unfold command_nick in Hnick. unfold check.
  destruct (truthy_str (cm_relayed m)) eqn:Ht.
  - unfold bind at 1. rewrite is_relay_bot_run.
    destruct (relay_matches u w); [|discriminate]. cbn [negb].
    unfold bind at 1, try_. rewrite Hfetch.
    unfold bind at 1. rewrite Htext, lift_run.
    unfold bind at 1. rewrite check_reply_format, lift_run. reflexivity.
  - unfold bind at 1, ret. cbn [negb].
    unfold bind at 1, try_. rewrite Hfetch.
    unfold bind at 1. rewrite Htext, lift_run.
    unfold bind at 1. rewrite check_reply_format, lift_run. reflexivity.
Qed.

(** X10: a relayed !check ("<nick> !check SYM") from a sender who matches
    no registered relay bot is dropped: no request, no reply, no log
    record, no change at all. *)
Theorem check_ignores_strangers : forall u channel m w,
  truthy_str (cm_relayed m) = true ->
  (forall bot, In bot (relay_bots w) -> ~ bot_matches bot u) ->
  check u channel m w = (inr tt, w).
Proof.
  intros u channel m w Ht Hnone.
  apply check_ignored. now apply command_nick_stranger.
Qed.

(** X11: check never raises, whatever the API does, and it sends at most
    one message, to the channel the command came from. *)
Theorem check_never_raises : forall u channel m w,
  let r := check u channel m w in
  fst r = inr tt
  /\ (messages_sent (events (snd r)) = messages_sent (events w)
      \/ exists reply,
           messages_sent (events (snd r))
           = (messages_sent (events w) ++ [(channel, reply)])%list).
Proof.
  intros u channel m w. cbv zeta.
  destruct (command_nick (cm_relayed m) u w) as [name|] eqn:Hnick.
  - pose proof (get_daily_quiet (upper (cm_symbol m)) w) as Hquiet.
    apply network_only_messages in Hquiet.
    destruct (get_daily (upper (cm_symbol m)) w) as [[exc|data] w1] eqn:Hfetch;
      cbn [snd] in Hquiet.
    + destruct (check_failure u channel m w name exc w1 Hnick Hfetch)
        as [record ->].
      cbn [fst snd]. split; [reflexivity|]. right. eexists.
      now rewrite messages_sent_add_message, messages_sent_add_log, Hquiet.
    + destruct (check_success u channel m w name data w1 Hnick Hfetch)
        as (text & _ & ->).
      cbn [fst snd]. split; [reflexivity|]. right. eexists.
      now rewrite messages_sent_add_message, Hquiet.
  - rewrite (check_ignored u channel m w Hnick). auto.
Qed.

(** X12: when the fetch fails (no answer after three tries, an unknown
    symbol, no data for the last days), check logs a warning and asks
    "<nick>: Is your symbol correct?", with the relayed nick if a relay
    bot sent the command. *)
Theorem check_asks_on_failure : forall u channel m w name,
  command_nick (cm_relayed m) u w = Some name ->
  raised (get_daily (upper (cm_symbol m)) w) = true ->
  let r := check u channel m w in
  fst r = inr tt
  /\ messages_sent (events (snd r))
     = (messages_sent (events w)
        ++ [(channel, (name ++ ": Is your symbol correct?")%string)])%list
  /\ exists record, In (Log LWarning record) (events (snd r)).
Proof.
  intros u channel m w name Hnick Hraised. cbv zeta.
  pose proof (get_daily_quiet (upper (cm_symbol m)) w) as Hquiet.
  apply network_only_messages in Hquiet. unfold raised in Hraised.
  destruct (get_daily (upper (cm_symbol m)) w) as [[exc|data] w1] eqn:Hfetch;
    cbn [fst snd] in *; [|discriminate].
  destruct (check_failure u channel m w name exc w1 Hnick Hfetch) as [record ->].
  cbn [fst snd]. split; [reflexivity|]. split.
  - now rewrite messages_sent_add_message, messages_sent_add_log, Hquiet.
  - exists record. unfold add_event. simpl.
    apply in_or_app. left. apply in_or_app. right. now left.
Qed.

(** X13: when the fetch succeeds, check replies with the symbol in upper
    case between bold marks, the latest close as Python prints a float,
    and the colorized percentage of get_daily. *)
Theorem check_reports_on_success : forall u channel m w name data w1,
  command_nick (cm_relayed m) u w = Some name ->
  get_daily (upper (cm_symbol m)) w = (inr data, w1) ->
  exists text,
    colorize (d_percentage data) = inr text
    /\ fst (check u channel m w) = inr tt
    /\ messages_sent (events (snd (check u channel m w)))
       = (messages_sent (events w)
          ++ [(channel,
               ("Symbol: " ++ x02 ++ upper (cm_symbol m) ++ x02
                ++ " | Current: " ++ float_repr (d_current data)
                ++ " | Daily Change: " ++ text)%string)])%list.
Proof.
  intros u channel m w name data w1 Hnick Hfetch.
  pose proof (get_daily_quiet (upper (cm_symbol m)) w) as Hquiet.
  apply network_only_messages in Hquiet. rewrite Hfetch in Hquiet.
  cbn [snd] in Hquiet.
  destruct (check_success u channel m w name data w1 Hnick Hfetch)
    as (text & Htext & ->).
  exists text. split; [assumption|]. cbn [fst snd]. split; [reflexivity|].
  now rewrite messages_sent_add_message, Hquiet.
Qed.

End Check.

(** bob's relayed command, sent by alice, who is no relay bot. *)
Lemma check_ignores_alice_posing_as_relay :
  check (rt := demo_runtime) (env := market_env) alice "#stocks"
        (mk_check_match (Some "bob") "aapl") relay_plugin
  = (inr tt, relay_plugin).
Proof.
  apply (check_ignores_strangers (rt := demo_runtime) (env := market_env)).
  - reflexivity.
  - intros bot [<-|[]] (Hnick & _). destruct Hnick as [H|H]; discriminate H.
Defined.

(** An unknown symbol: the API's error body, and the question back. *)
Lemma check_asks_about_unknown_symbol :
  let r := check (rt := demo_runtime) (env := unknown_symbol_env) alice "#stocks"
                 (mk_check_match None "xyz") fresh_plugin in
  fst r = inr tt
  /\ messages_sent (events (snd r))
     = (messages_sent (events fresh_plugin)
        ++ [("#stocks", "alice: Is your symbol correct?")])%list
  /\ exists record, In (Log LWarning record) (events (snd r)).
Proof.
  apply (check_asks_on_failure (rt := demo_runtime) (env := unknown_symbol_env)
           alice "#stocks" (mk_check_match None "xyz") fresh_plugin "alice").
  - reflexivity.
  - vm_compute. reflexivity.
Defined.

(** carol's !check msft, relayed by the relay bot. *)
Lemma check_reports_relayed_msft :
  exists text,
    colorize (rt := demo_runtime) (200 / 210 * 100 - 100)%float = inr text
    /\ fst (check (rt := demo_runtime) (env := market_env) relay "#stocks"
                  (mk_check_match (Some "carol") "msft") relay_plugin) = inr tt
    /\ messages_sent
         (events (snd (check (rt := demo_runtime) (env := market_env) relay
                             "#stocks" (mk_check_match (Some "carol") "msft")
                             relay_plugin)))
       = (messages_sent (events relay_plugin)
          ++ [("#stocks",
               ("Symbol: " ++ x02 ++ "MSFT" ++ x02 ++ " | Current: "
                ++ float_repr (PyRuntime := demo_runtime) 210%float
                ++ " | Daily Change: " ++ text)%string)])%list.
Proof.
  apply (check_reports_on_success
           (rt := demo_runtime) (env := market_env) relay "#stocks"
           (mk_check_match (Some "carol") "msft") relay_plugin "carol"
           (mk_daily 210 210 205 (200 / 210 * 100 - 100))%float
           (snd (get_daily (rt := demo_runtime) (env := market_env) "MSFT"
                           relay_plugin))).
  - reflexivity.
  - vm_compute. reflexivity.
Defined.

(** ** Stored predictions *)

Lemma dict_set_set : forall V (d : dict V) k v v',
  dict_set k v (dict_set k v' d) = dict_set k v d.
Proof.
  induction d as [|[k0 v0] d IH]; intros k v v'; simpl.
  - now rewrite String.eqb_refl.
  - destruct (String.eqb k k0) eqn:E; simpl; rewrite E; [reflexivity|].
    now rewrite IH.
Qed.

Lemma dict_keys_set : forall V (d : dict V) k v,
  dict_keys (dict_set k v d)
  = match dict_get k d with
    | Some _ => dict_keys d
    | None => (dict_keys d ++ [k])%list
    end.
Proof.
  induction d as [|[k0 v0] d IH]; intros k v; simpl; [reflexivity|].
  destruct (String.eqb k k0) eqn:E; simpl; [reflexivity|].
  rewrite IH. now destruct (dict_get k d).
Qed.

Lemma stored_for : forall p symbol nick,
  stored p symbol nick = dict_get nick (predictions_for p symbol).
Proof.
  intros p symbol nick. unfold stored, predictions_for.
  now destruct (dict_get symbol p).
Qed.

Lemma predictions_for_set_same : forall p symbol inner,
  predictions_for (dict_set symbol inner p) symbol = inner.
Proof. intros. unfold predictions_for. now rewrite dict_get_set_same. Qed.

Lemma predictions_for_set_other : forall p symbol inner s,
  s <> symbol -> predictions_for (dict_set symbol inner p) s = predictions_for p s.
Proof. intros. unfold predictions_for. now rewrite dict_get_set_other. Qed.

Section Store.
Context {env : Env}.

(** [save_prediction] in one step: the clock is read once, and the entry
    of the symbol is its old one with the nick set. *)
Lemma save_prediction_run : forall symbol nick base prediction w,
  save_prediction symbol nick base prediction w
  = (inr tt,
     set_predictions
       (dict_set symbol
                 (dict_set nick (clock (clock_reads w), base, prediction)
                           (predictions_for (predictions w) symbol))
                 (predictions w))
       (tick_clock w)).
Proof.
  intros symbol nick base prediction w.
  unfold save_prediction, bind, est_now, predictions_at, modify, predictions_for.
  cbn [predictions tick_clock].
  destruct (dict_get symbol (predictions w)); cbn [or_default]; [reflexivity|].
  cbn [predictions set_predictions]. now rewrite dict_set_set.
Qed.

(** X14: save_prediction keeps one prediction per nick and symbol, in the
    order the nicks first predicted: a nick that already has a prediction
    for the symbol keeps its place, a new nick goes last, and the
    predictions for every other symbol stay as they were. *)
Theorem save_prediction_keeps_order : forall w symbol nick base prediction,
  let w' := snd (save_prediction symbol nick base prediction w) in
  dict_keys (predictions_for (predictions w') symbol)
  = match stored (predictions w) symbol nick with
    | Some _ => dict_keys (predictions_for (predictions w) symbol)
    | None => (dict_keys (predictions_for (predictions w) symbol) ++ [nick])%list
    end
  /\ forall s, s <> symbol ->
       predictions_for (predictions w') s = predictions_for (predictions w) s.
Proof.
  intros w symbol nick base prediction. cbv zeta.
  rewrite save_prediction_run. cbn [snd predictions set_predictions]. split.
  - rewrite predictions_for_set_same, dict_keys_set. now rewrite stored_for.
  - intros s Hs. now apply predictions_for_set_other.
Qed.

End Store.

(** ** !predict *)

Section PredictCommand.
Context {rt : PyRuntime} {env : Env}.

Lemma parse_prediction_ignored : forall u m w,
  command_nick (pm_relayed m) u w = None ->
  parse_prediction u m w = (inr None, w).
Proof.
  intros u m w. unfold command_nick, parse_prediction.
  destruct (truthy_str (pm_relayed m)) eqn:Ht; [|discriminate].
  unfold bind at 1. rewrite is_relay_bot_run.
  destruct (relay_matches u w); [|reflexivity].
  intros Hnone. rewrite Hnone in Ht. discriminate.
Qed.

Lemma parse_prediction_fetch_failure : forall u m w name e w1,
  command_nick (pm_relayed m) u w = Some name ->
  get_daily (upper (pm_symbol m)) w = (inl e, w1) ->
  parse_prediction u m w = (inl e, w1).
Proof.
  intros u m w name e w1 Hnick Hfetch.
  unfold command_nick in Hnick. unfold parse_prediction.
  destruct (truthy_str (pm_relayed m)).
  - unfold bind at 1. rewrite is_relay_bot_run.
    destruct (relay_matches u w); [|discriminate]. cbn [negb].
    unfold bind at 1. now rewrite Hfetch.
  - unfold bind at 1, ret. cbn [negb]. unfold bind at 1. now rewrite Hfetch.
Qed.

(** X15: a relayed !predict from a sender who matches no registered relay
    bot is dropped before anything is fetched: no request, no reply,
    nothing stored. *)
Theorem predict_ignores_strangers : forall u channel m w,
  truthy_str (pm_relayed m) = true ->
  (forall bot, In bot (relay_bots w) -> ~ bot_matches bot u) ->
  predict u channel m w = (inr tt, w).
Proof.
  intros u channel m w Ht Hnone. unfold predict, bind.
  rewrite parse_prediction_ignored by now apply command_nick_stranger.
  reflexivity.
Qed.

(** X16: unlike check, predict does not catch a failed fetch: the
    exception of get_daily leaves predict as it is, so the user gets no
    reply, and nothing is stored. *)
Theorem predict_lets_fetch_failure_out : forall u channel m w name e w1,
  command_nick (pm_relayed m) u w = Some name ->
  get_daily (upper (pm_symbol m)) w = (inl e, w1) ->
  predict u channel m w = (inl e, w1)
  /\ predictions w1 = predictions w
  /\ messages_sent (events w1) = messages_sent (events w).
Proof.
  intros u channel m w name e w1 Hnick Hfetch.
  pose proof (get_daily_quiet (upper (pm_symbol m)) w) as Hquiet.
  rewrite Hfetch in Hquiet. cbn [snd] in Hquiet.
  split; [|split].
  - unfold predict, bind.
    now rewrite (parse_prediction_fetch_failure u m w name e w1 Hnick Hfetch).
  - apply Hquiet.
  - now apply network_only_messages.
Qed.

Lemma predict_confirmation_format :
  forall name symbol market prediction text old_str,
  exists msg,
    py_format ("Prediction by {} for " ++ x02 ++ "{}" ++ x02
               ++ " at market {}: {:.2f} ({}) {}")
              [AStr name; AStr symbol; AStr market; AFloat prediction;
               AStr text; AStr old_str] []
    = inr msg.
Proof. intros. eexists. reflexivity. Qed.

(** X17: a first !predict for a symbol, once parse_prediction has given
    (nick, symbol, prediction, base) with a non-zero base price, stores
    (time of the command, base, prediction) for the nick and sends one
    confirmation to the channel. *)
Theorem predict_first_prediction :
  forall u channel m w w1 name symbol prediction base,
  parse_prediction u m w = (inr (Some (name, symbol, prediction, base)), w1) ->
  stored (predictions w1) symbol name = None ->
  PrimFloat.eqb base 0%float = false ->
  let r := predict u channel m w in
  fst r = inr tt
  /\ stored (predictions (snd r)) symbol name
     = Some (clock (clock_reads w1), base, prediction)
  /\ exists msg,
       messages_sent (events (snd r))
       = (messages_sent (events w1) ++ [(channel, msg)])%list.
Proof.
  intros u channel m w w1 name symbol prediction base Hparse Hnone Hbase.
  cbv zeta.
  remember (predict u channel m w) as r eqn:Hr.
  unfold predict in Hr. unfold bind at 1 in Hr. rewrite Hparse in Hr.
  unfold bind at 1, predictions_at in Hr.
  rewrite stored_for in Hnone.
  assert (Hstep : exists w2,
            clock_reads w2 = clock_reads w1
            /\ events w2 = events w1
            /\ predictions_for (predictions w2) symbol
               = predictions_for (predictions w1) symbol
            /\ r = (old_str <- ret EmptyString ;;
                    save_prediction symbol name base prediction ;;
                    is_open <- market_is_open ;;
                    delta <- lift (get_delta prediction base) ;;
                    text <- lift (colorize delta) ;;
                    msg <- lift (py_format
                                   ("Prediction by {} for " ++ x02 ++ "{}" ++ x02
                                    ++ " at market {}: {:.2f} ({}) {}")
                                   [AStr name; AStr symbol;
                                    AStr (if (is_open : bool) then "close"
                                          else "open");
                                    AFloat prediction; AStr text;
                                    AStr old_str] []) ;;
                    sendMsg channel msg) w2).
  { unfold predictions_for in Hnone.
    destruct (dict_get symbol (predictions w1)) as [inner|] eqn:Einner;
      cbn [or_default] in Hnone.
    - exists w1. rewrite Hnone in Hr. auto.
    - exists (set_predictions (dict_set symbol [] (predictions w1)) w1).
      cbn [clock_reads events predictions set_predictions].
      rewrite predictions_for_set_same. unfold predictions_for.
      rewrite Einner. auto. }
  clear Hr. destruct Hstep as (w2 & Hclock & Hevents & Hfor & Hr).
  unfold bind at 1, ret at 1 in Hr. unfold bind at 1 in Hr.
  rewrite save_prediction_run in Hr.
  unfold bind at 1, market_is_open, bind at 1, est_now, ret at 1 in Hr.
  unfold bind at 1, get_delta in Hr. rewrite Hbase, lift_run in Hr.
  destruct (colorize_returns (prediction / base * 100 - 100)%float)
    as [text Htext].
  unfold bind at 1 in Hr. rewrite Htext, lift_run in Hr.
  match type of Hr with
  | context [py_format _ [AStr name; AStr symbol; AStr ?market;
                          AFloat prediction; AStr text; AStr ?old] []] =>
      destruct (predict_confirmation_format name symbol market prediction
                                            text old) as [msg Hmsg]
  end.
  unfold bind at 1 in Hr. rewrite Hmsg, lift_run in Hr.
  unfold sendMsg, modify in Hr. subst r. cbn [fst snd].
  split; [reflexivity|]. split.
  - cbn [predictions add_event tick_clock set_predictions].
    rewrite stored_for, predictions_for_set_same, dict_get_set_same.
    now rewrite Hclock.
  - exists msg. rewrite messages_sent_add_message.
    cbn [events tick_clock set_predictions]. now rewrite Hevents.
Qed.

End PredictCommand.

(** alice posing as a relay for bob: dropped. *)
Lemma predict_ignores_alice_posing_as_relay :
  predict (rt := demo_runtime) (env := market_env) alice "#stocks"
          (mk_predict_match (Some "bob") "aapl" (Some "+") "5") relay_plugin
  = (inr tt, relay_plugin).
Proof.
  apply (predict_ignores_strangers (rt := demo_runtime) (env := market_env)).
  - reflexivity.
  - intros bot [<-|[]] (Hnick & _). destruct Hnick as [H|H]; discriminate H.
Defined.

(** A prediction for a symbol the API does not know: KeyError, no reply. *)
Lemma predict_unknown_symbol_raises :
  let w1 := snd (get_daily (rt := demo_runtime) (env := unknown_symbol_env)
                           "XYZ" fresh_plugin) in
  predict (rt := demo_runtime) (env := unknown_symbol_env) alice "#stocks"
          (mk_predict_match None "xyz" (Some "+") "5") fresh_plugin
  = (inl (KeyError "Response missing expected 'Time Series (Daily)' key"), w1)
  /\ predictions w1 = predictions fresh_plugin
  /\ messages_sent (events w1) = messages_sent (events fresh_plugin).
Proof.
  apply (predict_lets_fetch_failure_out
           (rt := demo_runtime) (env := unknown_symbol_env) alice "#stocks"
           (mk_predict_match None "xyz" (Some "+") "5") fresh_plugin "alice").
  - reflexivity.
  - vm_compute. reflexivity.
Defined.

(** alice's first prediction for AAPL. *)
Lemma predict_first_prediction_alice :
  let w1 := snd (parse_prediction (rt := demo_runtime) (env := market_env)
                                  alice aapl_up_5 fresh_plugin) in
  let r := predict (rt := demo_runtime) (env := market_env) alice "#stocks"
                   aapl_up_5 fresh_plugin in
  fst r = inr tt
  /\ stored (predictions (snd r)) "AAPL" "alice"
     = Some (clock (Env := market_env) (clock_reads w1), 108,
             108 + 5 * 0.01 * 108)%float
  /\ exists msg,
       messages_sent (events (snd r))
       = (messages_sent (events w1) ++ [("#stocks", msg)])%list.
Proof.
  apply (predict_first_prediction
           (rt := demo_runtime) (env := market_env) alice "#stocks" aapl_up_5
           fresh_plugin).
  - vm_compute. reflexivity.
  - vm_compute. reflexivity.
  - vm_compute. reflexivity.
Defined.

(** alice's second prediction for AAPL, as in C9's scenario. *)
Lemma predict_replacement_raises_alice :
  let w1 := snd (parse_prediction (rt := demo_runtime) (env := market_env)
                                  alice aapl_down_2_5 one_prediction) in
  (fst (predict (rt := demo_runtime) (env := market_env) alice "#stocks"
                aapl_down_2_5 one_prediction) = inl (NameError "old_datetime")
   \/ fst (predict (rt := demo_runtime) (env := market_env) alice "#stocks"
                   aapl_down_2_5 one_prediction) = inl ZeroDivisionError)
  /\ snd (predict (rt := demo_runtime) (env := market_env) alice "#stocks"
                  aapl_down_2_5 one_prediction) = w1.
Proof.
  apply (predict_replacement_raises
           (rt := demo_runtime) (env := market_env) alice "#stocks"
           aapl_down_2_5 one_prediction
           (snd (parse_prediction (rt := demo_runtime) (env := market_env)
                                  alice aapl_down_2_5 one_prediction))
           "alice" "AAPL" (108 - 2.5 * 0.01 * 108)%float 108%float
           (tuesday_11am, 108, 108 + 5 * 0.01 * 108)%float).
  - vm_compute. reflexivity.
  - vm_compute. reflexivity.
Defined.

(** ** The ticker message *)

Lemma dict_get_of_key : forall V (d : dict V) k,
  In k (dict_keys d) -> exists v, dict_get k d = Some v.
Proof.
  induction d as [|[k0 v0] d IH]; intros k; simpl; [contradiction|].
  intros [<-|Hin].
  - rewrite String.eqb_refl. eauto.
  - destruct (String.eqb k k0); eauto.
Qed.

Lemma dict_keys_set_in : forall V (d : dict V) k0 v k,
  In k (dict_keys (dict_set k0 v d)) -> k = k0 \/ In k (dict_keys d).
Proof.
  intros V d k0 v k. rewrite dict_keys_set.
  destruct (dict_get k0 d); [now right|].
  intros H. apply in_app_or in H. destruct H as [H|[H|[]]]; auto.
Qed.

Lemma results0_keys : forall ks (acc : dict (option float)) k,
  In k (dict_keys (fold_left (fun acc symbol => dict_set symbol None acc) ks acc)) ->
  In k ks \/ In k (dict_keys acc).
Proof.
  induction ks as [|k0 ks IH]; intros acc k; simpl; [now right|].
  intros H. apply IH in H. destruct H as [H|H]; [now left; right|].
  apply dict_keys_set_in in H. destruct H as [->|H]; auto.
Qed.

Lemma Forall2_in_right : forall A B (P : A -> B -> Prop) l1 l2 y,
  Forall2 P l1 l2 -> In y l2 -> exists x, In x l1 /\ P x y.
Proof.
  intros A B P l1 l2 y H. induction H as [|x0 y0 l1 l2 Hxy H IH]; simpl.
  - contradiction.
  - intros [<-|Hin]; [eauto|].
    destruct (IH Hin) as (x & Hx & Hp). eauto.
Qed.

Lemma for_each_sendMsg : forall chans message w,
  for_each chans (fun channel =>
                    modify (add_event (SendMsg channel message))) w
  = (inr tt, after_messages chans message w).
Proof.
  induction chans as [|channel chans IH]; intros message w; [reflexivity|].
  simpl for_each. unfold bind, modify at 1. now rewrite IH.
Qed.

Lemma after_messages_sent : forall chans message w,
  messages_sent (events (after_messages chans message w))
  = (messages_sent (events w) ++ map (fun channel => (channel, message)) chans)%list.
Proof.
  induction chans as [|channel chans IH]; intros message w; simpl.
  - now rewrite app_nil_r.
  - unfold after_messages in *. simpl. rewrite IH, messages_sent_add_message.
    now rewrite <- app_assoc.
Qed.

Section TickerMessage.
Context {rt : PyRuntime} {env : Env}.

Lemma get_daily_change_world : forall symbol w,
  snd (get_daily_change symbol w) = snd (get_daily symbol w).
Proof.
  intros symbol w. unfold get_daily_change, bind.
  now destruct (get_daily symbol w) as [[e|res] w1].
Qed.

Lemma get_daily_change_symbol : forall symbol w sc,
  fst (get_daily_change symbol w) = inr sc -> fst sc = symbol.
Proof.
  intros symbol w sc. unfold get_daily_change, bind.
  destruct (get_daily symbol w) as [[e|res] w1]; simpl; [discriminate|].
  now intros [= <-].
Qed.

(** The fan-out of [send_ticker]: one outcome per symbol, in the order of
    the symbols, each success under its own symbol; only network traffic
    happens. *)
Lemma gather_fetches : forall symbols w,
  exists dl w1,
    gather (map get_daily_change symbols) w = (inr dl, w1)
    /\ network_only w w1
    /\ Forall2 (fun symbol r => forall sc, r = inr sc -> fst sc = symbol)
               symbols dl.
Proof.
  induction symbols as [|symbol symbols IH]; intros w.
  - exists [], w. split; [reflexivity|].
    split; [apply network_only_refl | constructor].
  - cbn [map gather]. unfold bind at 1, try_.
    pose proof (get_daily_quiet symbol w) as Hquiet.
    rewrite <- get_daily_change_world in Hquiet.
    pose proof (get_daily_change_symbol symbol w) as Hsym.
    destruct (get_daily_change symbol w) as [r0 w0]. cbn [fst snd] in *.
    destruct (IH w0) as (dl & w1 & Hg & Hn & HF).
    exists (r0 :: dl), w1. unfold bind. rewrite Hg.
    split; [reflexivity|]. split.
    + now apply (network_only_trans _ w0).
    + constructor; [|assumption]. intros sc ->. now apply Hsym.
Qed.

(** The first loop over results that are all successes. *)
Lemma ticker_results_success : forall dl l w,
  existsb is_failure dl = false ->
  exists l',
    for_fold dl l ticker_result w = (inr l', w)
    /\ (forall k, In k (dict_keys (results l')) ->
          In k (dict_keys (results l)) \/ exists c, In (inr (k, c)) dl)
    /\ (dl <> [] -> exists c, change_var l' = Some c)
    /\ (dl = [] -> l' = l).
Proof.
  induction dl as [|r dl IH]; intros l w Hok.
  - exists l. repeat split; auto. intros H. now destruct H.
  - simpl in Hok. apply orb_false_iff in Hok. destruct Hok as [Hr Hok].
    destruct r as [e|[symbol change]]; [discriminate|].
    cbn [for_fold]. unfold bind. rewrite ticker_result_success.
    destruct (IH (mk_ticker_locals (dict_set symbol (Some change) (results l))
                                   (Some symbol) (Some change)) w Hok)
      as (l' & Hrun & Hkeys & Hchange & Hsame).
    exists l'. split; [assumption|]. split; [|split].
    + intros k Hk. apply Hkeys in Hk. destruct Hk as [Hk|[c Hc]].
      * cbn [results] in Hk. apply dict_keys_set_in in Hk.
        destruct Hk as [->|Hk]; [right; exists change; now left | now left].
      * right. exists c. now right.
    + intros _. destruct dl as [|r' dl'].
      * rewrite (Hsame eq_refl). cbn [change_var]. eauto.
      * apply Hchange. discriminate.
    + discriminate.
Qed.

Lemma format_symbol_known : forall symbol change w name,
  dict_get symbol (stocks (config w)) = Some name ->
  exists part, format_symbol symbol change w = (inr part, w).
Proof.
  intros symbol change w name Hname.
  destruct (colorize_returns change) as [colored Hcolored].
  unfold format_symbol. unfold bind at 1, gets.
  unfold bind at 1, dict_index. rewrite Hname, lift_run.
  unfold bind at 1. rewrite Hcolored, lift_run.
  rewrite lift_run. eexists. reflexivity.
Qed.

(** The second loop, over entries whose symbols are all configured. *)
Lemma ticker_parts_known : forall items change parts w,
  (forall k, In k (dict_keys items) ->
     exists name, dict_get k (stocks (config w)) = Some name) ->
  exists parts',
    for_fold items parts (ticker_part (Some change)) w = (inr parts', w).
Proof.
  induction items as [|[symbol result] items IH]; intros change parts w Hknown.
  - exists parts. reflexivity.
  - destruct (Hknown symbol (or_introl eq_refl)) as [name Hname].
    destruct (format_symbol_known symbol change w name Hname) as [part Hpart].
    cbn [for_fold]. unfold bind at 1, ticker_part, read_local.
    unfold bind at 1, ret at 1. unfold bind at 1. rewrite Hpart.
    unfold ret at 1. apply IH. intros k Hk. apply Hknown. now right.
Qed.

(** X18: when every fetch of send_ticker has succeeded, send_ticker does
    not raise and posts one and the same message once to each configured
    channel, in the order of the configuration; with no channel
    configured it posts nothing. *)
Theorem send_ticker_posts_to_every_channel : forall w dl w1,
  gather (map get_daily_change (dict_keys (stocks (config w)))) w
  = (inr dl, w1) ->
  existsb is_failure dl = false ->
  exists message,
    send_ticker w = (inr tt, after_messages (channels (config w)) message w1)
    /\ messages_sent (events (snd (send_ticker w)))
       = (messages_sent (events w)
          ++ map (fun channel => (channel, message)) (channels (config w)))%list.
Proof.
  intros w dl w1 Hgather Hok.
  destruct (gather_fetches (dict_keys (stocks (config w))) w)
    as (dl' & w1' & Hg & Hquiet & Hsymbols).
  rewrite Hgather in Hg. injection Hg as <- <-.
  assert (Hconfig : config w1 = config w) by apply Hquiet.
  assert (Hrun : exists message,
            send_ticker w
            = (inr tt, after_messages (channels (config w)) message w1)).
  { unfold send_ticker, bind at 1, gets. unfold bind at 1. rewrite Hgather.
    unfold send_ticker_results, bind at 1, gets. rewrite Hconfig.
    set (names := stocks (config w)) in *.
    set (l0 := mk_ticker_locals _ _ _).
    destruct (ticker_results_success dl l0 w1 Hok)
      as (l & Hloop & Hkeys & Hchange & Hsame).
    unfold bind at 1. rewrite Hloop.
    assert (Hknown : forall k, In k (dict_keys (results l)) ->
              exists name, dict_get k (stocks (config w1)) = Some name).
    { intros k Hk. rewrite Hconfig. fold names. apply dict_get_of_key.
      apply Hkeys in Hk. destruct Hk as [Hk|[c Hc]].
      - unfold l0 in Hk. cbn [results] in Hk. apply results0_keys in Hk.
        destruct Hk as [Hk|[]]. assumption.
      - destruct (Forall2_in_right _ _ _ _ _ _ Hsymbols Hc) as (s & Hs & Hp).
        now rewrite <- (Hp (k, c) eq_refl) in Hs. }
    assert (Hparts : exists parts,
              for_fold (results l) [] (ticker_part (change_var l)) w1
              = (inr parts, w1)).
    { destruct dl as [|r dl'].
      - rewrite (Hsame eq_refl). inversion Hsymbols as [Hnil|]; subst.
        unfold l0. rewrite <- Hnil. exists []. reflexivity.
      - destruct Hchange as [c Hc]; [discriminate|]. rewrite Hc.
        now apply ticker_parts_known. }
    destruct Hparts as [parts Hparts].
    unfold bind at 1. rewrite Hparts.
    exists (join " | " parts). unfold bind, gets. rewrite Hconfig.
    apply for_each_sendMsg. }
  destruct Hrun as [message Hrun]. exists message. split; [assumption|].
  rewrite Hrun. cbn [snd]. rewrite after_messages_sent.
  now rewrite (network_only_messages w w1 Hquiet).
Qed.

Lemma send_ticker_failed : forall w dl w1,
  gather (map get_daily_change (dict_keys (stocks (config w)))) w
  = (inr dl, w1) ->
  existsb is_failure dl = true ->
  send_ticker w
  = (inl (IndexError "Replacement index out of range for positional args tuple"),
     w1).
Proof.
  intros w dl w1 Hgather Hfail.
  unfold send_ticker, bind at 1, gets. unfold bind at 1. rewrite Hgather.
  now apply send_ticker_results_failure.
Qed.

(** X19: when one fetch of send_ticker has failed, send_ticker raises
    IndexError right after the fetches: nothing is posted to any channel,
    the results of the successful fetches included, and the plugin object
    is as before. *)
Theorem send_ticker_stops_on_failed_fetch : forall w dl w1,
  gather (map get_daily_change (dict_keys (stocks (config w)))) w
  = (inr dl, w1) ->
  existsb is_failure dl = true ->
  send_ticker w
  = (inl (IndexError "Replacement index out of range for positional args tuple"),
     w1)
  /\ network_only w w1
  /\ messages_sent (events w1) = messages_sent (events w).
Proof.
  intros w dl w1 Hgather Hfail.
  destruct (gather_fetches (dict_keys (stocks (config w))) w)
    as (dl' & w1' & Hg & Hquiet & _).
  rewrite Hgather in Hg. injection Hg as <- <-.
  split; [|split; [assumption | now apply network_only_messages]].
  now apply (send_ticker_failed w dl w1).
Qed.

End TickerMessage.

(** Both fetches answered: one message, once, to #stocks. *)
Lemma send_ticker_posts_to_stocks_channel :
  exists message,
    send_ticker (rt := demo_runtime) (env := market_env) fresh_plugin
    = (inr tt,
       after_messages (channels (config fresh_plugin)) message
         (snd (gather (map (get_daily_change (rt := demo_runtime)
                                             (env := market_env))
                           (dict_keys (stocks (config fresh_plugin))))
                      fresh_plugin)))
    /\ messages_sent
         (events (snd (send_ticker (rt := demo_runtime) (env := market_env)
                                   fresh_plugin)))
       = (messages_sent (events fresh_plugin)
          ++ map (fun channel => (channel, message))
                 (channels (config fresh_plugin)))%list.
Proof.
  apply (send_ticker_posts_to_every_channel
           (rt := demo_runtime) (env := market_env) fresh_plugin
           [inr ("AAPL", 100 / 110 * 100 - 100);
            inr ("MSFT", 200 / 210 * 100 - 100)]%float).
  - vm_compute. reflexivity.
  - reflexivity.
Defined.

(** The fetch of AAPL failed, that of MSFT succeeded: nothing is posted. *)
Lemma send_ticker_stops_when_aapl_is_down :
  let w1 := snd (gather (map (get_daily_change (rt := demo_runtime)
                                               (env := aapl_down_env))
                             (dict_keys (stocks (config fresh_plugin))))
                        fresh_plugin) in
  send_ticker (rt := demo_runtime) (env := aapl_down_env) fresh_plugin
  = (inl (IndexError "Replacement index out of range for positional args tuple"),
     w1)
  /\ network_only fresh_plugin w1
  /\ messages_sent (events w1) = messages_sent (events fresh_plugin).
Proof.
  apply (send_ticker_stops_on_failed_fetch
           (rt := demo_runtime) (env := aapl_down_env) fresh_plugin
           [inl (RequestError "connection timed out");
            inr ("MSFT", 200 / 210 * 100 - 100)]%float).
  - vm_compute. reflexivity.
  - reflexivity.
Defined.

(** ** The timer's tick *)

Lemma opening_minute : forall now,
  0 <= minute now < 60 ->
  (hour now =? 9) && (minute now =? 30) = (minute_of_day now =? 570).
Proof.
  intros now Hmin. unfold minute_of_day.
  destruct (Z.eqb_spec (hour now) 9), (Z.eqb_spec (minute now) 30),
           (Z.eqb_spec (60 * hour now + minute now) 570);
    simpl; try reflexivity; lia.
Qed.

Lemma closing_minute : forall now,
  0 <= minute now < 60 ->
  (hour now =? 16) && (minute now =? 0) = (minute_of_day now =? 960).
Proof.
  intros now Hmin. unfold minute_of_day.
  destruct (Z.eqb_spec (hour now) 16), (Z.eqb_spec (minute now) 0),
           (Z.eqb_spec (60 * hour now + minute now) 960);
    simpl; try reflexivity; lia.
Qed.

Section Tick.
Context {rt : PyRuntime} {env : Env}.

(** [tick] after its reading of the clock, with its tests in minutes of
    the day. *)
Lemma tick_run : forall w,
  let now := clock (clock_reads w) in
  0 <= minute now < 60 ->
  tick w
  = ((if within_hours now
         && negb (Nat.eqb (List.length (channels (config w))) 0)
         && negb (Nat.eqb (List.length (stocks (config w))) 0)
      then send_ticker else ret tt) ;;
     wait ;;
     if (minute_of_day now =? 570) || (minute_of_day now =? 960)
     then sleep 60 ;; do_predictions else ret tt)
      (tick_clock w).
Proof.
  intros w now Hmin. unfold tick. unfold bind at 1, est_now. fold now.
  rewrite (market_hours now Hmin), (opening_minute now Hmin),
    (closing_minute now Hmin).
  unfold bind at 1, gets. reflexivity.
Qed.

(** X20: outside market hours, and not at 09:30 or 16:00 sharp, a tick
    makes no request and posts nothing: it only schedules the next tick,
    1 to 15 minutes ahead. *)
Theorem tick_only_reschedules : forall w,
  let now := clock (clock_reads w) in
  0 <= minute now < 60 ->
  within_hours now = false ->
  minute_of_day now <> 570 ->
  minute_of_day now <> 960 ->
  exists secs,
    tick w = (inr tt, set_call_id (Some secs)
                        (add_event (CallLater secs)
                                   (tick_clock (tick_clock w))))
    /\ 60 <= secs <= 900.
Proof.
  intros w now Hmin Hclosed Hopen Hclose.
  exists ((15 - minute (clock (S (clock_reads w))) mod 15) * 60). split.
  - rewrite (tick_run w Hmin). fold now. rewrite Hclosed.
    apply Z.eqb_neq in Hopen, Hclose. rewrite Hopen, Hclose. reflexivity.
  - pose proof (Z.mod_pos_bound (minute (clock (S (clock_reads w)))) 15
                                ltac:(lia)). lia.
Qed.

(** X21: the report of the predictions does not look at the day of the
    week: on a Saturday or Sunday at 09:30 or 16:00 a tick sends no ticker
    but, after re-arming the timer, waits a minute and runs
    do_predictions. *)
Theorem tick_reports_on_weekends : forall w,
  let now := clock (clock_reads w) in
  0 <= minute now < 60 ->
  5 <= weekday now ->
  minute_of_day now = 570 \/ minute_of_day now = 960 ->
  tick w = (wait ;; sleep 60 ;; do_predictions) (tick_clock w).
Proof.
  intros w now Hmin Hweekend Hreport.
  rewrite (tick_run w Hmin). fold now.
  assert (Hclosed : within_hours now = false).
  { unfold within_hours. destruct (Z.ltb_spec (weekday now) 5); [lia|reflexivity]. }
  rewrite Hclosed.
  assert (Hdo : (minute_of_day now =? 570) || (minute_of_day now =? 960) = true).
  { apply orb_true_iff. rewrite !Z.eqb_eq. assumption. }
  rewrite Hdo. reflexivity.
Qed.

(** X22: a failed fetch ends the ticker for good: when a tick in market
    hours meets a failed fetch, tick raises IndexError before it reaches
    wait, so no next tick is scheduled and nothing is posted. *)
Theorem tick_stops_on_failed_fetch : forall w dl w1,
  let now := clock (clock_reads w) in
  0 <= minute now < 60 ->
  within_hours now = true ->
  channels (config w) <> [] ->
  stocks (config w) <> [] ->
  gather (map get_daily_change (dict_keys (stocks (config w)))) (tick_clock w)
  = (inr dl, w1) ->
  existsb is_failure dl = true ->
  tick w
  = (inl (IndexError "Replacement index out of range for positional args tuple"),
     w1)
  /\ network_only w w1.
Proof.
  intros w dl w1 now Hmin Hopen Hchans Hstocks Hgather Hfail. split.
  - rewrite (tick_run w Hmin). fold now. rewrite Hopen.
    destruct (channels (config w)) as [|c cs]; [contradiction|].
    destruct (stocks (config w)) as [|s ss] eqn:Es; [contradiction|].
    cbn [List.length Nat.eqb negb andb]. unfold bind at 1.
    rewrite (send_ticker_failed (tick_clock w) dl w1); [reflexivity| |assumption].
    cbn [config tick_clock]. now rewrite Es.
  - destruct (gather_fetches (dict_keys (stocks (config w))) (tick_clock w))
      as (dl' & w1' & Hg & Hquiet & _).
    rewrite Hgather in Hg. injection Hg as <- <-.
    apply (network_only_trans _ (tick_clock w));
      auto using network_only_tick_clock.
Qed.

End Tick.

(** ** The report of the predictions when fetches fail *)

Lemma after_messages_frame : forall chans message w,
  config (after_messages chans message w) = config w
  /\ predictions (after_messages chans message w) = predictions w.
Proof.
  induction chans as [|channel chans IH]; intros message w; [now split|].
  cbn [after_messages fold_left].
  destruct (IH message (add_event (SendMsg channel message) w)) as [Hc Hp].
  unfold after_messages in Hc, Hp. now rewrite Hc, Hp.
Qed.

Section PredictionsReport.
Context {rt : PyRuntime} {env : Env}.

(** The [except] branch of [do_predictions]: the failure is logged, every
    channel is told, and the loop goes on. *)
Lemma do_symbol_failed : forall symbol w e w1,
  get_daily symbol w = (inl e, w1) ->
  do_symbol symbol w
  = (inr tt,
     after_messages (channels (config w1))
       ("Error with predictions for symbol " ++ symbol ++ ".")
       (add_event (Log LException
                       ("Failed to fetch information for symbol " ++ symbol
                        ++ " -- skipping")) w1)).
Proof.
  intros symbol w e w1 Hfetch. unfold do_symbol.
  unfold bind at 1, try_. unfold bind at 1. rewrite Hfetch.
  unfold bind at 1, gets. unfold bind at 1.
  change (py_format "Failed to fetch information for symbol {} -- skipping"
                    [AStr symbol] [])
    with (@inr exn string
               ("Failed to fetch information for symbol " ++ symbol
                ++ " -- skipping")).
  rewrite lift_run. unfold bind at 1, log, modify.
  exact (for_each_sendMsg (channels (config w1))
           ("Error with predictions for symbol " ++ symbol ++ ".") _).
Qed.

Lemma for_each_do_symbol_offline : forall symbols w,
  (forall n params, exists e, http n params = inl e) ->
  exists w',
    for_each symbols do_symbol w = (inr tt, w')
    /\ config w' = config w
    /\ messages_sent (events w')
       = (messages_sent (events w)
          ++ prediction_errors symbols (channels (config w)))%list.
Proof.
  intros symbols w Hdown. revert w.
  induction symbols as [|symbol symbols IH]; intros w.
  - exists w. cbn. now rewrite app_nil_r.
  - destruct (get_daily_offline symbol w Hdown) as (e & w1 & Hfetch).
    pose proof (get_daily_quiet symbol w) as Hquiet.
    rewrite Hfetch in Hquiet. cbn [snd] in Hquiet.
    pose proof (network_only_messages _ _ Hquiet) as Hsent.
    destruct Hquiet as (Hconfig & _).
    cbn [for_each]. unfold bind at 1.
    rewrite (do_symbol_failed symbol w e w1 Hfetch).
    match goal with
    | |- context [for_each symbols do_symbol ?w2] =>
        destruct (IH w2) as (w' & Hrun & Hcfg & Hmsgs);
        destruct (after_messages_frame (channels (config w1))
                    ("Error with predictions for symbol " ++ symbol ++ ".")
                    (add_event (Log LException
                       ("Failed to fetch information for symbol " ++ symbol
                        ++ " -- skipping")) w1)) as [Hc _]
    end.
    exists w'. split; [exact Hrun|]. split.
    + rewrite Hcfg, Hc. exact Hconfig.
    + rewrite Hmsgs, Hc, after_messages_sent, messages_sent_add_log, Hsent.
      cbn [config add_event]. rewrite Hconfig.
      cbn [prediction_errors flat_map]. now rewrite app_assoc.
Qed.

(** X24: with the API out of reach, do_predictions still completes: no
    exception of a fetch gets out, every channel is told once per symbol
    that its predictions failed, in the order of the symbols, nobody's
    prediction is judged, and all predictions are dropped. *)
Theorem do_predictions_reports_failed_fetches : forall w,
  (forall n params, exists e, http n params = inl e) ->
  let r := do_predictions w in
  fst r = inr tt
  /\ predictions (snd r) = []
  /\ messages_sent (events (snd r))
     = (messages_sent (events w)
        ++ prediction_errors (dict_keys (predictions w))
                             (channels (config w)))%list.
Proof.
  intros w Hdown. cbv zeta.
  remember (do_predictions w) as r eqn:Hr.
  unfold do_predictions in Hr. unfold bind at 1, gets in Hr.
  unfold bind at 1 in Hr.
  destruct (for_each_do_symbol_offline (dict_keys (predictions w)) w Hdown)
    as (w' & Hrun & _ & Hmsgs).
  rewrite Hrun in Hr. unfold modify in Hr. subst r.
  cbn [fst snd predictions set_predictions events].
  repeat split. exact Hmsgs.
Qed.

End PredictionsReport.

(** alice's prediction for AAPL on the day the API is out of reach. *)
Lemma do_predictions_reports_failed_fetches_offline :
  let r := do_predictions (rt := demo_runtime) (env := offline_env)
                          one_prediction in
  fst r = inr tt
  /\ predictions (snd r) = []
  /\ messages_sent (events (snd r))
     = (messages_sent (events one_prediction)
        ++ prediction_errors (dict_keys (predictions one_prediction))
                             (channels (config one_prediction)))%list.
Proof.
  apply (do_predictions_reports_failed_fetches
           (rt := demo_runtime) (env := offline_env) one_prediction).
  intros n params. eexists. reflexivity.
Defined.

(** ** The target of a prediction *)

Section Target.
Context {rt : PyRuntime} {env : Env}.

(** X25: the target of a !predict is the base price plus or minus the
    given percentage of it, minus exactly when the sign is a minus; the
    base is the day's open when the command comes in market hours and the
    close otherwise; the symbol is upper-cased and the nick is the one the
    command stands for. *)
Theorem parse_prediction_target : forall u m w name data w1 pct,
  command_nick (pm_relayed m) u w = Some name ->
  get_daily (upper (pm_symbol m)) w = (inr data, w1) ->
  0 <= minute (clock (clock_reads w1)) < 60 ->
  float_of_str (pm_number m) = Some pct ->
  let base := if within_hours (clock (clock_reads w1))
              then d_open data else d_close data in
  let amount := (pct * 0.01 * base)%float in
  let negative := match pm_sign m with
                  | Some s => String.eqb s "-"
                  | None => false
                  end in
  parse_prediction u m w
  = (inr (Some (name, upper (pm_symbol m),
                if negative then (base - amount)%float
                else (base + amount)%float,
                base)),
     tick_clock w1).
Proof.
  intros u m w name data w1 pct Hnick Hfetch Hmin Hnum. cbv zeta.
  unfold command_nick in Hnick. unfold parse_prediction.
  assert (Hrest :
    (data <- get_daily (upper (pm_symbol m)) ;;
     is_open <- market_is_open ;;
     let base := if (is_open : bool) then d_open data else d_close data in
     prediction <- lift (py_float (JStr (pm_number m))) ;;
     let negative := match pm_sign m with
                     | Some s => String.eqb s "-"
                     | None => false
                     end in
     let prediction := (prediction * 0.01 * base)%float in
     let prediction := if negative then (base - prediction)%float
                       else (base + prediction)%float in
     ret (Some (name, upper (pm_symbol m), prediction, base))) w
    = (inr (Some (name, upper (pm_symbol m),
                  if match pm_sign m with
                     | Some s => String.eqb s "-"
                     | None => false
                     end
                  then ((if within_hours (clock (clock_reads w1))
                         then d_open data else d_close data)
                        - pct * 0.01
                          * (if within_hours (clock (clock_reads w1))
                             then d_open data else d_close data))%float
                  else ((if within_hours (clock (clock_reads w1))
                         then d_open data else d_close data)
                        + pct * 0.01
                          * (if within_hours (clock (clock_reads w1))
                             then d_open data else d_close data))%float,
                  if within_hours (clock (clock_reads w1))
                  then d_open data else d_close data)),
       tick_clock w1)).
  { unfold bind at 1. rewrite Hfetch.
    unfold bind at 1, market_is_open. unfold bind at 1, est_now.
    rewrite (market_hours _ Hmin). unfold ret at 1.
    cbv zeta. unfold py_float. rewrite Hnum. unfold bind at 1.
    rewrite lift_run. reflexivity. }
  destruct (truthy_str (pm_relayed m)).
  - unfold bind at 1. rewrite is_relay_bot_run.
    destruct (relay_matches u w); [|discriminate]. cbn [negb].
    destruct (pm_relayed m) as [relayed|]; [|discriminate].
    injection Hnick as ->. cbn [or_default]. exact Hrest.
  - injection Hnick as <-. unfold bind at 1, ret at 1. cbn [negb]. exact Hrest.
Qed.

End Target.

(** alice's [!predict aapl +5%] on Tuesday at 11:00: the base is the open
    of the day, 108, and the target 5% above it. *)
Lemma parse_prediction_target_alice :
  parse_prediction (rt := demo_runtime) (env := market_env) alice aapl_up_5
                   fresh_plugin
  = (inr (Some ("alice", upper (pm_symbol aapl_up_5),
                (108 + 5 * 0.01 * 108)%float, 108%float)),
     tick_clock (snd (get_daily (rt := demo_runtime) (env := market_env)
                                (upper (pm_symbol aapl_up_5)) fresh_plugin))).
Proof.
  apply (parse_prediction_target
           (rt := demo_runtime) (env := market_env) alice aapl_up_5
           fresh_plugin "alice"
           (mk_daily 110 110 108 (100 / 110 * 100 - 100))%float
           (snd (get_daily (rt := demo_runtime) (env := market_env)
                           (upper (pm_symbol aapl_up_5)) fresh_plugin))
           5%float).
  - reflexivity.
  - vm_compute. reflexivity.
  - vm_compute. split; [discriminate | reflexivity].
  - vm_compute. reflexivity.
Defined.

(** ** Ticks on given days *)

(** Sunday at noon: the tick re-arms the timer and does nothing else. *)
Lemma tick_only_reschedules_on_sunday :
  exists secs,
    tick (rt := demo_runtime) (env := sunday_env) fresh_plugin
    = (inr tt, set_call_id (Some secs)
                 (add_event (CallLater secs)
                            (tick_clock (tick_clock fresh_plugin))))
    /\ 60 <= secs <= 900.
Proof.
  apply (tick_only_reschedules (rt := demo_runtime) (env := sunday_env)
                               fresh_plugin).
  - vm_compute. split; [discriminate | reflexivity].
  - reflexivity.
  - vm_compute. discriminate.
  - vm_compute. discriminate.
Defined.

(** Saturday at 09:30, with alice's prediction waiting. *)
Lemma tick_reports_on_saturday :
  tick (rt := demo_runtime) (env := saturday_env) one_prediction
  = (wait (env := saturday_env) ;; sleep 60 ;;
     do_predictions (rt := demo_runtime) (env := saturday_env))%py
      (tick_clock one_prediction).
Proof.
  apply (tick_reports_on_weekends (rt := demo_runtime) (env := saturday_env)
                                  one_prediction).
  - vm_compute. split; [discriminate | reflexivity].
  - vm_compute. discriminate.
  - left. reflexivity.
Defined.

(** Tuesday at 11:00 with AAPL's fetch failing: the tick raises and the
    timer is not re-armed. *)
Lemma tick_stops_when_aapl_is_down :
  let w1 := snd (gather (map (get_daily_change (rt := demo_runtime)
                                               (env := aapl_down_env))
                             (dict_keys (stocks (config fresh_plugin))))
                        (tick_clock fresh_plugin)) in
  tick (rt := demo_runtime) (env := aapl_down_env) fresh_plugin
  = (inl (IndexError "Replacement index out of range for positional args tuple"),
     w1)
  /\ network_only fresh_plugin w1.
Proof.
  apply (tick_stops_on_failed_fetch
           (rt := demo_runtime) (env := aapl_down_env) fresh_plugin
           [inl (RequestError "connection timed out");
            inr ("MSFT", 200 / 210 * 100 - 100)]%float).
  - vm_compute. split; [discriminate | reflexivity].
  - reflexivity.
  - discriminate.
  - discriminate.
  - vm_compute. reflexivity.
  - reflexivity.
Defined.

(** ** The constructor *)

Lemma calls_scheduled_app : forall evs evs',
  calls_scheduled (evs ++ evs')
  = (calls_scheduled evs ++ calls_scheduled evs')%list.
Proof. intros. unfold calls_scheduled. apply flat_map_app. Qed.

Lemma add_relay_bot_run : forall relay_bot w,
  complete_relay_bot relay_bot = true ->
  add_relay_bot relay_bot w
  = (inr tt, set_relay_bots (relay_bots w ++ [relay_bot_of relay_bot]) w).
Proof.
  intros relay_bot w H. unfold complete_relay_bot, dict_mem in H.
  unfold add_relay_bot, bind, dict_index, relay_bot_of.
  destruct (dict_get "nick" relay_bot); [|discriminate].
  destruct (dict_get "user" relay_bot); [|discriminate].
  destruct (dict_get "vhost" relay_bot); [|discriminate].
  reflexivity.
Qed.

Lemma relay_bots_run : forall bots w,
  forallb complete_relay_bot bots = true ->
  for_each bots add_relay_bot w
  = (inr tt, set_relay_bots (relay_bots w ++ map relay_bot_of bots) w).
Proof.
  induction bots as [|bot bots IH]; intros w H.
  - cbn. rewrite app_nil_r. now destruct w.
  - cbn [forallb] in H. apply andb_true_iff in H. destruct H as [Hbot Hbots].
    cbn [for_each]. unfold bind at 1. rewrite (add_relay_bot_run bot w Hbot).
    rewrite (IH _ Hbots). cbn [relay_bots set_relay_bots map].
    now rewrite <- app_assoc.
Qed.

Section Constructor.
Context {env : Env}.

(** X26: without an api_key (none configured, an empty one, or no
    configuration at all) the constructor raises KeyError, whatever the
    number of stocks, before it registers a relay bot or arms the timer:
    no call is scheduled. *)
Theorem init_requires_api_key : forall cfg w,
  truthy_str (raw_api_key (or_default cfg empty_raw_config)) = false ->
  let r := init cfg w in
  fst r = inl (KeyError "Missing required api_key in ticker config")
  /\ relay_bots (snd r) = relay_bots w
  /\ call_id (snd r) = call_id w
  /\ calls_scheduled (events (snd r)) = calls_scheduled (events w).
Proof.
  intros cfg w Hkey. cbv zeta.
  remember (init cfg w) as r eqn:Hr. unfold init in Hr.
  cbv zeta in Hr. cbn [api_key channels stocks] in Hr.
  rewrite Hkey in Hr. cbn [negb] in Hr.
  unfold bind, log, modify, ret, raise in Hr.
  destruct (Nat.eqb (List.length (or_default (raw_channels
              (or_default cfg empty_raw_config)) [])) 0);
    destruct (Nat.eqb (List.length (or_default (raw_stocks
                (or_default cfg empty_raw_config)) [])) 0);
    subst r; cbn [fst snd relay_bots call_id events add_event set_config];
    rewrite ?calls_scheduled_app; cbn [calls_scheduled flat_map];
    rewrite ?app_nil_r; auto.
Qed.

(** X27: a configuration the constructor accepts leaves the plugin with
    the configured relay bots as patterns, in the order of the
    configuration, with no predictions, and with exactly one call of tick
    scheduled, 1 to 15 minutes ahead; it makes no request. *)
Theorem init_starts_plugin : forall raw w,
  truthy_str (raw_api_key raw) = true ->
  forallb complete_relay_bot (or_default (raw_relay_bots raw) []) = true ->
  (List.length (or_default (raw_stocks raw) []) <= 5)%nat ->
  let r := init (Some raw) w in
  fst r = inr tt
  /\ relay_bots (snd r) = map relay_bot_of (or_default (raw_relay_bots raw) [])
  /\ predictions (snd r) = []
  /\ requests_made (snd r) = requests_made w
  /\ exists secs,
       call_id (snd r) = Some secs
       /\ calls_scheduled (events (snd r))
          = (calls_scheduled (events w) ++ [secs])%list
       /\ 60 <= secs <= 900.
Proof.
  intros raw w Hkey Hbots Hstocks. cbv zeta.
  remember (init (Some raw) w) as r eqn:Hr. unfold init in Hr.
  cbv zeta in Hr. cbn [api_key channels stocks cfg_relay_bots or_default] in Hr.
  rewrite Hkey in Hr. cbn [negb] in Hr.
  assert (Hfew : Nat.ltb 5 (List.length (or_default (raw_stocks raw) []))
                 = false) by (apply Nat.ltb_ge; lia).
  rewrite Hfew in Hr.
  assert (Hsecs : 60 <= (15 - minute (clock (clock_reads w)) mod 15) * 60 <= 900).
  { pose proof (Z.mod_pos_bound (minute (clock (clock_reads w))) 15
                                ltac:(lia)). lia. }
  unfold wait, est_now, log in Hr. unfold bind, modify, ret in Hr.
  destruct (Nat.eqb (List.length (or_default (raw_channels raw) [])) 0);
    destruct (Nat.eqb (List.length (or_default (raw_stocks raw) [])) 0);
    rewrite (relay_bots_run _ _ Hbots) in Hr;
    subst r;
    cbn [fst snd relay_bots predictions requests_made call_id events
         add_event set_config set_relay_bots set_predictions set_call_id
         tick_clock clock_reads app];
    (split; [reflexivity|]); (split; [reflexivity|]);
    (split; [reflexivity|]); (split; [reflexivity|]);
    exists ((15 - minute (clock (clock_reads w)) mod 15) * 60);
    (split; [reflexivity|]); (split; [|exact Hsecs]);
    rewrite ?calls_scheduled_app; cbn [calls_scheduled flat_map app];
    rewrite ?app_nil_r; reflexivity.
Qed.

End Constructor.

(** No configuration at all. *)
Lemma init_requires_api_key_no_config :
  let r := init (env := market_env) None blank_world in
  fst r = inl (KeyError "Missing required api_key in ticker config")
  /\ relay_bots (snd r) = relay_bots blank_world
  /\ call_id (snd r) = call_id blank_world
  /\ calls_scheduled (events (snd r)) = calls_scheduled (events blank_world).
Proof.
  apply (init_requires_api_key (env := market_env) None blank_world).
  reflexivity.
Defined.

(** The configuration with one relay bot. *)
Lemma init_starts_relay_plugin :
  let r := init (env := market_env) (Some relay_config) blank_world in
  fst r = inr tt
  /\ relay_bots (snd r)
     = map relay_bot_of (or_default (raw_relay_bots relay_config) [])
  /\ predictions (snd r) = []
  /\ requests_made (snd r) = requests_made blank_world
  /\ exists secs,
       call_id (snd r) = Some secs
       /\ calls_scheduled (events (snd r))
          = (calls_scheduled (events blank_world) ++ [secs])%list
       /\ 60 <= secs <= 900.
Proof.
  apply (init_starts_plugin (env := market_env) relay_config blank_world).
  - reflexivity.
  - reflexivity.
  - simpl. lia.
Defined.

(** ** The report of the predictions when the fetch succeeds *)

Lemma dict_get_in : forall V (d : dict V) k v,
  dict_get k d = Some v -> In v (map snd d).
Proof.
  induction d as [|[k0 v0] d IH]; intros k v; simpl; [discriminate|].
  destruct (String.eqb k k0).
  - intros [= ->]. now left.
  - intros H. right. now apply (IH k).
Qed.

Lemma for_each_messages : forall (P : world -> Prop) body message,
  (forall (channel : string) w,
      P w -> body channel w = (inr tt, add_event (SendMsg channel message) w)) ->
  (forall channel w, P w -> P (add_event (SendMsg channel message) w)) ->
  forall chans w,
    P w -> for_each chans body w = (inr tt, after_messages chans message w).
Proof.
  intros P body message Hbody Hkeep.
  induction chans as [|channel chans IH]; intros w Hw; [reflexivity|].
  cbn [for_each]. unfold bind at 1. rewrite (Hbody channel w Hw).
  rewrite (IH _ (Hkeep channel w Hw)). reflexivity.
Qed.

Lemma to_channels_app : forall chans texts texts',
  to_channels chans (texts ++ texts')
  = (to_channels chans texts ++ to_channels chans texts')%list.
Proof. intros. unfold to_channels. apply flat_map_app. Qed.

Section PredictionsJudged.
Context {rt : PyRuntime} {env : Env}.

Lemma market_is_open_world : forall w,
  exists is_open, market_is_open w = (inr is_open, tick_clock w).
Proof.
  intros w. unfold market_is_open, bind, est_now, ret. eexists. reflexivity.
Qed.

(** [send_prediction] for a stored prediction with a base price other than
    zero: one text, to every channel. *)
Lemma send_prediction_run : forall nick symbol actual w inner p,
  dict_get symbol (predictions w) = Some inner ->
  dict_get nick inner = Some p ->
  PrimFloat.eqb (base_of p) 0%float = false ->
  exists report,
    send_prediction nick symbol actual w
    = (inr tt, after_messages (channels (config w)) report (tick_clock w)).
Proof.
  intros nick symbol actual w inner [[dt base] prediction] Hsym Hnick Hbase.
  cbn [base_of] in Hbase.
  destruct (market_is_open_world w) as [is_open Hopen].
  destruct (colorize_returns (prediction / base * 100 - 100)%float)
    as [predicted_text Hpredicted].
  destruct (colorize_returns (actual / base * 100 - 100)%float)
    as [actual_text Hactual].
  assert (Hfmt : exists report,
            py_format
              ("Prediction by {} for " ++ x02 ++ "{}" ++ x02 ++ ": {} ({}). "
               ++ "Actual value at {}: {} ({}). "
               ++ "Prediction set at {}.")
              [AStr nick; AStr symbol; AFloat prediction;
               AStr predicted_text;
               AStr (if is_open then "open" else "close"); AFloat actual;
               AStr actual_text;
               AStr (strftime "%Y-%m-%d %H:%M:%S %Z" dt)] []
            = inr report) by (eexists; reflexivity).
  destruct Hfmt as [report Hreport]. exists report.
  unfold send_prediction. unfold bind at 1. rewrite Hopen.
  unfold bind at 1, predictions_at. cbn [predictions tick_clock].
  rewrite Hsym. unfold bind at 1, dict_index. rewrite Hnick, lift_run.
  unfold bind at 1, gets.
  apply (for_each_messages (fun _ => True)); auto.
  intros channel w2 _. unfold get_delta. rewrite Hbase.
  unfold bind at 1. rewrite lift_run.
  unfold bind at 1. rewrite Hpredicted, lift_run.
  unfold bind at 1. rewrite lift_run.
  unfold bind at 1. rewrite Hactual, lift_run.
  unfold bind at 1. rewrite Hreport, lift_run. reflexivity.
Qed.

(** The loop over the predictions of one symbol. *)
Lemma closest_loop :
  forall symbol actual inner (items : dict prediction_t) c w,
  dict_get symbol (predictions w) = Some inner ->
  forallb (fun p => negb (PrimFloat.eqb (base_of p) 0%float)) (map snd inner)
  = true ->
  Forall (fun item => In (fst item) (dict_keys inner)) items ->
  exists reports w',
    for_fold items c
      (fun item c =>
         let '(nick, (dt, base, prediction)) := item in
         let delta := PrimFloat.abs (actual - prediction)%float in
         let c' :=
           if negb (truthy_float (closest_delta c))
              || match closest_delta c with
                 | Some cd => PrimFloat.ltb delta cd
                 | None => false
                 end
           then mk_closest (Some prediction) (Some delta) (Some nick)
           else c in
         send_prediction nick symbol actual ;;
         ret c') w
    = (inr (fold_left (closest_step actual) items c), w')
    /\ List.length reports = List.length items
    /\ messages_sent (events w')
       = (messages_sent (events w)
          ++ to_channels (channels (config w)) reports)%list
    /\ config w' = config w
    /\ predictions w' = predictions w.
Proof.
  intros symbol actual inner items.
  induction items as [|[nick [[dt base] prediction]] items IH];
    intros c w Hsym Hbases Hitems.
  - exists [], w. cbn. rewrite app_nil_r. repeat split; auto.
  - inversion Hitems as [|item items' Hin Hrest]; subst. cbn [fst] in Hin.
    destruct (dict_get_of_key _ inner nick Hin) as [p Hnick].
    assert (Hbase : PrimFloat.eqb (base_of p) 0%float = false).
    { rewrite forallb_forall in Hbases.
      apply negb_true_iff. apply Hbases. now apply (dict_get_in _ inner nick). }
    destruct (send_prediction_run nick symbol actual w inner p Hsym Hnick Hbase)
      as [report Hreport].
    cbn [for_fold]. unfold bind at 1. unfold bind at 1. rewrite Hreport.
    unfold ret at 1.
    destruct (after_messages_frame (channels (config w)) report (tick_clock w))
      as [Hc Hp].
    cbn [config predictions tick_clock] in Hc, Hp.
    match goal with
    | |- context [for_fold items ?c1 _ ?w1] =>
        destruct (IH c1 w1) as (reports & w' & Hrun & Hlen & Hmsgs & Hcfg
                                & Hpred);
        [now rewrite Hp | assumption | assumption |]
    end.
    exists (report :: reports), w'.
    split; [exact Hrun|]. split; [cbn; now rewrite Hlen|].
    split; [|split; [now rewrite Hcfg|now rewrite Hpred]].
    rewrite Hmsgs, Hc, after_messages_sent.
    cbn [events tick_clock to_channels flat_map].
    now rewrite <- app_assoc.
Qed.

End PredictionsJudged.

Lemma closest_step_started : forall actual c item,
  c = mk_closest None None None \/ started c ->
  started (closest_step actual c item).
Proof.
  intros actual c [nick [[dt base] prediction]] [->|(p & d & n & ->)].
  - cbn. unfold started. eauto.
  - cbn [closest_step closest_delta].
    match goal with
    | |- started (if ?b then _ else _) => destruct b
    end; unfold started; eauto.
Qed.

Lemma closest_fold_started : forall actual items c,
  started c -> started (fold_left (closest_step actual) items c).
Proof.
  intros actual items. induction items as [|item items IH]; intros c Hc;
    [assumption|].
  cbn [fold_left]. apply IH. apply closest_step_started. now right.
Qed.

Lemma closest_of_started : forall actual inner,
  inner <> [] -> started (closest_of actual inner).
Proof.
  intros actual [|item inner] Hsome; [contradiction|].
  unfold closest_of. cbn [fold_left]. apply closest_fold_started.
  apply closest_step_started. now left.
Qed.

Section SymbolJudged.
Context {rt : PyRuntime} {env : Env}.

(** [do_symbol] when the fetch has succeeded: the reports, then the
    announcement of the guess the loop has left in its locals. *)
Lemma do_symbol_judged : forall symbol w data w0 inner,
  get_daily symbol w = (inr data, w0) ->
  dict_get symbol (predictions w) = Some inner ->
  inner <> [] ->
  forallb (fun p => negb (PrimFloat.eqb (base_of p) 0%float)) (map snd inner)
  = true ->
  PrimFloat.eqb (d_open data) 0%float = false ->
  PrimFloat.eqb (d_close data) 0%float = false ->
  exists is_open reports closest_text announcement w',
    let actual := if (is_open : bool) then d_open data else d_close data in
    market_is_open w0 = (inr is_open, tick_clock w0)
    /\ do_symbol symbol w = (inr tt, w')
    /\ List.length reports = List.length inner
    /\ py_format
         ("{} had the closest guess for " ++ x02 ++ "{}" ++ x02
          ++ " out of {} predictions with a prediction of {} ({}).")
         [opt_arg AStr (closest_nick (closest_of actual inner)); AStr symbol;
          AInt (Z.of_nat (List.length inner));
          opt_arg AFloat (closest_prediction (closest_of actual inner));
          AStr closest_text] []
       = inr announcement
    /\ messages_sent (events w')
       = (messages_sent (events w)
          ++ to_channels (channels (config w)) (reports ++ [announcement]))%list
    /\ predictions w' = predictions w.
Proof.
  intros symbol w data w0 inner Hfetch Hsym Hsome Hbases Hopen Hclose.
  pose proof (get_daily_quiet symbol w) as Hquiet.
  rewrite Hfetch in Hquiet. cbn [snd] in Hquiet.
  pose proof (network_only_messages _ _ Hquiet) as Hsent.
  destruct Hquiet as (Hconfig & _ & Hpredictions & _).
  destruct (market_is_open_world w0) as [is_open Hmarket].
  exists is_open. cbv zeta.
  set (actual := if is_open then d_open data else d_close data).
  assert (Hactual : PrimFloat.eqb actual 0%float = false)
    by (unfold actual; now destruct is_open).
  unfold do_symbol. unfold bind at 1, try_. unfold bind at 1.
  rewrite Hfetch. unfold bind at 1. rewrite Hmarket. unfold ret at 1.
  fold actual. unfold bind at 1, gets. cbn [config tick_clock].
  unfold bind at 1, predictions_at. cbn [predictions tick_clock].
  rewrite Hpredictions, Hsym.
  unfold bind at 1.
  match goal with
  | |- context [for_fold inner ?c0 _ ?w1] =>
      destruct (closest_loop symbol actual inner inner c0 w1)
        as (reports & w' & Hrun & Hlen & Hmsgs & Hcfg & Hpred)
  end.
  { cbn [predictions tick_clock]. now rewrite Hpredictions. }
  { assumption. }
  { apply Forall_forall. intros item Hin. unfold dict_keys. now apply in_map. }
  cbv zeta in Hrun. rewrite Hrun. fold (closest_of actual inner).
  destruct (closest_of_started actual inner Hsome) as (p & d & n & Hclosest).
  rewrite Hclosest.
  cbn [predictions config events tick_clock] in Hmsgs, Hcfg, Hpred.
  destruct (colorize_returns (p / actual * 100 - 100)%float)
    as [closest_text Htext].
  assert (Hfmt : exists announcement,
            py_format
              ("{} had the closest guess for " ++ x02 ++ "{}" ++ x02
               ++ " out of {} predictions with a prediction of {} ({}).")
              [AStr n; AStr symbol; AInt (Z.of_nat (List.length inner));
               AFloat p; AStr closest_text] []
            = inr announcement) by (eexists; reflexivity).
  destruct Hfmt as [announcement Hannouncement].
  exists reports, closest_text, announcement,
    (add_event (Sleep 15)
               (after_messages (channels (config w0)) announcement w')).
  split; [reflexivity|].
  unfold bind at 1.
  rewrite (for_each_messages
             (fun w2 => predictions w2 = predictions w') _ announcement).
  - unfold sleep, modify.
    destruct (after_messages_frame (channels (config w0)) announcement w')
      as [_ Hp].
    split; [reflexivity|]. split; [exact Hlen|].
    split; [exact Hannouncement|]. split.
    + cbn [events add_event]. rewrite messages_sent_app, after_messages_sent.
      cbn [messages_sent flat_map]. rewrite app_nil_r.
      rewrite Hmsgs, Hsent, to_channels_app, Hconfig.
      cbn [to_channels flat_map]. now rewrite app_nil_r, app_assoc.
    + cbn [predictions add_event]. now rewrite Hp, Hpred.
  - intros channel w2 Hw2. unfold bind at 1.
    rewrite Hw2, Hpred, Hpredictions, Hsym.
    cbn [closest_prediction closest_nick opt_arg].
    unfold get_delta. rewrite Hactual. unfold bind at 1. rewrite lift_run.
    unfold bind at 1. rewrite Htext, lift_run.
    unfold bind at 1. rewrite Hannouncement, lift_run. reflexivity.
  - intros channel w2 Hw2. exact Hw2.
  - reflexivity.
Qed.


(** X29: an exact guess does not stay the closest.  With two predictions
    for a symbol of which the first hits the actual value (a difference of
    0.0, which the loop's test "not closest_delta" takes for no guess so
    far), the second one is announced as the closest guess, however far
    off it is. *)
Theorem do_symbol_exact_guess_loses :
  forall symbol w data w0 nick1 p1 nick2 dt2 base2 prediction2,
  get_daily symbol w = (inr data, w0) ->
  dict_get symbol (predictions w)
  = Some [(nick1, p1); (nick2, (dt2, base2, prediction2))] ->
  PrimFloat.eqb (base_of p1) 0%float = false ->
  PrimFloat.eqb base2 0%float = false ->
  PrimFloat.eqb (d_open data) 0%float = false ->
  PrimFloat.eqb (d_close data) 0%float = false ->
  0 <= minute (clock (clock_reads w0)) < 60 ->
  let actual := if within_hours (clock (clock_reads w0))
                then d_open data else d_close data in
  PrimFloat.eqb (PrimFloat.abs (actual - snd p1)) 0%float = true ->
  exists reports rest w',
    do_symbol symbol w = (inr tt, w')
    /\ messages_sent (events w')
       = (messages_sent (events w)
          ++ to_channels (channels (config w))
               (reports
                ++ [(nick2 ++ " had the closest guess for " ++ x02 ++ symbol
                     ++ x02 ++ " out of 2 predictions with a prediction of "
                     ++ float_repr prediction2 ++ " (" ++ rest
                     ++ ").")%string]))%list.
Proof.
  intros symbol w data w0 nick1 [[dt1 base1] prediction1] nick2 dt2 base2
         prediction2 Hfetch Hsym Hbase1 Hbase2 Hopen Hclose Hmin actual Hexact.
  cbn [base_of] in Hbase1. cbn [snd] in Hexact.
  destruct (do_symbol_judged symbol w data w0 _ Hfetch Hsym)
    as (is_open & reports & closest_text & announcement & w' & Hmarket & Hrun
        & _ & Hfmt & Hmsgs & _).
  { discriminate. }
  { cbn [map snd forallb base_of]. now rewrite Hbase1, Hbase2. }
  { assumption. }
  { assumption. }
  assert (His_open : is_open = within_hours (clock (clock_reads w0))).
  { unfold market_is_open, bind, est_now, ret in Hmarket.
    rewrite (market_hours _ Hmin) in Hmarket. congruence. }
  subst is_open. fold actual in Hfmt.
  unfold closest_of in Hfmt. cbn [fold_left closest_step] in Hfmt.
  cbn [closest_delta truthy_float negb orb] in Hfmt.
  rewrite Hexact in Hfmt. cbn [negb orb closest_nick closest_prediction opt_arg]
    in Hfmt.
  exists reports, closest_text, w'. split; [exact Hrun|].
  rewrite Hmsgs. do 3 f_equal.
  assert (Hsame : inr announcement
                  = @inr exn string
                      (nick2 ++ " had the closest guess for " ++ x02 ++ symbol
                       ++ x02
                       ++ " out of 2 predictions with a prediction of "
                       ++ float_repr prediction2 ++ " (" ++ closest_text
                       ++ ").")).
  { rewrite <- Hfmt. reflexivity. }
  now injection Hsame as ->.
Qed.

End SymbolJudged.


(** alice guessed the open of 108 to the cent, bob guessed 120: bob is
    announced. *)
Lemma do_symbol_exact_guess_loses_to_bob :
  exists reports rest w',
    do_symbol (rt := demo_runtime) (env := market_env) "AAPL" two_predictions
    = (inr tt, w')
    /\ messages_sent (events w')
       = (messages_sent (events two_predictions)
          ++ to_channels (channels (config two_predictions))
               (reports
                ++ [("bob" ++ " had the closest guess for " ++ x02 ++ "AAPL"
                     ++ x02 ++ " out of 2 predictions with a prediction of "
                     ++ float_repr (PyRuntime := demo_runtime) 120%float
                     ++ " (" ++ rest ++ ").")%string]))%list.
Proof.
  apply (do_symbol_exact_guess_loses
           (rt := demo_runtime) (env := market_env) "AAPL" two_predictions
           (mk_daily 110 110 108 (100 / 110 * 100 - 100))%float
           (snd (get_daily (rt := demo_runtime) (env := market_env) "AAPL"
                           two_predictions))
           "alice" (tuesday_11am, 108, 108)%float
           "bob" tuesday_11am 108%float 120%float).
  - vm_compute. reflexivity.
  - reflexivity.
  - reflexivity.
  - reflexivity.
  - reflexivity.
  - reflexivity.
  - vm_compute. split; [discriminate | reflexivity].
  - vm_compute. reflexivity.
Defined.
